(** * Study tracker: session time accounting and aggregation

    A shallow embedding of the JavaScript sources [src/App.js] and
    [src/hooks/stopwatch.js] (and of the earlier revision of the load-time
    normalizer), followed by the properties of the session engine.

    Conventions of the embedding.
    - A JavaScript number is an integer or NaN ([num]).  Timestamps,
      durations and second counts are integers in the program; a division
      whose quotient is floored or rounded at once ([Math.floor(x / 1000)],
      [Math.round(x / 1000)]) is the corresponding integer operation.
    - A JavaScript string is the sequence of its UTF-16 code units; a
      [string] holds one code unit per character, so that the strings of
      the model are those whose code units are below 256.  Length,
      slices, comparison and white space are those of the code units.
    - A stored record is a JavaScript object used as a map from property
      names to values ([gmap string JsVal]); reading a missing property
      gives [undefined].
    - What the host decides (parsing of numeric and date strings, the local
      time zone adjustment) is a parameter ([Host]); the wall clock and the
      random id source are explicit state ([World]). *)

From Stdlib Require Import ZArith Lia Bool List Ascii String Sorted.
From stdpp Require Import base option list strings gmap.

Local Open Scope Z_scope.

(** ** JavaScript values *)

Module Js.

(** Numbers: integers and NaN. *)
Inductive num : Type :=
| Fin (z : Z)
| NaN.

(** The values a stored session can hold.  Arrays occur as tag lists;
    their elements are strings. *)
Inductive JsVal : Type :=
| JUndefined
| JNull
| JBool (b : bool)
| JNum (n : num)
| JStr (s : string)
| JArr (l : list string).

(** Exceptions the modelled code can raise. *)
Inductive JsError : Type :=
| RangeError
| TypeError.

(** Completion of an evaluation: a value, or a thrown exception. *)
Inductive Completion (A : Type) : Type :=
| Normal (a : A)
| Throw (e : JsError).
Arguments Normal {A} a.
Arguments Throw {A} e.

Definition cbind {A B} (c : Completion A) (k : A -> Completion B) : Completion B :=
  match c with
  | Normal a => k a
  | Throw e => Throw e
  end.

(** *** Arithmetic and comparison on numbers *)

Definition num_add (a b : num) : num :=
  match a, b with
  | Fin x, Fin y => Fin (x + y)
  | _, _ => NaN
  end.

Definition num_sub (a b : num) : num :=
  match a, b with
  | Fin x, Fin y => Fin (x - y)
  | _, _ => NaN
  end.

(** [a < b], [a <= b]: false as soon as one side is NaN. *)
Definition num_lt (a b : num) : bool :=
  match a, b with
  | Fin x, Fin y => x <? y
  | _, _ => false
  end.

Definition num_le (a b : num) : bool :=
  match a, b with
  | Fin x, Fin y => x <=? y
  | _, _ => false
  end.

Definition num_ge (a b : num) : bool := num_le b a.
Definition num_gt (a b : num) : bool := num_lt b a.

(** [a === b] on numbers: NaN differs from itself. *)
Definition num_eq (a b : num) : bool :=
  match a, b with
  | Fin x, Fin y => x =? y
  | _, _ => false
  end.

(** [Math.min(a, b)] *)
Definition Math_min (a b : num) : num :=
  match a, b with
  | Fin x, Fin y => Fin (Z.min x y)
  | _, _ => NaN
  end.

(** [Math.max(a, b)] *)
Definition Math_max (a b : num) : num :=
  match a, b with
  | Fin x, Fin y => Fin (Z.max x y)
  | _, _ => NaN
  end.

(** [Math.floor(a / d)] for a positive integer constant [d]. *)
Definition floor_div (a : num) (d : Z) : num :=
  match a with
  | Fin x => Fin (x / d)
  | NaN => NaN
  end.

(** [Math.round(a / d)]: the nearest integer, halves going up. *)
Definition round_div (a : num) (d : Z) : num :=
  match a with
  | Fin x => Fin ((2 * x + d) / (2 * d))
  | NaN => NaN
  end.

(** [a % d]: the remainder has the sign of the dividend. *)
Definition num_rem (a : num) (d : Z) : num :=
  match a with
  | Fin x => Fin (Z.rem x d)
  | NaN => NaN
  end.

(** [isNaN] on a number. *)
Definition num_isNaN (a : num) : bool :=
  match a with
  | NaN => true
  | Fin _ => false
  end.

(** Truthiness of a number: 0 and NaN are falsy. *)
Definition num_truthy (a : num) : bool :=
  match a with
  | Fin z => negb (z =? 0)
  | NaN => false
  end.

(** *** Coercions *)

(** ToBoolean *)
Definition truthy (v : JsVal) : bool :=
  match v with
  | JUndefined | JNull => false
  | JBool b => b
  | JNum n => num_truthy n
  | JStr s => negb (String.eqb s EmptyString)
  | JArr _ => true
  end.

(** [v === undefined || v === null] *)
Definition nullish (v : JsVal) : bool :=
  match v with
  | JUndefined | JNull => true
  | _ => false
  end.

(** [a || b] *)
Definition js_or (a b : JsVal) : JsVal := if truthy a then a else b.

(** [a ?? b] *)
Definition js_coalesce (a b : JsVal) : JsVal := if nullish a then b else a.

(** [Array.isArray(v)] *)
Definition isArray (v : JsVal) : bool :=
  match v with
  | JArr _ => true
  | _ => false
  end.

(** [Array.prototype.join] on an array of strings. *)
Definition join (sep : string) (l : list string) : string := String.concat sep l.

(** ToPrimitive: an array becomes its elements joined by commas. *)
Definition ToPrimitive (v : JsVal) : JsVal :=
  match v with
  | JArr l => JStr (join "," l)
  | _ => v
  end.

(** Decimal digits of a natural number, most significant first. *)
Definition digit_char (d : Z) : ascii := ascii_of_nat (48 + Z.to_nat d).

Fixpoint digits_go (fuel : nat) (n : Z) (acc : string) : string :=
  match fuel with
  | O => acc
  | S fuel' =>
      let acc' := String (digit_char (n mod 10)) acc in
      if n / 10 =? 0 then acc' else digits_go fuel' (n / 10) acc'
  end.

Definition nat_digits (n : Z) : string :=
  digits_go (S (Z.to_nat (Z.log2 n))) n EmptyString.

(** The last [w] decimal digits of [n], padded with zeros on the left. *)
Fixpoint fixed_digits (w : nat) (n : Z) (acc : string) : string :=
  match w with
  | O => acc
  | S w' => fixed_digits w' (n / 10) (String (digit_char (n mod 10)) acc)
  end.

(** Number::toString for the integers of the model (decimal notation). *)
Definition NumberToString (n : num) : string :=
  match n with
  | NaN => "NaN"
  | Fin z => if z <? 0 then String "-" (nat_digits (- z)) else nat_digits z
  end.

(** ToString on a value. *)
Definition ToString (v : JsVal) : string :=
  match v with
  | JUndefined => "undefined"
  | JNull => "null"
  | JBool true => "true"
  | JBool false => "false"
  | JNum n => NumberToString n
  | JStr s => s
  | JArr l => join "," l
  end.

Definition isString (v : JsVal) : bool :=
  match v with
  | JStr _ => true
  | _ => false
  end.

(** [a === b].  Two arrays are equal only when they are the same object,
    which a value cannot tell: the model answers false for arrays. *)
Definition strict_eq (a b : JsVal) : bool :=
  match a, b with
  | JUndefined, JUndefined => true
  | JNull, JNull => true
  | JBool x, JBool y => Bool.eqb x y
  | JNum x, JNum y => num_eq x y
  | JStr x, JStr y => String.eqb x y
  | _, _ => false
  end.

(** [c.repeat(n)] for a character [c]. *)
Fixpoint repeat_char (n : nat) (c : ascii) : string :=
  match n with
  | O => EmptyString
  | S n' => String c (repeat_char n' c)
  end.

(** [s.padStart(n, c)] for a one-character filler [c]. *)
Definition padStart (n : nat) (c : ascii) (s : string) : string :=
  repeat_char (n - String.length s) c +:+ s.

(** The class [\d] of a regular expression. *)
Definition is_digit (c : ascii) : bool :=
  ((48 <=? nat_of_ascii c) && (nat_of_ascii c <=? 57))%nat.

Fixpoint all_digits (s : string) : bool :=
  match s with
  | EmptyString => true
  | String c s' => is_digit c && all_digits s'
  end.


End Js.
Export Js.

(** ** Calendar arithmetic of the Date object (ECMAScript, section
    "Date Objects") *)

Module DateTime.

Definition msPerDay : Z := 86400000.
Definition msPerHour : Z := 3600000.
Definition msPerMinute : Z := 60000.
Definition msPerSecond : Z := 1000.

(** Largest magnitude of a valid time value. *)
Definition maxTime : Z := 8640000000000000.

Definition Day (t : Z) : Z := t / msPerDay.
Definition TimeWithinDay (t : Z) : Z := t mod msPerDay.

(** Civil date (year, month 1..12, day of month 1..31) of a day number
    counted from 1970-01-01, in the proleptic Gregorian calendar. *)
Definition civil_from_days (z : Z) : Z * Z * Z :=
  let z := z + 719468 in
  let era := z / 146097 in
  let doe := z - era * 146097 in
  let yoe := (doe - doe / 1460 + doe / 36524 - doe / 146096) / 365 in
  let y := yoe + era * 400 in
  let doy := doe - (365 * yoe + yoe / 4 - yoe / 100) in
  let mp := (5 * doy + 2) / 153 in
  let d := doy - (153 * mp + 2) / 5 + 1 in
  let m := if mp <? 10 then mp + 3 else mp - 9 in
  (if m <=? 2 then y + 1 else y, m, d).

(** Day number of a civil date; [d] may lie outside the month. *)
Definition days_from_civil (y m d : Z) : Z :=
  let y := if m <=? 2 then y - 1 else y in
  let era := y / 400 in
  let yoe := y - era * 400 in
  let doy := (153 * (if 2 <? m then m - 3 else m + 9) + 2) / 5 + d - 1 in
  let doe := yoe * 365 + yoe / 4 - yoe / 100 + doy in
  era * 146097 + doe - 719468.

Definition YearFromTime (t : Z) : Z := fst (fst (civil_from_days (Day t))).
(** Months are numbered from 0. *)
Definition MonthFromTime (t : Z) : Z := snd (fst (civil_from_days (Day t))) - 1.
Definition DateFromTime (t : Z) : Z := snd (civil_from_days (Day t)).
Definition HourFromTime (t : Z) : Z := (t / msPerHour) mod 24.
Definition MinFromTime (t : Z) : Z := (t / msPerMinute) mod 60.
Definition SecFromTime (t : Z) : Z := (t / msPerSecond) mod 60.
Definition msFromTime (t : Z) : Z := t mod msPerSecond.

Definition MakeTime (hour min sec ms : Z) : Z :=
  hour * msPerHour + min * msPerMinute + sec * msPerSecond + ms.

Definition MakeDay (year month date : Z) : Z :=
  let ym := year + month / 12 in
  let mn := month mod 12 in
  days_from_civil ym (mn + 1) 1 + date - 1.

Definition MakeDate (day time : Z) : Z := day * msPerDay + time.

Definition TimeClip (t : Z) : num :=
  if maxTime <? Z.abs t then NaN else Fin t.

(** [Date.prototype.toISOString] on a valid time value. *)
Definition year_string (y : Z) : string :=
  if (0 <=? y) && (y <=? 9999) then fixed_digits 4 y EmptyString
  else String (if y <? 0 then "-"%char else "+"%char)
              (fixed_digits 6 (Z.abs y) EmptyString).

Definition iso_string (t : Z) : string :=
  year_string (YearFromTime t) +:+ "-"
  +:+ fixed_digits 2 (MonthFromTime t + 1) EmptyString +:+ "-"
  +:+ fixed_digits 2 (DateFromTime t) EmptyString +:+ "T"
  +:+ fixed_digits 2 (HourFromTime t) EmptyString +:+ ":"
  +:+ fixed_digits 2 (MinFromTime t) EmptyString +:+ ":"
  +:+ fixed_digits 2 (SecFromTime t) EmptyString +:+ "."
  +:+ fixed_digits 3 (msFromTime t) EmptyString +:+ "Z".

Definition toISOString (tv : num) : Completion string :=
  match tv with
  | NaN => Throw RangeError
  | Fin t => Normal (iso_string t)
  end.

(** [str.slice(0, n)] *)
Definition slice0 (n : nat) (s : string) : string := String.substring 0 n s.

(** Day of the week, 0 for Sunday. *)
Definition WeekDay (t : Z) : Z := (Day t + 4) mod 7.


End DateTime.
Export DateTime.

(** ** The host: what the JavaScript engine and its environment decide *)

Record Host : Type := {
  (** StringToNumber: the numeric value of a string, NaN when it has none *)
  StringToNumber : string -> num;
  (** [Date.parse]: the time value a date string denotes, NaN when none *)
  Date_parse : string -> num;
  (** LocalTZA(t, isUTC): the offset of local time, in milliseconds, at the
      UTC instant [t] (isUTC true) or at the local time [t] (isUTC false) *)
  LocalTZA : Z -> bool -> Z
}.

(** The wall clock and the random source, read one value at a time. *)
Record World : Type := {
  clock : nat -> Z;
  ticks : nat;
  ids : nat -> string;
  draws : nat
}.

(** Computations that read the clock or the random source. *)
Definition M (A : Type) : Type := World -> A * World.

Definition ret {A} (a : A) : M A := fun w => (a, w).

Definition bind {A B} (m : M A) (k : A -> M B) : M B :=
  fun w => let (a, w') := m w in k a w'.

Notation "'do' x <- m ; k" := (bind m (fun x => k))
  (at level 10, x name, m at level 100, k at level 200).

(** [Date.now()] *)
Definition Date_now : M Z :=
  fun w => (clock w (ticks w),
            {| clock := clock w; ticks := S (ticks w); ids := ids w; draws := draws w |}).

(** [Math.random().toString(36).slice(2)] *)
Definition random_id : M string :=
  fun w => (ids w (draws w),
            {| clock := clock w; ticks := ticks w; ids := ids w; draws := S (draws w) |}).

Fixpoint mapM {A B} (f : A -> M B) (l : list A) : M (list B) :=
  match l with
  | [] => ret []
  | x :: l' => do y <- f x; do ys <- mapM f l'; ret (y :: ys)
  end.

(** A session object: property name to value. *)
Abbreviation Session := (gmap string JsVal).

(** [s.k]: a missing property reads as [undefined]. *)
Definition get (s : Session) (k : string) : JsVal := default JUndefined (s !! k).

Section HostOps.

Context (host : Host).

(** ToNumber; [Number(v)] called as a function is the same conversion. *)
Definition ToNumber (v : JsVal) : num :=
  match v with
  | JUndefined => NaN
  | JNull => Fin 0
  | JBool b => Fin (if b then 1 else 0)
  | JNum n => n
  | JStr s => StringToNumber host s
  | JArr l => StringToNumber host (join "," l)
  end.

(** [a - b] *)
Definition js_sub (a b : JsVal) : num := num_sub (ToNumber a) (ToNumber b).

(** [a + b]: concatenation as soon as one operand is a string. *)
Definition js_add (a b : JsVal) : JsVal :=
  let pa := ToPrimitive a in
  let pb := ToPrimitive b in
  if isString pa || isString pb then JStr (ToString pa +:+ ToString pb)
  else JNum (num_add (ToNumber pa) (ToNumber pb)).

(** [a >= n] where the right operand is a number. *)
Definition js_ge_num (a : JsVal) (n : num) : bool := num_ge (ToNumber a) n.

Definition LocalTime (t : Z) : Z := t + LocalTZA host t true.
Definition UTC (t : Z) : Z := t - LocalTZA host t false.

(** [new Date(v).getTime()] *)
Definition Date_new (v : JsVal) : num :=
  match ToPrimitive v with
  | JStr s => Date_parse host s
  | p => match ToNumber p with
         | Fin t => TimeClip t
         | NaN => NaN
         end
  end.

(** [d.setHours(hour, min, sec, ms)] on a date of time value [tv];
    the result is the new time value. *)
Definition setHours (tv : num) (hour min sec ms : Z) : num :=
  match tv with
  | NaN => NaN
  | Fin t =>
      let tl := LocalTime t in
      TimeClip (UTC (MakeDate (Day tl) (MakeTime hour min sec ms)))
  end.

Definition getFullYear (t : Z) : Z := YearFromTime (LocalTime t).
Definition getMonth (t : Z) : Z := MonthFromTime (LocalTime t).
Definition getDate (t : Z) : Z := DateFromTime (LocalTime t).

(** [d.setDate(dt)], [d.setMonth(m)], [d.setFullYear(y)] on a valid date
    of time value [t]. *)
Definition setDate (t : Z) (dt : Z) : num :=
  let tl := LocalTime t in
  TimeClip (UTC (MakeDate (MakeDay (YearFromTime tl) (MonthFromTime tl) dt)
                          (TimeWithinDay tl))).

Definition setMonth (t : Z) (m : Z) : num :=
  let tl := LocalTime t in
  TimeClip (UTC (MakeDate (MakeDay (YearFromTime tl) m (DateFromTime tl))
                          (TimeWithinDay tl))).

Definition setFullYear (t : Z) (y : Z) : num :=
  let tl := LocalTime t in
  TimeClip (UTC (MakeDate (MakeDay y (MonthFromTime tl) (DateFromTime tl))
                          (TimeWithinDay tl))).

Definition getHours (t : Z) : Z := HourFromTime (LocalTime t).
Definition getMinutes (t : Z) : Z := MinFromTime (LocalTime t).
Definition getDay (t : Z) : Z := WeekDay (LocalTime t).

(** [new Date(year, month, date, hours, minutes).getTime()] *)
Definition Date_fields (year month date hours minutes : num) : num :=
  match year, month, date, hours, minutes with
  | Fin y, Fin m, Fin dt, Fin h, Fin mi =>
      let yr := if (0 <=? y) && (y <=? 99) then 1900 + y else y in
      TimeClip (UTC (MakeDate (MakeDay yr m dt) (MakeTime h mi 0 0)))
  | _, _, _, _, _ => NaN
  end.


End HostOps.

(** ** src/hooks/stopwatch.js *)

Module Stopwatch.

(** The three pieces of React state of [useStopwatch]. *)
Record State : Type := {
  isRunning : bool;
  startAt : option Z;       (* null when no segment is running *)
  elapsedOffset : Z
}.

(** [Date.now() - startAt]: null converts to 0. *)
Definition since (now : Z) (st : State) : Z := now - default 0 (startAt st).

Definition currentElapsed (now : Z) (st : State) : Z :=
  if isRunning st then since now st + elapsedOffset st else elapsedOffset st.

Definition start (now : Z) (st : State) : State :=
  if isRunning st then st
  else {| isRunning := true; startAt := Some now; elapsedOffset := elapsedOffset st |}.

Definition pause (now : Z) (st : State) : State :=
  if negb (isRunning st) then st
  else {| isRunning := false; startAt := None;
          elapsedOffset := elapsedOffset st + since now st |}.

Definition resume (now : Z) (st : State) : State :=
  if isRunning st then st
  else {| isRunning := true; startAt := Some now; elapsedOffset := elapsedOffset st |}.

(** [stop()]: the returned object (null is [None]) and the state after
    the three setters have run. *)
Definition stop (now : Z) (st : State) : option Session * State :=
  let endTime := now in
  let duration :=
    if isRunning st then since endTime st + elapsedOffset st else elapsedOffset st in
  let st' := {| isRunning := false; startAt := None; elapsedOffset := 0 |} in
  if duration <=? 0 then (None, st')
  else (Some (<["endAt" := JNum (Fin endTime)]>
              (<["startAt" := JNum (Fin (endTime - duration))]>
               (<["durationMs" := JNum (Fin duration)]> ∅))), st').

End Stopwatch.

(** ** src/App.js *)

Module App.

Definition DEFAULT_THRESHOLDS : list Z :=
  [1; 1800; 3600; 7200; 10800; 14400; 18000; 21600; 25200].

(** [t[i]]: a number, or undefined (NaN in a comparison) out of range. *)
Definition at_index (t : list Z) (i : nat) : num :=
  match t !! i with
  | Some z => Fin z
  | None => NaN
  end.

(** The step function over a threshold array [t]. *)
Definition colorFor (t : list Z) (seconds : num) : string :=
  if negb (num_truthy seconds) || num_le seconds (Fin 0) then "bg-gray-700"
  else if num_ge seconds (at_index t 8) then "bg-green-200"
  else if num_ge seconds (at_index t 7) then "bg-green-300"
  else if num_ge seconds (at_index t 6) then "bg-green-400"
  else if num_ge seconds (at_index t 5) then "bg-green-500"
  else if num_ge seconds (at_index t 4) then "bg-green-600"
  else if num_ge seconds (at_index t 3) then "bg-green-700"
  else if num_ge seconds (at_index t 2) then "bg-green-800"
  else if num_ge seconds (at_index t 1) then "bg-green-900"
  else if num_ge seconds (at_index t 0) then "bg-green-950"
  else "bg-gray-700".

Definition colorForCount (seconds : num) : string :=
  colorFor DEFAULT_THRESHOLDS seconds.

(** The ten tiers in the order of the heatmap legend, from no activity
    to the most active day. *)
Definition tiers : list string :=
  ["bg-gray-700"; "bg-green-950"; "bg-green-900"; "bg-green-800";
   "bg-green-700"; "bg-green-600"; "bg-green-500"; "bg-green-400";
   "bg-green-300"; "bg-green-200"].

Fixpoint index_of (x : string) (l : list string) : option nat :=
  match l with
  | [] => None
  | y :: l' => if String.eqb x y then Some O else S <$> index_of x l'
  end.

(** Rank of a tier in [tiers]. *)
Definition tier_rank (c : string) : option nat := index_of c tiers.

Record HMS : Type := { hh : num; mm : num; ss : num }.

(** [secondsToHMS(sec)], from [s = Math.floor(sec)] on. *)
Definition secondsToHMS (s : num) : HMS :=
  {| hh := floor_div s 3600;
     mm := floor_div (num_rem s 3600) 60;
     ss := num_rem s 60 |}.

Definition MS_PER_DAY : Z := 86400000.

(** [formatDuration(ms)] *)
Definition formatDuration (ms : num) : string :=
  let s := floor_div ms 1000 in
  let hh := padStart 2 "0" (NumberToString (floor_div s 3600)) in
  let mm := padStart 2 "0" (NumberToString (floor_div (num_rem s 3600) 60)) in
  let ss := padStart 2 "0" (NumberToString (num_rem s 60)) in
  hh +:+ ":" +:+ mm +:+ ":" +:+ ss.


Section WithHost.

Context (host : Host).

(** [startOfDayISO(tsOrDate)] for a number (or the time value of a
    Date) [ts]. *)
Definition startOfDayISO (ts : num) : Completion string :=
  let d := match ts with Fin t => TimeClip t | NaN => NaN end in
  let d := setHours host d 0 0 0 0 in
  cbind (toISOString d) (fun iso => Normal (slice0 10 iso)).

(** [getDateCutoff(range).getTime()] when [new Date()] is [now]. *)
Definition getDateCutoff (range : string) (now : Z) : num :=
  let cutoff := now in
  if String.eqb range "week" then setDate host cutoff (getDate host cutoff - 7)
  else if String.eqb range "2weeks" then setDate host cutoff (getDate host cutoff - 14)
  else if String.eqb range "month" then setMonth host cutoff (getMonth host cutoff - 1)
  else if String.eqb range "3months" then setMonth host cutoff (getMonth host cutoff - 3)
  else if String.eqb range "6months" then setMonth host cutoff (getMonth host cutoff - 6)
  else setFullYear host cutoff (getFullYear host cutoff - 1).

(** The object [confirmSave] hands to [onSessionComplete] for the result
    of [stopwatch.stop()]. *)
Definition completedSession (result : Session) : M Session :=
  do r <- random_id;
  ret (<["tags" := JArr []]>
       (<["notes" := JStr ""]>
        (<["topic" := JStr "(no topic)"]>
         (<["id" := JStr r]> result)))).

(** [handleSessionComplete]: the new session goes first. *)
Definition handleSessionComplete (newSession : Session) (prev : list Session)
  : list Session :=
  newSession :: prev.

(** One element of [stored.map(...)] in the load effect. *)
Definition normalizeOne (s : Session) : M Session :=
  do id <- (if truthy (get s "id") then ret (get s "id")
            else do r <- random_id; ret (JStr r));
  do endAt <- (if truthy (get s "endAt") then ret (get s "endAt")
               else if truthy (get s "date")
                    then ret (JNum (Date_new host (get s "date")))
                    else do n <- Date_now; ret (JNum (Fin n)));
  do startAt <- (if nullish (get s "startAt")
                 then if truthy (get s "endAt")
                      then ret (JNum (js_sub host (get s "endAt")
                                        (js_or (get s "durationMs") (JNum (Fin 0)))))
                      else do n <- Date_now; ret (JNum (Fin n))
                 else ret (get s "startAt"));
  ret (<["tags" := if isArray (get s "tags") then get s "tags" else JArr []]>
       (<["notes" := js_or (get s "notes") (JStr "")]>
        (<["topic" := js_or (get s "topic") (JStr "(no topic)")]>
         (<["durationMs" := js_or (get s "durationMs") (JNum (Fin 0))]>
          (<["startAt" := startAt]>
           (<["endAt" := endAt]>
            (<["id" := id]> s))))))).

(** The comparator of [normalized.sort]:
    [(b.endAt || 0) - (a.endAt || 0)]. *)
Definition byEndAtDesc (a b : Session) : num :=
  js_sub host (js_or (get b "endAt") (JNum (Fin 0)))
              (js_or (get a "endAt") (JNum (Fin 0))).

(** [Array.prototype.sort] as a stable insertion sort: [x] goes before
    the first element it compares strictly below (a NaN result counts
    as 0). *)
Fixpoint sort_insert (cmp : Session -> Session -> num) (x : Session)
         (l : list Session) : list Session :=
  match l with
  | [] => [x]
  | y :: l' => if num_lt (cmp x y) (Fin 0) then x :: y :: l'
               else y :: sort_insert cmp x l'
  end.

Definition sort (cmp : Session -> Session -> num) (l : list Session) : list Session :=
  fold_left (fun acc x => sort_insert cmp x acc) l [].

(** The list handed to [setSessions] by the load effect. *)
Definition normalized (stored : list Session) : M (list Session) :=
  do l <- mapM normalizeOne stored;
  ret (sort byEndAtDesc l).

(** [(s.tags || [])] used as an array: [.some] on anything else is not
    a function. *)
Definition tags_of (s : Session) : Completion (list string) :=
  match js_or (get s "tags") (JArr []) with
  | JArr l => Normal l
  | _ => Throw TypeError
  end.

(** [selectedTags.includes(tag)] *)
Definition includes (l : list string) (x : string) : bool :=
  existsb (String.eqb x) l.

(** [arr.filter(p)] for a predicate that may throw. *)
Fixpoint filterC {A} (p : A -> Completion bool) (l : list A) : Completion (list A) :=
  match l with
  | [] => Normal []
  | x :: l' =>
      cbind (p x) (fun b =>
      cbind (filterC p l') (fun r =>
      Normal (if b then x :: r else r)))
  end.

Definition inRange (cutoff : num) (s : Session) : bool :=
  js_ge_num host (js_or (get s "endAt") (get s "startAt")) cutoff.

Definition hasSelectedTag (selectedTags : list string) (s : Session) : Completion bool :=
  cbind (tags_of s) (fun l => Normal (existsb (includes selectedTags) l)).

Definition filteredSessions (sessions : list Session) (filterRange : string)
           (selectedTags : list string) (now : Z) : Completion (list Session) :=
  let cutoff := getDateCutoff filterRange now in
  let dateFiltered := List.filter (inRange cutoff) sessions in
  if (length selectedTags =? 0)%nat then Normal dateFiltered
  else filterC (hasSelectedTag selectedTags) dateFiltered.

(** [counts[key] || 0] *)
Definition count_or0 (counts : gmap string num) (key : string) : num :=
  match counts !! key with
  | Some n => if num_truthy n then n else Fin 0
  | None => Fin 0
  end.

(** The [while (cursor < eMs)] loop of [countsByDay]; [None] when the
    given number of iterations does not reach the exit. *)
Fixpoint dayLoop (fuel : nat) (eMs cursor : num) (counts : gmap string num)
  : option (Completion (gmap string num)) :=
  if num_lt cursor eMs then
    match fuel with
    | O => None
    | S fuel' =>
        let d := setHours host (match cursor with Fin c => TimeClip c | NaN => NaN end)
                          24 0 0 0 in
        let segEnd := Math_min eMs d in
        let seconds := round_div (num_sub segEnd cursor) 1000 in
        match startOfDayISO cursor with
        | Throw e => Some (Throw e)
        | Normal key =>
            dayLoop fuel' eMs segEnd
                    (<[key := num_add (count_or0 counts key) seconds]> counts)
        end
    end
  else Some (Normal counts).

(** Resolved start and end of a session, as [sMs] and [eMs]. *)
Definition resolveStart (sess : Session) : num :=
  Date_new host
    (js_or (get sess "startAt")
           (if truthy (get sess "endAt")
            then JNum (js_sub host (get sess "endAt") (get sess "durationMs"))
            else JNull)).

Definition resolveEnd (sess : Session) : num :=
  Date_new host
    (js_or (get sess "endAt")
           (if truthy (get sess "startAt")
            then js_add host (get sess "startAt") (get sess "durationMs")
            else JNull)).

(** The callback of [filteredSessions.forEach]. *)
Definition addSession (fuel : nat) (sess : Session) (counts : gmap string num)
  : option (Completion (gmap string num)) :=
  let sMs := resolveStart sess in
  let eMs := resolveEnd sess in
  if negb (num_truthy sMs) || negb (num_truthy eMs) || num_le eMs sMs
  then Some (Normal counts)
  else dayLoop fuel eMs sMs counts.

Fixpoint forEachSession (fuel : nat) (l : list Session) (counts : gmap string num)
  : option (Completion (gmap string num)) :=
  match l with
  | [] => Some (Normal counts)
  | sess :: l' =>
      match addSession fuel sess counts with
      | Some (Normal counts') => forEachSession fuel l' counts'
      | r => r
      end
  end.

Definition countsByDay (fuel : nat) (filtered : list Session)
  : option (Completion (gmap string num)) :=
  forEachSession fuel filtered ∅.

Record Stats : Type := { total : HMS; avg : HMS; daysStudied : Z }.

(** [filteredSessions.reduce((sum, s) => sum + (s.durationMs || 0), 0)] *)
Definition totalTime (filtered : list Session) : JsVal :=
  fold_left (fun sum s => js_add host sum (js_or (get s "durationMs") (JNum (Fin 0))))
            filtered (JNum (Fin 0)).

Definition stats (filtered : list Session) (counts : gmap string num) : Stats :=
  let totalTime := totalTime filtered in
  let studyDays := if (size counts =? 0)%nat then 1 else Z.of_nat (size counts) in
  {| total := secondsToHMS (floor_div (ToNumber host totalTime) 1000);
     avg := secondsToHMS (floor_div (ToNumber host totalTime) (1000 * studyDays));
     daysStudied := studyDays |}.

(** *** The edit workflow *)

(** [str.split(",")] *)
Fixpoint split (sep : ascii) (s : string) : list string :=
  match s with
  | EmptyString => [EmptyString]
  | String c s' =>
      if Ascii.eqb c sep then EmptyString :: split sep s'
      else match split sep s' with
           | [] => [String c EmptyString]
           | x :: r => String c x :: r
           end
  end.

(** White space and line terminators removed by [trim]: among the code
    units below 256 these are TAB, LF, VT, FF, CR, SP and NBSP (U+00A0). *)
Definition is_ws (c : ascii) : bool :=
  let n := nat_of_ascii c in
  ((9 <=? n) && (n <=? 13) || (n =? 32) || (n =? 160))%nat.

Fixpoint trimStart (s : string) : string :=
  match s with
  | EmptyString => EmptyString
  | String c s' => if is_ws c then trimStart s' else s
  end.

Fixpoint trimEnd (s : string) : string :=
  match s with
  | EmptyString => EmptyString
  | String c s' =>
      let r := trimEnd s' in
      if is_ws c && String.eqb r EmptyString then EmptyString else String c r
  end.

Definition trim (s : string) : string := trimEnd (trimStart s).

(** [(tagsInput || "").split(",").map(t => t.trim()).filter(Boolean)] *)
Definition parseTags (tagsInput : JsVal) : Completion (list string) :=
  match js_or tagsInput (JStr "") with
  | JStr str =>
      Normal (List.filter (fun t => negb (String.eqb t EmptyString))
                          (List.map trim (split "," str)))
  | _ => Throw TypeError
  end.

(** The state [saveEdit] reads and writes. *)
Record AppState : Type := {
  sessions : list Session;
  editingId : JsVal;
  editDraft : option Session       (* null when no editor is open *)
}.

(** [openEditor(session)]: the draft is the session with its tags joined
    into [tagsInput]. *)
Definition openEditor (session : Session) (st : AppState) : Completion AppState :=
  cbind (tags_of session) (fun tags =>
  Normal {| sessions := sessions st;
            editingId := get session "id";
            editDraft := Some (<["tagsInput" := JStr (join ", " tags)]> session) |}).

(** [{ ...s, ...updated }] *)
Definition spread2 (s updated : Session) : Session := updated ∪ s.

(** [saveEdit()] at time [now]: the state after it and the text passed
    to [alert], if any. *)
Definition saveEdit (now : Z) (st : AppState) : Completion (AppState * option string) :=
  match editDraft st with
  | None => Normal (st, None)
  | Some draft =>
      let sa := ToNumber host (get draft "startAt") in
      let ea := ToNumber host (get draft "endAt") in
      if num_isNaN sa || num_isNaN ea then
        Normal (st, Some "Please enter valid dates")
      else if num_le ea sa then
        Normal (st, Some "End time must be after start time")
      else if num_gt ea (Fin now) then
        Normal (st, Some "End time cannot be in the future")
      else
        cbind (parseTags (get draft "tagsInput")) (fun tags =>
        let updated :=
          delete "tagsInput"
            (<["tags" := JArr tags]>
             (<["durationMs" := JNum (num_sub ea sa)]> draft)) in
        Normal ({| sessions :=
                     List.map (fun s => if strict_eq (get s "id") (editingId st)
                                        then spread2 s updated else s)
                              (sessions st);
                   editingId := JNull;
                   editDraft := None |}, None))
  end.

(** *** The rest of the component *)

(** The loop of [daysArray]: the time values of
    [new Date(base - i * MS_PER_DAY)] for [i] from [n - 1] down to 0. *)
Fixpoint daysFrom (base : num) (n : nat) : list num :=
  match n with
  | O => []
  | S n' =>
      Date_new host (JNum (num_sub base (Fin (Z.of_nat n' * MS_PER_DAY))))
      :: daysFrom base n'
  end.

(** [daysArray(days)]: the time values of the dates of the array. *)
Definition daysArray (days : num) : M (list num) :=
  do now <- Date_now;
  let today := setHours host (TimeClip now) 0 0 0 0 in
  let base := today in
  ret (daysFrom base (match days with Fin d => Z.to_nat d | NaN => O end)).

(** [dayList] of the heatmap: [daysArray(365 + today.getDay())]. *)
Definition dayList : M (list num) :=
  do now <- Date_now;
  let today := TimeClip now in
  daysArray (num_add (Fin 365)
                     (match today with Fin t => Fin (getDay host t) | NaN => NaN end)).

(** [toLocalDatetimeString(ms)] *)
Definition toLocalDatetimeString (ms : JsVal) : string :=
  if negb (truthy ms) then EmptyString
  else match Date_new host (JNum (ToNumber host ms)) with
       | NaN => EmptyString
       | Fin d =>
           let pad := fun n : Z => padStart 2 "0" (NumberToString (Fin n)) in
           NumberToString (Fin (getFullYear host d)) +:+ "-"
           +:+ pad (getMonth host d + 1) +:+ "-"
           +:+ pad (getDate host d) +:+ "T"
           +:+ pad (getHours host d) +:+ ":"
           +:+ pad (getMinutes host d)
       end.

(** [fromLocalDatetimeString(str)]: null or a number. *)
Definition fromLocalDatetimeString (str : string) : JsVal :=
  if String.eqb str EmptyString then JNull
  else match Date_new host (JStr str) with
       | NaN => JNull
       | Fin t => JNum (Fin t)
       end.

(** [confirmSave]: the stopwatch state, the session list and the
    [showConfirm] flag after it. *)
Definition confirmSave (st : Stopwatch.State) (prev : list Session)
  : M (Stopwatch.State * list Session * bool) :=
  do now <- Date_now;
  let (result, st') := Stopwatch.stop now st in
  match result with
  | Some r =>
      do s <- completedSession r;
      ret (st', handleSessionComplete s prev, false)
  | None => ret (st', prev, false)
  end.

(** [deleteSession(id)]; [confirmed] is the answer of [window.confirm]. *)
Definition deleteSession (confirmed : bool) (id : JsVal) (prev : list Session)
  : list Session :=
  if confirmed then List.filter (fun s => negb (strict_eq (get s "id") id)) prev
  else prev.

(** The updater of the tag buttons:
    [prev.includes(tag) ? prev.filter(t => t !== tag) : [...prev, tag]]. *)
Definition toggleTag (tag : string) (prev : list string) : list string :=
  if includes prev tag then List.filter (fun t => negb (String.eqb t tag)) prev
  else prev ++ [tag].

(** [set.add(t)]: the elements of a [Set], in insertion order. *)
Definition set_add (set : list string) (t : string) : list string :=
  if includes set t then set else set ++ [t].

(** [Array.prototype.sort()] with no comparator, on strings: ascending
    order of the character codes (insertion sort). *)
Fixpoint insert_string (x : string) (l : list string) : list string :=
  match l with
  | [] => [x]
  | y :: l' => if String.ltb x y then x :: y :: l' else y :: insert_string x l'
  end.

Definition sort_strings (l : list string) : list string :=
  fold_left (fun acc x => insert_string x acc) l [].

(** [sessions.forEach(s => (s.tags || []).forEach(t => set.add(t)))] *)
Fixpoint collectTags (sessions : list Session) (set : list string)
  : Completion (list string) :=
  match sessions with
  | [] => Normal set
  | s :: sessions' =>
      cbind (tags_of s) (fun tags => collectTags sessions' (fold_left set_add tags set))
  end.

(** [allTags]: [Array.from(set).sort()] *)
Definition allTags (sessions : list Session) : Completion (list string) :=
  cbind (collectTags sessions []) (fun set => Normal (sort_strings set)).


End WithHost.

End App.

(** ** The earlier revision of the load effect (normalizer with in-place
    updates of a copy of the record) *)

Module Legacy.

Section WithHost.

Context (host : Host).

(** [session.endAt || Date.now()] *)
Definition endAtOrNow (session : Session) : M JsVal :=
  if truthy (get session "endAt") then ret (get session "endAt")
  else do n <- Date_now; ret (JNum (Fin n)).

Definition normalizeOne (s : Session) : M Session :=
  let session := s in
  (* handling if session end time doesn't exist *)
  let session :=
    if negb (truthy (get session "endAt")) && truthy (get session "date") then
      let maybeMs := ToNumber host (get session "date") in
      if negb (num_isNaN maybeMs) then <["endAt" := JNum maybeMs]> session
      else <["endAt" := JNum (Date_new host (get session "date"))]> session
    else session in
  (* handling if the session start time doesn't exist *)
  do session <-
    (if negb (truthy (get session "startAt")) then
       if truthy (get session "durationMs") then
         do e <- endAtOrNow session;
         ret (<["startAt" := JNum (js_sub host e (get session "durationMs"))]> session)
       else
         do e <- endAtOrNow session;
         ret (<["startAt" := e]> session)
     else ret session);
  (* handling if session duration doesn't exist *)
  do session <-
    (let n := ToNumber host (get session "durationMs") in
     if num_truthy n then ret (<["durationMs" := JNum n]> session)
     else
       do e <- endAtOrNow session;
       ret (<["durationMs" :=
                JNum (Math_max (Fin 0) (js_sub host e (get session "startAt")))]>
              session));
  (* handling if session topic & notes don't exist *)
  let session :=
    if negb (truthy (get session "topic"))
    then <["topic" := JStr "(no topic)"]> session else session in
  let session :=
    if negb (truthy (get session "notes"))
    then <["notes" := JStr ""]> session else session in
  ret session.

Definition normalized (stored : list Session) : M (list Session) :=
  do l <- mapM normalizeOne stored;
  ret (App.sort (App.byEndAtDesc host) l).

(** *** Other functions of the earlier revision *)

(** [colorForCount(seconds, thresholds)] *)
Definition colorForCount (seconds : num) (thresholds : list Z) : string :=
  App.colorFor thresholds seconds.

Definition pad (n : Z) : string := padStart 2 "0" (NumberToString (Fin n)).

Definition toLocalDatetimeString (ms : JsVal) : string :=
  if nullish ms then EmptyString
  else match Date_new host (JNum (ToNumber host ms)) with
       | NaN => EmptyString
       | Fin d =>
           NumberToString (Fin (getFullYear host d)) +:+ "-"
           +:+ pad (getMonth host d + 1) +:+ "-"
           +:+ pad (getDate host d) +:+ "T"
           +:+ pad (getHours host d) +:+ ":"
           +:+ pad (getMinutes host d)
       end.

(** [str.match(/^(\d{4})-(\d{2})-(\d{2})T(\d{2}):(\d{2})$/)]: the five
    groups of a match. *)
Definition matchDatetimeLocal (str : string)
  : option (string * string * string * string * string) :=
  let g1 := substring 0 4 str in
  let g2 := substring 5 2 str in
  let g3 := substring 8 2 str in
  let g4 := substring 11 2 str in
  let g5 := substring 14 2 str in
  if (String.length str =? 16)%nat
     && all_digits g1 && String.eqb (substring 4 1 str) "-"
     && all_digits g2 && String.eqb (substring 7 1 str) "-"
     && all_digits g3 && String.eqb (substring 10 1 str) "T"
     && all_digits g4 && String.eqb (substring 13 1 str) ":"
     && all_digits g5
  then Some (g1, g2, g3, g4, g5)
  else None.

(** [fromLocalDatetimeString(str)]: null or a number. *)
Definition fromLocalDatetimeString (str : string) : JsVal :=
  if String.eqb str EmptyString then JNull
  else match matchDatetimeLocal str with
       | None => JNull
       | Some (g1, g2, g3, g4, g5) =>
           let year := ToNumber host (JStr g1) in
           let month := ToNumber host (JStr g2) in
           let day := ToNumber host (JStr g3) in
           let hour := ToNumber host (JStr g4) in
           let minute := ToNumber host (JStr g5) in
           JNum (Date_fields host year (num_sub month (Fin 1)) day hour minute)
       end.


End WithHost.

End Legacy.

(** * Vocabulary of the properties *)

(** ** Concrete hosts and worlds, to run the definitions *)

(** A host whose local time is UTC plus [off] milliseconds at every
    instant, and whose string parsers find no number and no date. *)
Definition fixedOffsetHost (off : Z) : Host :=
  {| StringToNumber := fun _ => NaN;
     Date_parse := fun _ => NaN;
     LocalTZA := fun _ _ => off |}.

(** The local time of [host] is UTC plus [off] at every instant. *)
Definition fixedOffset (host : Host) (off : Z) : Prop :=
  forall t b, LocalTZA host t b = off.

(** A host with one clock change: local time is UTC plus [before] until
    the instant [change] and UTC plus [after] from then on.  A local time
    that the change skips or repeats is read with the offset in force
    before the change. *)
Definition oneChangeHost (change before after : Z) : Host :=
  {| StringToNumber := fun _ => NaN;
     Date_parse := fun _ => NaN;
     LocalTZA := fun t isUTC =>
                   if isUTC then (if t <? change then before else after)
                   else (if t - Z.max before after <? change then before else after) |}.

(** US Eastern time around 2024-03-10 07:00 UTC, when clocks went from
    02:00 (UTC-5) to 03:00 (UTC-4), and around 2024-11-03 06:00 UTC, when
    they went from 02:00 (UTC-4) back to 01:00 (UTC-5). *)
Definition easternSpring2024 : Host :=
  oneChangeHost 1710054000000 (-18000000) (-14400000).

Definition easternAutumn2024 : Host :=
  oneChangeHost 1730613600000 (-14400000) (-18000000).

(** The offsets of local time from UTC differ by less than a day from one
    instant to another. *)
Definition offsetsWithinADay (host : Host) : Prop :=
  forall t b t' b', Z.abs (LocalTZA host t b - LocalTZA host t' b') < msPerDay.

(** A clock started on 2023-11-14 that advances by one millisecond per
    reading, and a random source that always draws the same id. *)
Definition sampleWorld : World :=
  {| clock := fun n => 1700000000000 + Z.of_nat n;
     ticks := 0;
     ids := fun _ => "k3x9q";
     draws := 0 |}.

(** An object literal. *)
Definition obj (l : list (string * JsVal)) : Session := list_to_map l.

(** A session of a second and a half inside one UTC day. *)
Definition shortSession : Session :=
  obj [("startAt", JNum (Fin 1710068400000));
       ("endAt", JNum (Fin 1710068401500));
       ("durationMs", JNum (Fin 1500))].

(** 2024-03-10 11:00 UTC, taken as now, and a one-minute session tagged
    "math" that ended [n] days before it. *)
Definition nowSample : Z := 1710068400000.

Definition endedDaysAgo (n : Z) : Session :=
  obj [("id", JStr (NumberToString (Fin n)));
       ("startAt", JNum (Fin (nowSample - n * msPerDay - 60000)));
       ("endAt", JNum (Fin (nowSample - n * msPerDay)));
       ("durationMs", JNum (Fin 60000));
       ("tags", JArr ["math"])].

(** The editor open on the session that ended six days ago, with the end
    of the draft moved to [draftEnd]. *)
Definition editState (draftEnd : Z) : App.AppState :=
  {| App.sessions := [endedDaysAgo 8; endedDaysAgo 6];
     App.editingId := JStr "6";
     App.editDraft :=
       Some (<["tagsInput" := JStr "math, review"]>
             (<["endAt" := JNum (Fin draftEnd)]> (endedDaysAgo 6))) |}.

(** ** Stopwatch *)

(** The state every [stop()] leaves behind. *)
Definition idle : Stopwatch.State :=
  {| Stopwatch.isRunning := false; Stopwatch.startAt := None;
     Stopwatch.elapsedOffset := 0 |}.

(** The final duration as the specification writes it:
    [elapsedOffset + (running ? now - startAt : 0)]. *)
Definition finalDuration (now : Z) (st : Stopwatch.State) : Z :=
  Stopwatch.elapsedOffset st
  + (if Stopwatch.isRunning st then now - default 0 (Stopwatch.startAt st) else 0).

(** ** Edits *)

(** The three reasons for which an edit is refused. *)
Definition invalidEdit (sa ea : num) (now : Z) : Prop :=
  sa = NaN \/ ea = NaN \/ num_le ea sa = true \/ num_gt ea (Fin now) = true.

(** ** Normalizer *)

(** The object built by the arrow function of [stored.map], once the id
    draw [r] and the two clock readings [n1] (for [endAt]) and [n2] (for
    [startAt]) are given. *)
Definition endAtField (host : Host) (s : Session) (n1 : Z) : JsVal :=
  if truthy (get s "endAt") then get s "endAt"
  else if truthy (get s "date") then JNum (Date_new host (get s "date"))
       else JNum (Fin n1).

Definition startAtField (host : Host) (s : Session) (n2 : Z) : JsVal :=
  if nullish (get s "startAt")
  then if truthy (get s "endAt")
       then JNum (js_sub host (get s "endAt") (js_or (get s "durationMs") (JNum (Fin 0))))
       else JNum (Fin n2)
  else get s "startAt".

Definition tagsField (s : Session) : JsVal :=
  if isArray (get s "tags") then get s "tags" else JArr [].

Definition normFields (host : Host) (s : Session) (r : string) (n1 n2 : Z) : Session :=
  <["tags" := tagsField s]>
  (<["notes" := js_or (get s "notes") (JStr "")]>
   (<["topic" := js_or (get s "topic") (JStr "(no topic)")]>
    (<["durationMs" := js_or (get s "durationMs") (JNum (Fin 0))]>
     (<["startAt" := startAtField host s n2]>
      (<["endAt" := endAtField host s n1]>
       (<["id" := js_or (get s "id") (JStr r)]> s)))))).

(** The clock reading used for [startAt]: the second one when [endAt]
    took the first. *)
Definition startTick (s : Session) (w : World) : nat :=
  if truthy (get s "endAt") || truthy (get s "date") then ticks w else S (ticks w).

(** A record in canonical form: every field present and of its kind. *)
Definition canonical (s : Session) : Prop :=
  (exists v, s !! "id" = Some v /\ truthy v = true) /\
  (exists v, s !! "endAt" = Some v /\ truthy v = true) /\
  (exists v, s !! "startAt" = Some v /\ nullish v = false) /\
  (exists v, s !! "durationMs" = Some v /\ (truthy v = true \/ v = JNum (Fin 0))) /\
  (exists v, s !! "topic" = Some v /\ truthy v = true) /\
  (exists v, s !! "notes" = Some v /\ (truthy v = true \/ v = JStr "")) /\
  (exists l, s !! "tags" = Some (JArr l)).

(** [s.durationMs === s.endAt - s.startAt] *)
Definition durationConsistent (host : Host) (s : Session) : Prop :=
  strict_eq (get s "durationMs") (JNum (js_sub host (get s "endAt") (get s "startAt")))
  = true.

(** ** Filter *)

(** Whether the filter keeps a session, as one predicate: its effective
    end is at or after the cutoff and, when tags are selected, one of its
    tags is among them. *)
Definition keeps (host : Host) (cutoff : num) (selectedTags : list string) (s : Session) : bool :=
  App.inRange host cutoff s &&
  match selectedTags with
  | [] => true
  | _ => match App.tags_of s with
         | Normal l => existsb (App.includes selectedTags) l
         | Throw _ => false
         end
  end.

(** Every session has a tag list ([tags] is an array, or falsy). *)
Definition tagsWellFormed (sessions : list Session) : Prop :=
  forall s, s ∈ sessions -> exists l, App.tags_of s = Normal l.

(** ** Days and buckets *)

(** The instant at which the local day after the one of [c] begins, as
    [setHours(24, 0, 0, 0)] computes it, and the instant at which the
    local day of [c] began ([setHours(0, 0, 0, 0)]). *)
Definition nextDayStart (host : Host) (c : Z) : Z :=
  UTC host (MakeDate (Day (LocalTime host c)) (MakeTime 24 0 0 0)).

Definition dayStart (host : Host) (c : Z) : Z :=
  UTC host (MakeDate (Day (LocalTime host c)) (MakeTime 0 0 0 0)).

(** Number of the local calendar day that contains the instant [c]. *)
Definition localDay (host : Host) (c : Z) : Z := Day (LocalTime host c).

(** Number of local calendar days the interval from [s] to [e] (end
    excluded) touches. *)
Definition daysSpanned (host : Host) (s e : Z) : Z :=
  localDay host (e - 1) - localDay host s + 1.

(** A time zone whose days follow one another in order: the next local
    day starts after the current instant and within two days of it, it
    is a later calendar day, the start of the current day is within two
    days, and the local day never goes back as time passes. *)
Record regularDays (host : Host) : Prop := {
  next_after : forall c, c < nextDayStart host c <= c + 2 * msPerDay;
  start_near : forall c, c - 2 * msPerDay <= dayStart host c <= c + 2 * msPerDay;
  next_day : forall c, localDay host c + 1 <= localDay host (nextDayStart host c);
  day_mono : forall a b, a <= b -> localDay host a <= localDay host b
}.

(** A bucket value as an integer; a NaN bucket counts for nothing. *)
Definition numZ (n : num) : Z :=
  match n with
  | Fin z => z
  | NaN => 0
  end.

(** Sum of all bucket values. *)
Definition sumCounts (counts : gmap string num) : Z :=
  map_fold (fun _ v acc => numZ v + acc) 0 counts.

(** [Math.round(x / 1000)] on integers. *)
Definition roundSeconds (x : Z) : Z := (2 * x + 1000) / 2000.

(** Two days inside the limits of the time range nothing is clipped. *)
Definition inTimeRange (s e : Z) : Prop :=
  - maxTime + 2 * msPerDay <= s /\ e <= maxTime - 2 * msPerDay.

(** ** Statistics *)

(** The stored duration of a session, when it is a number (0 when it is
    missing or falsy). *)
Definition durationOf (s : Session) : option Z :=
  match js_or (get s "durationMs") (JNum (Fin 0)) with
  | JNum (Fin d) => Some d
  | _ => None
  end.

(** Every session has a numeric duration, and [ds] lists them. *)
Definition durations (filtered : list Session) (ds : list Z) : Prop :=
  Forall2 (fun s d => durationOf s = Some d) filtered ds.

Definition sumZ (ds : list Z) : Z := foldr Z.add 0 ds.

(** Number of buckets whose value is not zero. *)
Definition nonZeroBuckets (counts : gmap string num) : nat :=
  size (filter (fun kv => numZ kv.2 <> 0) counts).

(** C8 as stated: the total is the sum of the bucket values, the day
    count is the number of non-zero buckets (at least 1), and the average
    is their quotient. *)
Definition statsFromBuckets (host : Host) (filtered : list Session) (counts : gmap string num) : Prop :=
  let st := App.stats host filtered counts in
  let days := Z.max 1 (Z.of_nat (nonZeroBuckets counts)) in
  App.total st = App.secondsToHMS (Fin (sumCounts counts)) /\
  App.daysStudied st = days /\
  App.avg st = App.secondsToHMS (Fin (sumCounts counts / days)).

(** ** Day keys *)

(** Year-month-day identifier of a day number. *)
Definition dateKey (day : Z) : string :=
  let '(y, m, d) := civil_from_days day in
  year_string y +:+ "-" +:+ fixed_digits 2 m EmptyString
                +:+ "-" +:+ fixed_digits 2 d EmptyString.

(** The identifier of the local calendar day that contains the instant
    [ts], as the specification describes the day key. *)
Definition localDayKey (host : Host) (ts : Z) : string :=
  dateKey (Day (LocalTime host ts)).

(** ** Stopwatch runs *)

(** The buttons of the stopwatch. *)
Inductive Press : Type := PressStart | PressPause | PressResume | PressStop.

Definition press (p : Press) (now : Z) (st : Stopwatch.State) : Stopwatch.State :=
  match p with
  | PressStart => Stopwatch.start now st
  | PressPause => Stopwatch.pause now st
  | PressResume => Stopwatch.resume now st
  | PressStop => snd (Stopwatch.stop now st)
  end.

(** The state after a sequence of presses, each with the clock reading at
    which it happens. *)
Definition presses (l : list (Press * Z)) (st : Stopwatch.State) : Stopwatch.State :=
  fold_left (fun st pt => press pt.1 pt.2 st) l st.

(** The clock readings of [l] never go back, starting from [t]. *)
Fixpoint chronological (t : Z) (l : list (Press * Z)) : Prop :=
  match l with
  | [] => True
  | pt :: l' => t <= pt.2 /\ chronological pt.2 l'
  end.

(** The last clock reading of [l], [t] when there is none. *)
Definition lastReading (t : Z) (l : list (Press * Z)) : Z :=
  fold_left (fun _ pt => pt.2) l t.

(** What holds of the stopwatch state between two presses, [t0] being the
    first clock reading and [t] the latest. *)
Definition settled (t0 t : Z) (st : Stopwatch.State) : Prop :=
  0 <= Stopwatch.elapsedOffset st /\
  match Stopwatch.startAt st with
  | Some s => Stopwatch.isRunning st = true /\ t0 <= s <= t
              /\ Stopwatch.elapsedOffset st <= s - t0
  | None => Stopwatch.isRunning st = false /\ Stopwatch.elapsedOffset st <= t - t0
  end.

(** ** Session lists *)

(** One change of the session list: a stopwatch run saved, a session
    deleted, or an edit saved. *)
Inductive sessionsStep (host : Host) (prev : list Session) : list Session -> Prop :=
| step_save (st : Stopwatch.State) (w : World) :
    sessionsStep host prev (fst (App.confirmSave st prev w)).1.2
| step_delete (confirmed : bool) (id : JsVal) :
    sessionsStep host prev (App.deleteSession confirmed id prev)
| step_edit (now : Z) (st st' : App.AppState) (msg : option string) :
    App.sessions st = prev ->
    App.saveEdit host now st = Normal (st', msg) ->
    sessionsStep host prev (App.sessions st').

(** The session lists the application can hold after a load: the list the
    load effect sets, then any number of changes. *)
Inductive reachable (host : Host) (stored : list Session) (w : World)
  : list Session -> Prop :=
| reach_load : reachable host stored w (fst (App.normalized host stored w))
| reach_step (l l' : list Session) :
    reachable host stored w l -> sessionsStep host l l' -> reachable host stored w l'.

(** The number the comparator of the load effect reads from a session:
    [s.endAt || 0]. *)
Definition endKey (host : Host) (s : Session) : num :=
  ToNumber host (js_or (get s "endAt") (JNum (Fin 0))).

(** Latest end first: every session ends at or after all the sessions
    that follow it. *)
Definition newestFirst (host : Host) (l : list Session) : Prop :=
  StronglySorted
    (fun a b => exists x y, endKey host a = Fin x /\ endKey host b = Fin y /\ y <= x) l.

(** A stored [endAt] that is set converts to a number. *)
Definition numericEnd (host : Host) (s : Session) : Prop :=
  truthy (get s "endAt") = true -> exists z, ToNumber host (get s "endAt") = Fin z.

(** The two middle steps of the earlier normalizer on a record whose
    [endAt] is set: the start is filled in, then the duration. *)
Definition legacyStart (host : Host) (s : Session) : Session :=
  if negb (truthy (get s "startAt")) then
    if truthy (get s "durationMs")
    then <["startAt" := JNum (js_sub host (get s "endAt") (get s "durationMs"))]> s
    else <["startAt" := get s "endAt"]> s
  else s.

Definition legacyDuration (host : Host) (s : Session) : Session :=
  let n := ToNumber host (get s "durationMs") in
  if num_truthy n then <["durationMs" := JNum n]> s
  else <["durationMs" :=
           JNum (Math_max (Fin 0) (js_sub host (get s "endAt") (get s "startAt")))]> s.

(** ** Tags *)

(** Strictly ascending order of strings by character codes. *)
Definition ascending (l : list string) : Prop :=
  StronglySorted (fun a b => String.ltb a b = true) l.

(** Whether the character [c] occurs in [s]. *)
Fixpoint has_char (c : ascii) (s : string) : bool :=
  match s with
  | EmptyString => false
  | String x s' => Ascii.eqb x c || has_char c s'
  end.

(** A tag as the editor writes it: not empty, with no white space at
    either end and no comma. *)
Definition cleanTag (t : string) : Prop :=
  t <> EmptyString /\ App.trim t = t /\ has_char "," t = false.

(** Two sessions with tags out of order and repeated. *)
Definition taggedSessions : list Session :=
  [obj [("tags", JArr ["zeta"; "math"])]; obj [("tags", JArr ["art"; "math"])]].

(** ** Ranges of the filter *)

(** The ranges of the filter, from the narrowest to the widest. *)
Definition ranges : list string :=
  ["week"; "2weeks"; "month"; "3months"; "6months"; "year"].

(** The fewest and the most days a range reaches back on the calendar;
    any other name counts as a year. *)
Definition rangeDays (range : string) : Z * Z :=
  if String.eqb range "week" then (7, 7)
  else if String.eqb range "2weeks" then (14, 14)
  else if String.eqb range "month" then (28, 31)
  else if String.eqb range "3months" then (89, 92)
  else if String.eqb range "6months" then (181, 184)
  else (365, 366).

(** ** The filter as the specification words it *)

(** The calendar unit of a range: a number of days, of months or of
    years. *)
Inductive CalendarUnit : Type :=
| Days (k : Z)
| Months (k : Z)
| Years (k : Z).

(** The unit of each range of the selector. *)
Definition rangeUnit (range : string) : option CalendarUnit :=
  if String.eqb range "week" then Some (Days 7)
  else if String.eqb range "2weeks" then Some (Days 14)
  else if String.eqb range "month" then Some (Months 1)
  else if String.eqb range "3months" then Some (Months 3)
  else if String.eqb range "6months" then Some (Months 6)
  else if String.eqb range "year" then Some (Years 1)
  else None.

(** The day number of the civil date (year, month 1..12, day) moved back
    by a unit.  Days are counted back on the day number.  Months lower
    the month number, which carries into the year, and years lower the
    year number; both keep the day of the month, and a day that the
    month reached does not have runs on into the month after it. *)
Definition civilBefore (u : CalendarUnit) (date : Z * Z * Z) : Z :=
  let '(y, m, d) := date in
  match u with
  | Days k => days_from_civil y m d - k
  | Months k => days_from_civil (y + (m - 1 - k) / 12) ((m - 1 - k) mod 12 + 1) d
  | Years k => days_from_civil (y - k) m d
  end.

(** The instant one unit before [now] on the local calendar of the host:
    the local date moved back by the unit, at the same local time of
    day. *)
Definition unitBefore (host : Host) (u : CalendarUnit) (now : Z) : Z :=
  let tl := LocalTime host now in
  UTC host (civilBefore u (civil_from_days (Day tl)) * msPerDay + TimeWithinDay tl).

(** The cutoff of a range: one unit of the range before now, when that
    is an instant a date can hold.  A name that is none of the six
    ranges is read as a year. *)
Definition specCutoff (host : Host) (range : string) (now : Z) : num :=
  TimeClip (unitBefore host (default (Years 1) (rangeUnit range)) now).

(** The instant a session is filed under: its [endAt], or its [startAt]
    when [endAt] is absent (falsy). *)
Definition effectiveEnd (host : Host) (s : Session) : num :=
  ToNumber host (if truthy (get s "endAt") then get s "endAt" else get s "startAt").

(** The tag list stored in a session; a session with no [tags] has no
    tag. *)
Definition tagList (s : Session) : list string :=
  match get s "tags" with
  | JArr l => l
  | _ => []
  end.

(** The [tags] of a session are an array of tags, or absent (falsy). *)
Definition holdsTagList (s : Session) : Prop :=
  match get s "tags" with
  | JArr _ => True
  | v => truthy v = false
  end.

(** Whether the specification keeps a session: it is filed at or after
    the cutoff and, when tags are selected, its tag list and the
    selection have a tag in common. *)
Definition specKeeps (host : Host) (cutoff : num) (selectedTags : list string)
           (s : Session) : bool :=
  match cutoff, effectiveEnd host s with
  | Fin c, Fin e => c <=? e
  | _, _ => false
  end &&
  match selectedTags with
  | [] => true
  | _ => existsb (fun tag => existsb (String.eqb tag) selectedTags) (tagList s)
  end.

(** Days before the first of March of year [y], counted from the first of
    March of year 0, and days from the first of March to the first of
    month [m]. *)
Definition marchDays (y : Z) : Z := 365 * y + y / 4 - y / 100 + y / 400.

Definition monthOffset (m : Z) : Z :=
  (153 * (if 2 <? m then m - 3 else m + 9) + 2) / 5.

(** ** Decimal digits and date texts *)

(** The number a string of decimal digits denotes. *)
Definition digit_value (c : ascii) : Z := Z.of_nat (nat_of_ascii c) - 48.

Fixpoint digits_value_from (acc : Z) (s : string) : Z :=
  match s with
  | EmptyString => acc
  | String c s' => digits_value_from (10 * acc + digit_value c) s'
  end.

Definition digitsValue (s : string) : Z := digits_value_from 0 s.

(** The largest integer that a JavaScript number holds exactly together
    with all the integers below it. *)
Definition maxSafeInteger : Z := 9007199254740991.

(** The first instant of the year 0 and the first instant of the year
    10000, in UTC: between them a year is written with four digits. *)
Definition yearZero : Z := -62167219200000.
Definition yearTenThousand : Z := 253402300800000.

(** Instants two days inside the years 0 to 9999. *)
Definition fourDigitYears (t : Z) : Prop :=
  yearZero + 2 * msPerDay <= t <= yearTenThousand - 2 * msPerDay.

(** The key that an instant gets where local time is UTC plus [off]: the
    date of the UTC day in which its local day began. *)
Definition offsetKey (host : Host) (off t : Z) : string :=
  dateKey (localDay host t + (- off) / msPerDay).

(** The host reads a string of decimal digits as the number it denotes. *)
Definition readsDecimals (host : Host) : Prop :=
  forall s, s <> EmptyString -> all_digits s = true ->
            StringToNumber host s = Fin (digitsValue s).

(** The text "YYYY-MM-DDTHH:mm" of the civil date of day [n] at [h]
    hours [mi] minutes. *)
Definition datetimeText (n h mi : Z) : string :=
  let '(y, m, d) := civil_from_days n in
  fixed_digits 4 y EmptyString +:+ "-"
  +:+ fixed_digits 2 m EmptyString +:+ "-"
  +:+ fixed_digits 2 d EmptyString +:+ "T"
  +:+ fixed_digits 2 h EmptyString +:+ ":"
  +:+ fixed_digits 2 mi EmptyString.

(** [Date.parse] reads a date-time with no zone as local time (ECMAScript,
    "Date Time String Format"). *)
Definition parsesLocalDatetime (host : Host) : Prop :=
  forall n h mi,
    0 <= fst (fst (civil_from_days n)) <= 9999 -> 0 <= h <= 23 -> 0 <= mi <= 59 ->
    Date_parse host (datetimeText n h mi)
    = TimeClip (UTC host (MakeDate n (MakeTime h mi 0 0))).

(** The last full minute of local time at or before [ms], for local time
    at UTC plus [off]. *)
Definition localMinute (off ms : Z) : Z := ms - (ms + off) mod msPerMinute.

(** A host at a fixed offset that reads decimal numbers, and date-times
    "YYYY-MM-DDTHH:mm" as local time. *)
Definition readingHost (off : Z) : Host :=
  {| StringToNumber := fun s =>
       if all_digits s && negb (String.eqb s EmptyString) then Fin (digitsValue s) else NaN;
     Date_parse := fun s =>
       match Legacy.matchDatetimeLocal s with
       | Some (y, m, d, h, mi) =>
           TimeClip (MakeDate (days_from_civil (digitsValue y) (digitsValue m) (digitsValue d))
                              (MakeTime (digitsValue h) (digitsValue mi) 0 0) - off)
       | None => NaN
       end;
     LocalTZA := fun _ _ => off |}.

(** A clock started on 2024-07-03 that advances by one millisecond per
    reading. *)
Definition summerWorld : World :=
  {| clock := fun n => 1720000000000 + Z.of_nat n;
     ticks := 0;
     ids := fun _ => "k3x9q";
     draws := 0 |}.

(** ** Shares of a day *)

(** Milliseconds of the interval from [s] to [e] that fall on the local
    day of the instant [t]. *)
Definition dayShare (host : Host) (s e t : Z) : Z :=
  Z.max 0 (Z.min e (nextDayStart host t) - Z.max s (dayStart host t)).

(** The value of a bucket, 0 when there is none. *)
Definition bucket (counts : gmap string num) (key : string) : Z :=
  numZ (App.count_or0 counts key).

(** The interval [countsByDay] walks for a session: its resolved start
    and end, when both are set and the end is after the start. *)
Definition sessionSpan (host : Host) (sess : Session) : option (Z * Z) :=
  match App.resolveStart host sess, App.resolveEnd host sess with
  | Fin s, Fin e => if (s =? 0) || (e =? 0) || (e <=? s) then None else Some (s, e)
  | _, _ => None
  end.

(** Seconds of a session on the local day of the instant [t], and their
    sum over a list of sessions. *)
Definition sessionShare (host : Host) (t : Z) (sess : Session) : Z :=
  match sessionSpan host sess with
  | Some (s, e) => roundSeconds (dayShare host s e t)
  | None => 0
  end.

Definition sumShares (host : Host) (t : Z) (l : list Session) : Z :=
  sumZ (List.map (sessionShare host t) l).


(** * Properties *)

(** ** Colour tiers *)

Section ColorTiers.

Import App.

Lemma colorFor_cases (t0 t1 t2 t3 t4 t5 t6 t7 t8 : Z) (a : Z) :
  t0 <= t1 -> t1 <= t2 -> t2 <= t3 -> t3 <= t4 -> t4 <= t5 ->
  t5 <= t6 -> t6 <= t7 -> t7 <= t8 ->
  let t := [t0; t1; t2; t3; t4; t5; t6; t7; t8] in
  (a <= 0 /\ colorFor t (Fin a) = "bg-gray-700") \/
  (0 < a < t0 /\ colorFor t (Fin a) = "bg-gray-700") \/
  (0 < a /\ t0 <= a < t1 /\ colorFor t (Fin a) = "bg-green-950") \/
  (0 < a /\ t1 <= a < t2 /\ colorFor t (Fin a) = "bg-green-900") \/
  (0 < a /\ t2 <= a < t3 /\ colorFor t (Fin a) = "bg-green-800") \/
  (0 < a /\ t3 <= a < t4 /\ colorFor t (Fin a) = "bg-green-700") \/
  (0 < a /\ t4 <= a < t5 /\ colorFor t (Fin a) = "bg-green-600") \/
  (0 < a /\ t5 <= a < t6 /\ colorFor t (Fin a) = "bg-green-500") \/
  (0 < a /\ t6 <= a < t7 /\ colorFor t (Fin a) = "bg-green-400") \/
  (0 < a /\ t7 <= a < t8 /\ colorFor t (Fin a) = "bg-green-300") \/
  (0 < a /\ t8 <= a /\ colorFor t (Fin a) = "bg-green-200").
Proof.
  intros H01 H12 H23 H34 H45 H56 H67 H78 t.
  unfold colorFor, t, at_index, num_ge, num_le, num_truthy; simpl.
  repeat match goal with
         | |- context [?x =? ?y] => destruct (Z.eqb_spec x y); simpl
         | |- context [?x <=? ?y] => destruct (Z.leb_spec x y); simpl
         end;
    try lia.
  all: first [ left; split; [lia | reflexivity]
             | right; left; split; [lia | reflexivity]
             | do 2 right; left; repeat split; (lia || reflexivity)
             | do 3 right; left; repeat split; (lia || reflexivity)
             | do 4 right; left; repeat split; (lia || reflexivity)
             | do 5 right; left; repeat split; (lia || reflexivity)
             | do 6 right; left; repeat split; (lia || reflexivity)
             | do 7 right; left; repeat split; (lia || reflexivity)
             | do 8 right; left; repeat split; (lia || reflexivity)
             | do 9 right; left; repeat split; (lia || reflexivity)
             | do 10 right; repeat split; (lia || reflexivity) ].
Qed.

Local Ltac pick_case :=
  solve [ lia
        | split; [lia | assumption]
        | left; split; [lia | assumption]
        | right; pick_case ].

Lemma colorForCount_cases (a : Z) :
  (a <= 0 /\ colorForCount (Fin a) = "bg-gray-700") \/
  (1 <= a < 1800 /\ colorForCount (Fin a) = "bg-green-950") \/
  (1800 <= a < 3600 /\ colorForCount (Fin a) = "bg-green-900") \/
  (3600 <= a < 7200 /\ colorForCount (Fin a) = "bg-green-800") \/
  (7200 <= a < 10800 /\ colorForCount (Fin a) = "bg-green-700") \/
  (10800 <= a < 14400 /\ colorForCount (Fin a) = "bg-green-600") \/
  (14400 <= a < 18000 /\ colorForCount (Fin a) = "bg-green-500") \/
  (18000 <= a < 21600 /\ colorForCount (Fin a) = "bg-green-400") \/
  (21600 <= a < 25200 /\ colorForCount (Fin a) = "bg-green-300") \/
  (25200 <= a /\ colorForCount (Fin a) = "bg-green-200").
Proof.
  pose proof (colorFor_cases 1 1800 3600 7200 10800 14400 18000 21600 25200 a) as H.
  repeat (lapply H; [clear H; intros H | lia]).
  cbv zeta in H. fold DEFAULT_THRESHOLDS in H. fold (colorForCount (Fin a)) in H.
  destruct H as [[? ?]|[[? ?]|[(?&?&?)|[(?&?&?)|[(?&?&?)|[(?&?&?)|[(?&?&?)|
                [(?&?&?)|[(?&?&?)|[(?&?&?)|(?&?&?)]]]]]]]]]];
    pick_case.
Qed.

(** C9. [colorForCount] never moves to a lower tier of [tiers] when its
    argument grows, and every argument that is 0 or negative lands in the
    first tier. *)
Theorem colorForCount_monotone (a b : Z) :
  a <= b ->
  (exists i j : nat,
      tier_rank (colorForCount (Fin a)) = Some i /\
      tier_rank (colorForCount (Fin b)) = Some j /\
      (i <= j)%nat) /\
  (a <= 0 -> colorForCount (Fin a) = "bg-gray-700" /\
             tier_rank (colorForCount (Fin a)) = Some 0%nat).
Proof.
  intros Hab. split.
  - destruct (colorForCount_cases a) as [H|[H|[H|[H|[H|[H|[H|[H|[H|H]]]]]]]]];
      destruct H as [Ha ->];
      destruct (colorForCount_cases b) as [H|[H|[H|[H|[H|[H|[H|[H|[H|H]]]]]]]]];
      destruct H as [Hb ->];
      try lia;
      eexists _, _; (split; [reflexivity | split; [reflexivity | lia]]).
  - intros Ha.
    destruct (colorForCount_cases a) as [H|[H|[H|[H|[H|[H|[H|[H|[H|H]]]]]]]]];
      destruct H as [Ha' ->]; try lia.
    split; reflexivity.
Qed.

Lemma colorForCount_monotone_witness :
  (exists i j : nat,
      tier_rank (colorForCount (Fin 0)) = Some i /\
      tier_rank (colorForCount (Fin 1800)) = Some j /\
      (i <= j)%nat) /\
  (0 <= 0 -> colorForCount (Fin 0) = "bg-gray-700" /\
             tier_rank (colorForCount (Fin 0)) = Some 0%nat).
Proof. apply (colorForCount_monotone 0 1800). lia. Defined.

(** The tiers are ten and pairwise distinct. *)
Lemma tiers_ten : length tiers = 10%nat /\ NoDup tiers.
Proof.
  split; [reflexivity |].
  apply (bool_decide_unpack _). vm_compute. exact I.
Qed.

Lemma colorForCount_NaN : colorForCount NaN = "bg-gray-700".
Proof. reflexivity. Qed.

End ColorTiers.

(** ** Stopwatch *)

Section StopwatchProps.

Import Stopwatch.

Lemma finalDuration_currentElapsed now st :
  finalDuration now st = currentElapsed now st.
Proof.
  unfold finalDuration, currentElapsed, since. destruct (isRunning st); lia.
Qed.

(** C5. [stop()] returns null exactly when the final duration is not
    positive; otherwise it returns the draft ending now, starting
    [duration] earlier and lasting [duration]; the state after it is idle
    in both cases. *)
Theorem stop_spec (host : Host) (now : Z) (st : State) :
  let duration := finalDuration now st in
  snd (stop now st) = idle /\
  (fst (stop now st) = None <-> duration <= 0) /\
  (0 < duration ->
   exists draft : Session,
     fst (stop now st) = Some draft /\
     get draft "endAt" = JNum (Fin now) /\
     get draft "startAt" = JNum (Fin (now - duration)) /\
     get draft "durationMs" = JNum (Fin duration) /\
     JNum (js_sub host (get draft "endAt") (get draft "startAt"))
       = get draft "durationMs" /\
     dom draft = {[ "endAt"; "startAt"; "durationMs" ]}).
Proof.
  intros duration.
  assert (Hd : duration =
               if isRunning st then since now st + elapsedOffset st
               else elapsedOffset st).
  { unfold duration, finalDuration, since. destruct (isRunning st); lia. }
  unfold stop. rewrite <- Hd.
  destruct (Z.leb_spec duration 0) as [Hle | Hgt]; cbn [fst snd].
  - split; [reflexivity |]. split; [tauto | lia].
  - split; [reflexivity |]. split.
    + split; [discriminate | lia].
    + intros _. eexists. split; [reflexivity |].
      unfold get. rewrite lookup_insert_eq.
      rewrite lookup_insert_ne, lookup_insert_eq by discriminate.
      rewrite !lookup_insert_ne, lookup_insert_eq by discriminate.
      cbn. do 3 (split; [reflexivity |]). split.
      * do 2 f_equal. lia.
      * rewrite !dom_insert_L, dom_empty_L. set_solver.
Qed.

(** A stopwatch running since 1000 with 500 ms already accumulated,
    stopped at 2500. *)
Lemma stop_spec_witness :
  exists draft : Session,
    fst (stop 2500 {| isRunning := true; startAt := Some 1000; elapsedOffset := 500 |})
      = Some draft /\
    get draft "durationMs" = JNum (Fin 2000).
Proof.
  destruct (stop_spec (fixedOffsetHost 0) 2500
              {| isRunning := true; startAt := Some 1000; elapsedOffset := 500 |})
    as (_ & _ & H).
  destruct H as (draft & H1 & _ & _ & H4 & _).
  - vm_compute. reflexivity.
  - exists draft. split; [exact H1 | exact H4].
Defined.

(** A stop with nothing elapsed gives no session. *)
Lemma stop_idle now : stop now idle = (None, idle).
Proof. reflexivity. Qed.

(** Start, pause after a second, resume, stop half a second later: a
    session of 1500 ms ending at the stop. *)
Example stopwatch_run :
  let st := resume 5000 (pause 2000 (start 1000 idle)) in
  currentElapsed 5500 st = 1500 /\
  stop 5500 st
  = (Some (obj [("endAt", JNum (Fin 5500)); ("startAt", JNum (Fin 4000));
                ("durationMs", JNum (Fin 1500))]), idle).
Proof. split; reflexivity. Qed.

(** The session [confirmSave] builds from a stop satisfies
    [durationMs === endAt - startAt] and holds an empty tag list. *)
Lemma completedSession_consistent (host : Host) (now : Z) (st : State)
      (draft : Session) (w : World) :
  fst (stop now st) = Some draft ->
  durationConsistent host (fst (App.completedSession draft w)) /\
  App.tags_of (fst (App.completedSession draft w)) = Normal [].
Proof.
  unfold stop.
  destruct (_ <=? 0); cbn [fst]; [discriminate |]. intros [= <-].
  unfold App.completedSession, bind, ret, random_id, durationConsistent,
    App.tags_of, get. cbn [fst].
  repeat first [ rewrite lookup_insert_eq | rewrite lookup_insert_ne by done ].
  cbn. split; [| reflexivity]. apply Z.eqb_eq. lia.
Qed.

End StopwatchProps.

(** ** Editing a session *)

Section EditProps.

Import App.
Context (host : Host).

Lemma invalidEdit_dec sa ea now :
  invalidEdit sa ea now \/
  (exists s e, sa = Fin s /\ ea = Fin e /\ s < e <= now).
Proof.
  unfold invalidEdit.
  destruct sa as [s|]; [| by left; left].
  destruct ea as [e|]; [| by left; right; left].
  cbn. destruct (Z.leb_spec e s); [by left; do 2 right; left |].
  destruct (Z.ltb_spec now e); [by left; do 3 right |].
  right. exists s, e. repeat split; lia.
Qed.

Lemma saveEdit_refused now st draft :
  editDraft st = Some draft ->
  invalidEdit (ToNumber host (get draft "startAt"))
              (ToNumber host (get draft "endAt")) now ->
  exists msg, saveEdit host now st = Normal (st, Some msg).
Proof.
  intros Hd Hinv. unfold saveEdit. rewrite Hd.
  destruct (ToNumber host (get draft "startAt")) as [s|] eqn:Hs;
    [| cbn; eauto].
  destruct (ToNumber host (get draft "endAt")) as [e|] eqn:He;
    [| cbn; eauto].
  cbn. destruct (e <=? s) eqn:Hle; [eauto |].
  destruct (now <? e) eqn:Hlt; [eauto |].
  destruct Hinv as [H | [H | [H | H]]]; try discriminate; cbn in H; congruence.
Qed.

Lemma saveEdit_accepted now st draft s e tags :
  editDraft st = Some draft ->
  ToNumber host (get draft "startAt") = Fin s ->
  ToNumber host (get draft "endAt") = Fin e ->
  s < e <= now ->
  parseTags (get draft "tagsInput") = Normal tags ->
  saveEdit host now st =
    Normal ({| sessions :=
                 List.map (fun x => if strict_eq (get x "id") (editingId st)
                                    then spread2 x
                                           (delete "tagsInput"
                                              (<["tags" := JArr tags]>
                                               (<["durationMs" := JNum (Fin (e - s))]> draft)))
                                    else x)
                          (sessions st);
               editingId := JNull;
               editDraft := None |}, None).
Proof.
  intros Hd Hs He Hr Ht. unfold saveEdit. rewrite Hd, Hs, He, Ht. cbn.
  destruct (Z.leb_spec e s); [lia |].
  destruct (Z.ltb_spec now e); [lia |].
  reflexivity.
Qed.

(** What the merged object [{ ...x, ...updated }] holds. *)
Lemma spread2_updated x draft tags d v k :
  k <> "tagsInput" -> k <> "tags" -> k <> "durationMs" ->
  draft !! k = Some v ->
  get (spread2 x (delete "tagsInput"
                    (<["tags" := JArr tags]> (<["durationMs" := d]> draft)))) k = v.
Proof.
  intros H1 H2 H3 Hk. unfold get, spread2.
  erewrite lookup_union_Some_l; [reflexivity |].
  rewrite lookup_delete_ne, !lookup_insert_ne by congruence. exact Hk.
Qed.

Lemma ToNumber_get_Fin (draft : Session) k z :
  ToNumber host (get draft k) = Fin z -> exists v, draft !! k = Some v.
Proof.
  unfold get. destruct (draft !! k) as [v|]; [eauto | discriminate].
Qed.

(** The draft [openEditor] builds has a [tagsInput] that [saveEdit] can
    split. *)
Lemma openEditor_tagsInput (session : Session) (st st' : AppState) :
  openEditor session st = Normal st' ->
  exists draft tags,
    editDraft st' = Some draft /\
    editingId st' = get session "id" /\
    parseTags (get draft "tagsInput") = Normal tags.
Proof.
  unfold openEditor. destruct (tags_of session) as [l | e]; [| discriminate].
  cbn [cbind]. intros [= <-]. cbn [editDraft editingId].
  assert (Hp : exists tags,
             parseTags (get (<["tagsInput" := JStr (join ", " l)]> session) "tagsInput")
             = Normal tags).
  { unfold get. rewrite lookup_insert_eq. cbn [from_option id].
    unfold parseTags, js_or. destruct (truthy (JStr (join ", " l))); eauto. }
  destruct Hp as [tags Hp]. eauto.
Qed.

(** C6. An edit whose start or end is not a number, whose end is not
    after its start, or whose end lies in the future is refused with a
    message and changes nothing (the draft stays as it was); any other
    edit replaces the sessions carrying the edited id, and only those,
    with [durationMs] recomputed as [endAt - startAt]. *)
Theorem saveEdit_spec (now : Z) (st : AppState) (draft : Session) :
  editDraft st = Some draft ->
  let sa := ToNumber host (get draft "startAt") in
  let ea := ToNumber host (get draft "endAt") in
  (invalidEdit sa ea now ->
   exists msg, saveEdit host now st = Normal (st, Some msg)) /\
  (~ invalidEdit sa ea now ->
   forall tags, parseTags (get draft "tagsInput") = Normal tags ->
   exists st',
     saveEdit host now st = Normal (st', None) /\
     editDraft st' = None /\
     length (sessions st') = length (sessions st) /\
     forall (i : nat) (x : Session),
       sessions st !! i = Some x ->
       exists x',
         sessions st' !! i = Some x' /\
         if strict_eq (get x "id") (editingId st)
         then get x' "startAt" = get draft "startAt" /\
              get x' "endAt" = get draft "endAt" /\
              get x' "durationMs" = JNum (num_sub ea sa) /\
              get x' "durationMs"
                = JNum (js_sub host (get x' "endAt") (get x' "startAt")) /\
              get x' "tags" = JArr tags
         else x' = x).
Proof.
  intros Hd sa ea. split; [by apply saveEdit_refused |].
  intros Hok tags Ht.
  destruct (invalidEdit_dec sa ea now) as [? | (s & e & Hs & He & Hr)]; [tauto |].
  eexists. split; [by eapply saveEdit_accepted |].
  cbn [editDraft sessions]. split; [reflexivity |].
  split; [by rewrite length_map |].
  intros i x Hi. rewrite list_lookup_fmap, Hi. cbn.
  eexists. split; [reflexivity |].
  destruct (strict_eq (get x "id") (editingId st)); [| reflexivity].
  destruct (ToNumber_get_Fin _ _ _ Hs) as [vs Hvs].
  destruct (ToNumber_get_Fin _ _ _ He) as [ve Hve].
  assert (Gs : forall y, get (spread2 y (delete "tagsInput"
               (<["tags" := JArr tags]> (<["durationMs" := JNum (Fin (e - s))]> draft))))
               "startAt" = get draft "startAt").
  { intros y. erewrite spread2_updated by (done || exact Hvs).
    unfold get. by rewrite Hvs. }
  assert (Ge : forall y, get (spread2 y (delete "tagsInput"
               (<["tags" := JArr tags]> (<["durationMs" := JNum (Fin (e - s))]> draft))))
               "endAt" = get draft "endAt").
  { intros y. erewrite spread2_updated by (done || exact Hve).
    unfold get. by rewrite Hve. }
  rewrite Gs, Ge.
  assert (Gd : get (spread2 x (delete "tagsInput"
               (<["tags" := JArr tags]> (<["durationMs" := JNum (Fin (e - s))]> draft))))
               "durationMs" = JNum (Fin (e - s))).
  { unfold get, spread2. erewrite lookup_union_Some_l; [reflexivity |].
    rewrite lookup_delete_ne, lookup_insert_ne, lookup_insert_eq by done. done. }
  assert (Gt : get (spread2 x (delete "tagsInput"
               (<["tags" := JArr tags]> (<["durationMs" := JNum (Fin (e - s))]> draft))))
               "tags" = JArr tags).
  { unfold get, spread2. erewrite lookup_union_Some_l; [reflexivity |].
    rewrite lookup_delete_ne, lookup_insert_eq by done. done. }
  rewrite Gd, Gt. unfold js_sub. fold sa ea. rewrite Hs, He. cbn.
  repeat split; reflexivity.
Qed.

End EditProps.

(** ** The load-time normalizer *)

Section NormalizerProps.

Import App.
Context (host : Host).

Lemma normalizeOne_fields (s : Session) (w : World) :
  fst (normalizeOne host s w)
  = normFields host s (ids w (draws w)) (clock w (ticks w)) (clock w (startTick s w)).
Proof.
  unfold normalizeOne, normFields, endAtField, startAtField, tagsField, startTick,
    js_or, bind, ret, Date_now, random_id.
  destruct (truthy (get s "id")), (truthy (get s "endAt")),
    (truthy (get s "date")), (nullish (get s "startAt")); reflexivity.
Qed.

Lemma get_normFields (s : Session) r n1 n2 :
  let s1 := normFields host s r n1 n2 in
  get s1 "id" = js_or (get s "id") (JStr r) /\
  get s1 "endAt" = endAtField host s n1 /\
  get s1 "startAt" = startAtField host s n2 /\
  get s1 "durationMs" = js_or (get s "durationMs") (JNum (Fin 0)) /\
  get s1 "topic" = js_or (get s "topic") (JStr "(no topic)") /\
  get s1 "notes" = js_or (get s "notes") (JStr "") /\
  get s1 "tags" = tagsField s /\
  get s1 "date" = get s "date".
Proof.
  unfold normFields, get; cbn zeta.
  repeat split;
    repeat first [ rewrite lookup_insert_eq | rewrite lookup_insert_ne by done ];
    reflexivity.
Qed.

Lemma js_or_idem (v d : JsVal) : js_or (js_or v d) d = js_or v d.
Proof.
  unfold js_or. destruct (truthy v) eqn:Hv; [by rewrite Hv |].
  destruct (truthy d); reflexivity.
Qed.

Lemma js_or_truthy (v d : JsVal) : truthy v = true -> js_or v d = v.
Proof. intros H. unfold js_or. by rewrite H. Qed.

Lemma startAtField_not_nullish s n2 : nullish (startAtField host s n2) = false.
Proof.
  unfold startAtField. destruct (nullish (get s "startAt")) eqn:H; [| exact H].
  destruct (truthy (get s "endAt")); reflexivity.
Qed.

Lemma tagsField_isArray s : isArray (tagsField s) = true.
Proof.
  unfold tagsField. destruct (isArray (get s "tags")) eqn:H; [exact H | reflexivity].
Qed.

(** Writing into an object the values it already holds changes nothing:
    only the id can still move. *)
Lemma normFields_fixpoint_but_id (s1 : Session) r n1 n2 :
  s1 !! "endAt" = Some (endAtField host s1 n1) ->
  s1 !! "startAt" = Some (startAtField host s1 n2) ->
  s1 !! "durationMs" = Some (js_or (get s1 "durationMs") (JNum (Fin 0))) ->
  s1 !! "topic" = Some (js_or (get s1 "topic") (JStr "(no topic)")) ->
  s1 !! "notes" = Some (js_or (get s1 "notes") (JStr "")) ->
  s1 !! "tags" = Some (tagsField s1) ->
  normFields host s1 r n1 n2 = <["id" := js_or (get s1 "id") (JStr r)]> s1.
Proof.
  intros He Hs Hd Ht Hn Hg. unfold normFields.
  set (m := <["id" := js_or (get s1 "id") (JStr r)]> s1).
  assert (Hm : forall k, k <> "id" -> m !! k = s1 !! k).
  { intros k Hk. unfold m. by rewrite lookup_insert_ne. }
  rewrite (insert_id m "endAt") by (by rewrite Hm).
  rewrite (insert_id m "startAt") by (by rewrite Hm).
  rewrite (insert_id m "durationMs") by (by rewrite Hm).
  rewrite (insert_id m "topic") by (by rewrite Hm).
  rewrite (insert_id m "notes") by (by rewrite Hm).
  by rewrite (insert_id m "tags") by (by rewrite Hm).
Qed.

Lemma lookup_normFields (s : Session) r n1 n2 k :
  k ∈ ["id"; "endAt"; "startAt"; "durationMs"; "topic"; "notes"; "tags"] ->
  normFields host s r n1 n2 !! k = Some (get (normFields host s r n1 n2) k).
Proof.
  intros Hk. unfold get.
  assert (is_Some (normFields host s r n1 n2 !! k)) as [v ->]; [| reflexivity].
  unfold normFields.
  repeat (apply elem_of_cons in Hk as [-> | Hk]);
    [ .. | by apply elem_of_nil in Hk ];
    repeat first [ rewrite lookup_insert_eq | rewrite lookup_insert_ne by done ];
    eauto.
Qed.

Lemma normFields_twice (s : Session) r n1 n2 r' n1' n2' :
  n1 <> 0 ->
  let s1 := normFields host s r n1 n2 in
  normFields host s1 r' n1' n2' = <["id" := js_or (get s1 "id") (JStr r')]> s1.
Proof.
  intros Hn1 s1.
  destruct (get_normFields s r n1 n2) as (Gi & Ge & Gs & Gd & Gt & Gn & Gg & Gdate).
  cbn zeta in *.
  apply normFields_fixpoint_but_id;
    (unfold s1; rewrite lookup_normFields by (repeat constructor); f_equal).
  - unfold endAtField at 1. rewrite Gdate, Ge.
    unfold endAtField.
    destruct (truthy (get s "endAt")) eqn:He; [by rewrite He |].
    destruct (truthy (get s "date")) eqn:Hd.
    + by destruct (truthy (JNum (Date_new host (get s "date")))).
    + cbn. destruct (Z.eqb_spec n1 0); [done | reflexivity].
  - unfold startAtField at 1. rewrite Gs.
    by rewrite startAtField_not_nullish.
  - rewrite Gd. by rewrite js_or_idem.
  - rewrite Gt. by rewrite js_or_idem.
  - rewrite Gn. by rewrite js_or_idem.
  - unfold tagsField at 1. rewrite Gg. by rewrite tagsField_isArray.
Qed.

(** C4. Normalizing a normalized record changes nothing but, possibly,
    the id: whatever the clock and the random source show the second time
    (the first clock reading not being the epoch itself), every property
    other than [id] is the same after two passes as after one; and the
    whole record is the same as soon as the first pass left a usable id
    (the record had one, or the draw was not the empty string). *)
Theorem normalizeOne_idempotent (s : Session) (w w' : World) :
  clock w (ticks w) <> 0 ->
  let once := fst (normalizeOne host s w) in
  let twice := fst (normalizeOne host once w') in
  delete "id" twice = delete "id" once /\
  (truthy (get s "id") = true \/ ids w (draws w) <> EmptyString -> twice = once).
Proof.
  intros Hclock once twice. unfold twice, once.
  rewrite (normalizeOne_fields s w), normalizeOne_fields.
  rewrite normFields_twice by exact Hclock.
  split; [apply delete_insert_eq |].
  intros Hid. apply insert_id.
  rewrite lookup_normFields by (repeat constructor). f_equal.
  symmetry. apply js_or_truthy.
  destruct (get_normFields s (ids w (draws w)) (clock w (ticks w))
              (clock w (startTick s w))) as (Gi & _).
  cbn zeta in Gi. rewrite Gi.
  unfold js_or. destruct (truthy (get s "id")) eqn:Hi; [exact Hi |].
  destruct Hid as [? | Hne]; [done |].
  cbn. destruct (String.eqb_spec (ids w (draws w)) EmptyString); [done | reflexivity].
Qed.

(** On a canonical record the normalizer reads neither the clock nor the
    random source and returns the record itself. *)
Lemma normalizeOne_canonical (s : Session) (w : World) :
  canonical s -> normalizeOne host s w = (s, w).
Proof.
  intros ((vi & Hi & Ti) & (ve & He & Te) & (vs & Hs & Ts) & (vd & Hd & Td) &
          (vt & Ht & Tt) & (vn & Hn & Tn) & (l & Hg)).
  unfold normalizeOne, bind, ret, get.
  rewrite Hi, He, Hs, Hd, Ht, Hn, Hg. cbn [from_option id].
  rewrite Ti, Te, Ts. cbn [isArray].
  f_equal.
  rewrite (js_or_truthy vt) by done.
  assert (js_or vd (JNum (Fin 0)) = vd) as ->.
  { destruct Td as [? | ->]; [by apply js_or_truthy | reflexivity]. }
  assert (js_or vn (JStr "") = vn) as ->.
  { destruct Tn as [? | ->]; [by apply js_or_truthy | reflexivity]. }
  rewrite (insert_id s "id") by done.
  rewrite (insert_id s "endAt") by done.
  rewrite (insert_id s "startAt") by done.
  rewrite (insert_id s "durationMs") by done.
  rewrite (insert_id s "topic") by done.
  rewrite (insert_id s "notes") by done.
  by rewrite (insert_id s "tags").
Qed.

(** *** Duration against the endpoints *)

Lemma sort_insert_perm (cmp : Session -> Session -> num) x l :
  sort_insert cmp x l ≡ₚ x :: l.
Proof.
  induction l as [| y l IH]; cbn; [reflexivity |].
  destruct (num_lt (cmp x y) (Fin 0)); [reflexivity |].
  rewrite IH. apply Permutation_swap.
Qed.

Lemma sort_perm (cmp : Session -> Session -> num) l : sort cmp l ≡ₚ l.
Proof.
  unfold sort.
  assert (H : forall acc, fold_left (fun acc x => sort_insert cmp x acc) l acc ≡ₚ l ++ acc).
  { induction l as [| x l IH]; intros acc; cbn; [reflexivity |].
    rewrite IH, sort_insert_perm. symmetry. apply Permutation_middle. }
  rewrite H. by rewrite app_nil_r.
Qed.

Lemma elem_of_mapM {A B} (f : A -> M B) (l : list A) (w : World) (y : B) :
  y ∈ fst (mapM f l w) -> exists x w1, x ∈ l /\ y = fst (f x w1).
Proof.
  revert w. induction l as [| x l IH]; intros w; cbn.
  - intros H. by apply elem_of_nil in H.
  - unfold bind, ret. destruct (f x w) as [b w1] eqn:Hf.
    destruct (mapM f l w1) as [bs w2] eqn:Hm. cbn.
    intros H. apply elem_of_cons in H as [-> | H].
    + exists x, w. split; [left |]. by rewrite Hf.
    + specialize (IH w1). rewrite Hm in IH. destruct (IH H) as (x0 & w0 & Hx & ->).
      exists x0, w0. split; [by right | reflexivity].
Qed.

Lemma elem_of_normalized (stored : list Session) (w : World) (s' : Session) :
  s' ∈ fst (normalized host stored w) ->
  exists s w1, s ∈ stored /\ s' = fst (normalizeOne host s w1).
Proof.
  unfold normalized, bind, ret.
  destruct (mapM (normalizeOne host) stored w) as [l w1] eqn:Hm. cbn.
  rewrite sort_perm. intros H. apply (elem_of_mapM _ stored w).
  by rewrite Hm.
Qed.

(** Every session of the load effect holds a tag list. *)
Lemma normalized_tagsWellFormed (stored : list Session) (w : World) :
  tagsWellFormed (fst (normalized host stored w)).
Proof.
  intros s' Hin. destruct (elem_of_normalized _ _ _ Hin) as (s & w1 & _ & ->).
  rewrite normalizeOne_fields. unfold tags_of.
  destruct (get_normFields s (ids w1 (draws w1)) (clock w1 (ticks w1))
              (clock w1 (startTick s w1))) as (_ & _ & _ & _ & _ & _ & Gg & _).
  cbn zeta in Gg. rewrite Gg.
  pose proof (tagsField_isArray s) as Ha.
  destruct (tagsField s) eqn:Ht; try discriminate. cbn. eauto.
Qed.



End NormalizerProps.

(** A legacy record holding an end and a duration, normalized twice, the
    second time with another clock. *)
Lemma normalizeOne_idempotent_witness :
  let host := fixedOffsetHost 0 in
  let s := obj [("endAt", JNum (Fin 5000)); ("durationMs", JNum (Fin 3000))] in
  let later := {| clock := fun _ => 1800000000000; ticks := 0;
                  ids := fun _ => "zz81"; draws := 0 |} in
  fst (App.normalizeOne host (fst (App.normalizeOne host s sampleWorld)) later)
  = fst (App.normalizeOne host s sampleWorld).
Proof.
  intros host s later.
  destruct (normalizeOne_idempotent host s sampleWorld later) as [_ H].
  - vm_compute. discriminate.
  - apply H. right. vm_compute. discriminate.
Defined.



(** The earlier revision keeps the disagreeing duration too. *)
Example normalized_keeps_stored_duration :
  let s := obj [("startAt", JNum (Fin 1000)); ("endAt", JNum (Fin 5000));
                ("durationMs", JNum (Fin 7))] in
  get (fst (App.normalizeOne (fixedOffsetHost 0) s sampleWorld)) "durationMs"
    = JNum (Fin 7) /\
  get (fst (Legacy.normalizeOne (fixedOffsetHost 0) s sampleWorld)) "durationMs"
    = JNum (Fin 7) /\
  ~ durationConsistent (fixedOffsetHost 0)
      (fst (Legacy.normalizeOne (fixedOffsetHost 0) s sampleWorld)).
Proof.
  repeat split; try (vm_compute; reflexivity); vm_compute; discriminate.
Qed.

(** A record with both endpoints and no duration: the earlier revision
    computes the duration from the endpoints, this one stores 0. *)
Example normalized_missing_duration :
  let s := obj [("startAt", JNum (Fin 1000)); ("endAt", JNum (Fin 5000))] in
  get (fst (App.normalizeOne (fixedOffsetHost 0) s sampleWorld)) "durationMs"
    = JNum (Fin 0) /\
  get (fst (Legacy.normalizeOne (fixedOffsetHost 0) s sampleWorld)) "durationMs"
    = JNum (Fin 4000).
Proof. split; vm_compute; reflexivity. Qed.

(** ** Calendar and local time *)

Section CalendarProps.

Lemma era_bounds (doe : Z) :
  0 <= doe < 146097 ->
  let yoe := (doe - doe / 1460 + doe / 36524 - doe / 146096) / 365 in
  let doy := doe - (365 * yoe + yoe / 4 - yoe / 100) in
  let mp := (5 * doy + 2) / 153 in
  let d := doy - (153 * mp + 2) / 5 + 1 in
  0 <= yoe <= 399 /\ 0 <= doy <= 365 /\ 0 <= mp <= 11 /\ 1 <= d <= 31.
Proof.
  intros H. cbv zeta. Z.div_mod_to_equations; lia.
Qed.

(** The civil date of a day number is a date of the calendar, and it
    converts back to the day number. *)
Lemma civil_roundtrip (n : Z) :
  let '(y, m, d) := civil_from_days n in
  1 <= m <= 12 /\ 1 <= d <= 31 /\ days_from_civil y m d = n.
Proof.
  unfold civil_from_days.
  set (z := n + 719468).
  set (era := z / 146097).
  set (doe := z - era * 146097).
  assert (Hdoe : 0 <= doe < 146097).
  { unfold doe, era. pose proof (Z.div_mod z 146097).
    pose proof (Z.mod_pos_bound z 146097). lia. }
  pose proof (era_bounds doe Hdoe) as Hb. cbv zeta in Hb |- *.
  set (yoe := (doe - doe / 1460 + doe / 36524 - doe / 146096) / 365) in *.
  set (doy := doe - (365 * yoe + yoe / 4 - yoe / 100)) in *.
  set (mp := (5 * doy + 2) / 153) in *.
  set (d := doy - (153 * mp + 2) / 5 + 1) in *.
  destruct Hb as (Hy & Hdoy & Hmp & Hd).
  assert (Hera : (yoe + era * 400) / 400 = era).
  { rewrite Z.div_add by lia. rewrite Z.div_small by lia. lia. }
  unfold days_from_civil.
  destruct (Z.ltb_spec mp 10) as [Hlt | Hge].
  - destruct (Z.leb_spec (mp + 3) 2); [lia |].
    destruct (Z.ltb_spec 2 (mp + 3)); [| lia].
    repeat split; try lia.
    replace (mp + 3 - 3) with mp by lia.
    rewrite Hera.
    replace (yoe + era * 400 - era * 400) with yoe by lia.
    unfold d, doy, doe, z. lia.
  - destruct (Z.leb_spec (mp - 9) 2); [| lia].
    destruct (Z.ltb_spec 2 (mp - 9)); [lia |].
    repeat split; try lia.
    replace (mp - 9 + 9) with mp by lia.
    replace (yoe + era * 400 + 1 - 1) with (yoe + era * 400) by lia.
    rewrite Hera.
    replace (yoe + era * 400 - era * 400) with yoe by lia.
    unfold d, doy, doe, z. lia.
Qed.

Lemma days_from_civil_day (y m d d' : Z) :
  days_from_civil y m d' = days_from_civil y m d + (d' - d).
Proof. unfold days_from_civil. lia. Qed.

(** [MakeDay] with the year and month of [t] and another day of the
    month moves by whole days. *)
Lemma MakeDay_same_month (t dt : Z) :
  MakeDay (YearFromTime t) (MonthFromTime t) dt = Day t + (dt - DateFromTime t).
Proof.
  unfold MakeDay, YearFromTime, MonthFromTime, DateFromTime.
  pose proof (civil_roundtrip (Day t)) as H.
  destruct (civil_from_days (Day t)) as [[y m] d]. cbn [fst snd].
  destruct H as (Hm & Hd & Hr).
  replace ((m - 1) / 12) with 0 by (symmetry; apply Z.div_small; lia).
  replace ((m - 1) mod 12) with (m - 1) by (symmetry; apply Z.mod_small; lia).
  replace (y + 0) with y by lia. replace (m - 1 + 1) with m by lia.
  rewrite (days_from_civil_day y m d 1). lia.
Qed.

Lemma Day_TimeWithinDay (t : Z) : Day t * msPerDay + TimeWithinDay t = t.
Proof.
  unfold Day, TimeWithinDay, msPerDay.
  pose proof (Z.div_mod t 86400000). lia.
Qed.

Lemma TimeClip_valid (t : Z) : - maxTime <= t <= maxTime -> TimeClip t = Fin t.
Proof.
  intros H. unfold TimeClip. destruct (Z.ltb_spec maxTime (Z.abs t)); [lia | reflexivity].
Qed.

(** [d.setDate(d.getDate() - k)] goes back [k] days on the local
    calendar, at the same local time of day. *)
Lemma setDate_back_local (host : Host) (t k : Z) :
  setDate host t (getDate host t - k)
  = TimeClip (UTC host (LocalTime host t - k * msPerDay)).
Proof.
  unfold setDate, getDate, MakeDate.
  rewrite MakeDay_same_month.
  do 2 f_equal. pose proof (Day_TimeWithinDay (LocalTime host t)). lia.
Qed.

Lemma getDateCutoff_week_local (host : Host) (now : Z) :
  App.getDateCutoff host "week" now
  = TimeClip (UTC host (LocalTime host now - 7 * msPerDay)).
Proof. unfold App.getDateCutoff. cbn. apply setDate_back_local. Qed.

Lemma fixedOffset_within_a_day (host : Host) (off : Z) :
  fixedOffset host off -> offsetsWithinADay host.
Proof.
  intros H t b t' b'. rewrite !H. unfold msPerDay. lia.
Qed.

Context (host : Host) (off : Z) (Hoff : fixedOffset host off).

Lemma LocalTime_fixed (t : Z) : LocalTime host t = t + off.
Proof. unfold LocalTime. by rewrite Hoff. Qed.

Lemma UTC_fixed (t : Z) : UTC host t = t - off.
Proof. unfold UTC. by rewrite Hoff. Qed.

(** At a fixed offset these are [k] days of 24 hours. *)
Lemma setDate_back (t k : Z) :
  setDate host t (getDate host t - k) = TimeClip (t - k * msPerDay).
Proof.
  rewrite setDate_back_local, UTC_fixed, LocalTime_fixed. f_equal. lia.
Qed.

Lemma getDateCutoff_week (now : Z) :
  App.getDateCutoff host "week" now = TimeClip (now - 7 * msPerDay).
Proof. unfold App.getDateCutoff. cbn. apply setDate_back. Qed.

Lemma getDateCutoff_2weeks (now : Z) :
  App.getDateCutoff host "2weeks" now = TimeClip (now - 14 * msPerDay).
Proof. unfold App.getDateCutoff. cbn. apply setDate_back. Qed.

End CalendarProps.

(** ** The cutoff of a range *)

Section CutoffProps.
Import App.

Lemma days_from_civil_march (y m d : Z) :
  days_from_civil y m d
  = marchDays (if m <=? 2 then y - 1 else y) + monthOffset m + d - 1 - 719468.
Proof.
  unfold days_from_civil, marchDays, monthOffset.
  generalize (if m <=? 2 then y - 1 else y). intros z.
  generalize ((153 * (if 2 <? m then m - 3 else m + 9) + 2) / 5). intros o.
  Z.div_mod_to_equations. lia.
Qed.

Lemma marchDays_step (y : Z) : 365 <= marchDays y - marchDays (y - 1) <= 366.
Proof. unfold marchDays. Z.div_mod_to_equations. lia. Qed.

Local Ltac closed_consts :=
  repeat match goal with
         | |- context [?a mod 12] =>
             let v := eval vm_compute in (a mod 12) in progress change (a mod 12) with v
         | |- context [?a / 12] =>
             let v := eval vm_compute in (a / 12) in progress change (a / 12) with v
         | |- context [monthOffset ?a] =>
             let v := eval vm_compute in (monthOffset a) in
             progress change (monthOffset a) with v
         | |- context [if ?b then _ else _] =>
             let v := eval vm_compute in b in change b with v; cbv iota
         end.

Local Ltac march_args y :=
  repeat match goal with
         | |- context [marchDays ?a] =>
             lazymatch a with
             | y => fail
             | y - 1 => fail
             | y - 2 => fail
             | _ => first [ replace a with y by lia
                          | replace a with (y - 1) by lia
                          | replace a with (y - 2) by lia ]
             end
         end.

Local Ltac month_cases m :=
  let Hc := fresh in
  assert (m = 1 \/ m = 2 \/ m = 3 \/ m = 4 \/ m = 5 \/ m = 6 \/ m = 7 \/ m = 8 \/ m = 9
          \/ m = 10 \/ m = 11 \/ m = 12) as Hc by lia;
  repeat (destruct Hc as [-> | Hc]); try subst m.

(** From the first of a month back to the first of the month [k] months
    earlier. *)
Lemma month_back (y m k : Z) :
  1 <= m <= 12 ->
  let n := days_from_civil y m 1
           - days_from_civil (y + (m - 1 - k) / 12) ((m - 1 - k) mod 12 + 1) 1 in
  (k = 1 -> 28 <= n <= 31) /\
  (k = 3 -> 89 <= n <= 92) /\
  (k = 6 -> 181 <= n <= 184).
Proof.
  intros Hm n. subst n. rewrite !days_from_civil_march.
  pose proof (marchDays_step y) as Hy. pose proof (marchDays_step (y - 1)) as Hy1.
  replace (y - 1 - 1) with (y - 2) in Hy1 by lia.
  split; [| split]; intros ->; month_cases m; closed_consts; march_args y; lia.
Qed.

Lemma year_back (y m : Z) :
  1 <= m <= 12 ->
  365 <= days_from_civil y m 1
         - days_from_civil (y - 1 + (m - 1) / 12) ((m - 1) mod 12 + 1) 1 <= 366.
Proof.
  intros Hm. rewrite !days_from_civil_march.
  pose proof (marchDays_step y) as Hy. pose proof (marchDays_step (y - 1)) as Hy1.
  replace (y - 1 - 1) with (y - 2) in Hy1 by lia.
  month_cases m; closed_consts; march_args y; lia.
Qed.

Context (host : Host).

(** [d.setMonth(d.getMonth() - k)] and [d.setFullYear(d.getFullYear() - 1)]
    go back whole days on the local calendar, at the same local time of
    day. *)
Lemma setMonth_back_local (t k : Z) :
  exists n,
    setMonth host t (getMonth host t - k)
    = TimeClip (UTC host (LocalTime host t - n * msPerDay)) /\
    (k = 1 -> 28 <= n <= 31) /\ (k = 3 -> 89 <= n <= 92) /\ (k = 6 -> 181 <= n <= 184).
Proof.
  unfold setMonth, getMonth, MakeDate, MakeDay, YearFromTime, MonthFromTime, DateFromTime.
  set (tl := LocalTime host t).
  pose proof (civil_roundtrip (Day tl)) as H.
  destruct (civil_from_days (Day tl)) as [[y m] d]. cbn [fst snd].
  destruct H as (Hm & Hd & Hr).
  exists (days_from_civil y m 1
          - days_from_civil (y + (m - 1 - k) / 12) ((m - 1 - k) mod 12 + 1) 1).
  split; [| by apply month_back].
  do 2 f_equal. pose proof (Day_TimeWithinDay tl).
  rewrite (days_from_civil_day y m 1 d) in Hr. lia.
Qed.

Lemma setFullYear_back_local (t : Z) :
  exists n,
    setFullYear host t (getFullYear host t - 1)
    = TimeClip (UTC host (LocalTime host t - n * msPerDay)) /\
    365 <= n <= 366.
Proof.
  unfold setFullYear, getFullYear, MakeDate, MakeDay, YearFromTime, MonthFromTime,
    DateFromTime.
  set (tl := LocalTime host t).
  pose proof (civil_roundtrip (Day tl)) as H.
  destruct (civil_from_days (Day tl)) as [[y m] d]. cbn [fst snd].
  destruct H as (Hm & Hd & Hr).
  exists (days_from_civil y m 1
          - days_from_civil (y - 1 + (m - 1) / 12) ((m - 1) mod 12 + 1) 1).
  split; [| by apply year_back].
  do 2 f_equal. pose proof (Day_TimeWithinDay tl).
  rewrite (days_from_civil_day y m 1 d) in Hr. lia.
Qed.

Lemma getDateCutoff_local (range : string) (now : Z) :
  exists n,
    getDateCutoff host range now
    = TimeClip (UTC host (LocalTime host now - n * msPerDay)) /\
    (rangeDays range).1 <= n <= (rangeDays range).2.
Proof.
  unfold getDateCutoff, rangeDays.
  destruct (String.eqb range "week").
  { exists 7. split; [apply setDate_back_local | cbn; lia]. }
  destruct (String.eqb range "2weeks").
  { exists 14. split; [apply setDate_back_local | cbn; lia]. }
  destruct (String.eqb range "month").
  { destruct (setMonth_back_local now 1) as (n & E & H & _). exists n. cbn. auto. }
  destruct (String.eqb range "3months").
  { destruct (setMonth_back_local now 3) as (n & E & _ & H & _). exists n. cbn. auto. }
  destruct (String.eqb range "6months").
  { destruct (setMonth_back_local now 6) as (n & E & _ & _ & H). exists n. cbn. auto. }
  destruct (setFullYear_back_local now) as (n & E & H). exists n. cbn. auto.
Qed.

(** The cutoff of a range lies that many days back, to within a day. *)
Lemma getDateCutoff_near (range : string) (now : Z) :
  offsetsWithinADay host ->
  - maxTime + 367 * msPerDay <= now <= maxTime - msPerDay ->
  exists c n,
    getDateCutoff host range now = Fin c /\
    c = UTC host (LocalTime host now - n * msPerDay) /\
    (rangeDays range).1 <= n <= (rangeDays range).2 /\
    now - (n + 1) * msPerDay < c < now - (n - 1) * msPerDay.
Proof.
  intros Hz Hnow. destruct (getDateCutoff_local range now) as (n & E & Hn).
  assert (Hn' : 7 <= n <= 366).
  { revert Hn. unfold rangeDays.
    repeat match goal with |- context [if ?b then _ else _] => destruct b end;
      cbn; lia. }
  set (c := UTC host (LocalTime host now - n * msPerDay)) in *.
  assert (Hc : now - (n + 1) * msPerDay < c < now - (n - 1) * msPerDay).
  { subst c. unfold UTC, LocalTime.
    pose proof (Hz now true (now + LocalTZA host now true - n * msPerDay) false) as H.
    lia. }
  exists c, n. split; [| done].
  rewrite E. apply TimeClip_valid. unfold msPerDay, maxTime in *. lia.
Qed.

(** The setters of the range move the local date back by the unit of
    the range, as the specification words it. *)
Lemma setDate_unit (t k : Z) :
  setDate host t (getDate host t - k) = TimeClip (unitBefore host (Days k) t).
Proof.
  rewrite setDate_back_local. unfold unitBefore, civilBefore.
  set (tl := LocalTime host t).
  pose proof (civil_roundtrip (Day tl)) as H.
  destruct (civil_from_days (Day tl)) as [[y m] d]. destruct H as (_ & _ & Hr).
  do 2 f_equal. pose proof (Day_TimeWithinDay tl). lia.
Qed.

Lemma setMonth_unit (t k : Z) :
  setMonth host t (getMonth host t - k) = TimeClip (unitBefore host (Months k) t).
Proof.
  unfold setMonth, getMonth, unitBefore, civilBefore, MakeDate, MakeDay,
    YearFromTime, MonthFromTime, DateFromTime.
  set (tl := LocalTime host t).
  destruct (civil_from_days (Day tl)) as [[y m] d]. cbn [fst snd].
  do 3 f_equal. rewrite (days_from_civil_day _ _ 1 d). lia.
Qed.

Lemma setFullYear_unit (t : Z) :
  setFullYear host t (getFullYear host t - 1) = TimeClip (unitBefore host (Years 1) t).
Proof.
  unfold setFullYear, getFullYear, unitBefore, civilBefore, MakeDate, MakeDay,
    YearFromTime, MonthFromTime, DateFromTime.
  set (tl := LocalTime host t).
  pose proof (civil_roundtrip (Day tl)) as H.
  destruct (civil_from_days (Day tl)) as [[y m] d]. cbn [fst snd].
  destruct H as (Hm & _ & _).
  replace ((m - 1) / 12) with 0 by (symmetry; apply Z.div_small; lia).
  replace ((m - 1) mod 12) with (m - 1) by (symmetry; apply Z.mod_small; lia).
  replace (y - 1 + 0) with (y - 1) by lia. replace (m - 1 + 1) with m by lia.
  rewrite (days_from_civil_day (y - 1) m 1 d). do 2 f_equal. lia.
Qed.

(** The cutoff the code computes is the cutoff of the specification. *)
Lemma getDateCutoff_specCutoff (range : string) (now : Z) :
  getDateCutoff host range now = specCutoff host range now.
Proof.
  unfold getDateCutoff, specCutoff, rangeUnit.
  destruct (String.eqb range "week"); [apply setDate_unit |].
  destruct (String.eqb range "2weeks"); [apply setDate_unit |].
  destruct (String.eqb range "month"); [apply setMonth_unit |].
  destruct (String.eqb range "3months"); [apply setMonth_unit |].
  destruct (String.eqb range "6months"); [apply setMonth_unit |].
  destruct (String.eqb range "year"); apply setFullYear_unit.
Qed.

End CutoffProps.

(** ** Filtering by range and tags *)

Section FilterProps.

Import App.
Context (host : Host).

Lemma filterC_total (selectedTags : list string) (l : list Session) :
  tagsWellFormed l ->
  filterC (hasSelectedTag selectedTags) l
  = Normal (List.filter
              (fun s => match tags_of s with
                        | Normal t => existsb (includes selectedTags) t
                        | Throw _ => false
                        end) l).
Proof.
  induction l as [| x l IH]; intros Hwf; [reflexivity |].
  cbn [filterC List.filter]. unfold hasSelectedTag at 1.
  destruct (Hwf x) as [t Ht]; [left |]. rewrite Ht. cbn [cbind].
  rewrite IH; [reflexivity |].
  intros s Hs. apply Hwf. by right.
Qed.

Lemma filter_filter {A} (p q : A -> bool) (l : list A) :
  List.filter q (List.filter p l) = List.filter (fun x => p x && q x) l.
Proof.
  induction l as [| x l IH]; [reflexivity |]. cbn.
  destruct (p x); cbn; [destruct (q x) |]; by rewrite IH.
Qed.

Lemma filteredSessions_keeps sessions range selectedTags now :
  selectedTags = [] \/ tagsWellFormed sessions ->
  filteredSessions host sessions range selectedTags now
  = Normal (List.filter (keeps host (getDateCutoff host range now) selectedTags) sessions).
Proof.
  intros Hwf. unfold filteredSessions, keeps.
  destruct selectedTags as [| tag tags]; cbn [length Nat.eqb].
  - f_equal. apply filter_ext. intros s. by rewrite andb_true_r.
  - destruct Hwf as [? | Hwf]; [done |].
    rewrite filterC_total.
    + by rewrite filter_filter.
    + intros s Hs. apply Hwf.
      apply list_elem_of_In, filter_In in Hs as [Hs _]. by apply list_elem_of_In.
Qed.

Lemma includes_spec (l : list string) (x : string) :
  includes l x = true <-> x ∈ l.
Proof.
  unfold includes. rewrite existsb_exists. split.
  - intros (y & Hy & He). apply String.eqb_eq in He. subst. by apply list_elem_of_In.
  - intros H. exists x. split; [by apply list_elem_of_In | apply String.eqb_refl].
Qed.

(** The predicate in words. *)
Lemma keeps_spec cutoff selectedTags s :
  keeps host cutoff selectedTags s = true <->
  (exists c e, cutoff = Fin c /\
               ToNumber host (js_or (get s "endAt") (get s "startAt")) = Fin e /\
               c <= e) /\
  (selectedTags = [] \/
   exists l tag, tags_of s = Normal l /\ tag ∈ l /\ tag ∈ selectedTags).
Proof.
  unfold keeps, inRange, js_ge_num, num_ge, num_le.
  rewrite andb_true_iff. f_equiv.
  - destruct cutoff as [c|];
      destruct (ToNumber host (js_or (get s "endAt") (get s "startAt"))) as [e|].
    + rewrite Z.leb_le. split; [eauto | by intros (? & ? & [= <-] & [= <-] & ?)].
    + split; [done | by intros (? & ? & _ & ? & _)].
    + split; [done | by intros (? & ? & ? & _)].
    + split; [done | by intros (? & ? & ? & _)].
  - destruct selectedTags as [| t0 ts]; [by split; eauto |].
    destruct (tags_of s) as [l | e].
    + rewrite existsb_exists. split.
      * intros (tag & Hin & Hinc). right. exists l, tag.
        split; [done |]. split; [by apply list_elem_of_In | by apply includes_spec].
      * intros [? | (l' & tag & [= <-] & Hin & Hsel)]; [done |].
        exists tag. split; [by apply list_elem_of_In | by apply includes_spec].
    + split; [done |]. by intros [? | (? & ? & ? & _)].
Qed.

(** What the tag hypothesis of the specification gives the code. *)
Lemma tags_of_tagList (s : Session) :
  holdsTagList s -> tags_of s = Normal (tagList s).
Proof.
  unfold holdsTagList, tags_of, tagList, js_or.
  destruct (get s "tags"); cbn; try done; by intros ->.
Qed.

Lemma holdsTagList_wellFormed (sessions : list Session) :
  Forall holdsTagList sessions -> tagsWellFormed sessions.
Proof.
  intros H s Hs. exists (tagList s). apply tags_of_tagList.
  by apply (proj1 (Forall_forall _ _) H).
Qed.

(** On a session that holds a tag list, the predicate of the code and
    the predicate of the specification agree. *)
Lemma keeps_specKeeps cutoff selectedTags s :
  selectedTags = [] \/ holdsTagList s ->
  keeps host cutoff selectedTags s = specKeeps host cutoff selectedTags s.
Proof.
  intros H. unfold keeps, specKeeps, inRange, js_ge_num, num_ge, num_le, effectiveEnd, js_or.
  f_equal.
  destruct selectedTags as [| t0 ts]; [reflexivity |].
  destruct H as [? | H]; [done |].
  by rewrite (tags_of_tagList s H).
Qed.

(** The predicate of the specification in words. *)
Lemma specKeeps_spec cutoff selectedTags s :
  specKeeps host cutoff selectedTags s = true <->
  (exists c e, cutoff = Fin c /\ effectiveEnd host s = Fin e /\ c <= e) /\
  (selectedTags = [] \/ exists tag, tag ∈ tagList s /\ tag ∈ selectedTags).
Proof.
  unfold specKeeps. rewrite andb_true_iff. f_equiv.
  - destruct cutoff as [c|], (effectiveEnd host s) as [e|].
    + rewrite Z.leb_le. split; [eauto | by intros (? & ? & [= <-] & [= <-] & ?)].
    + split; [done | by intros (? & ? & _ & ? & _)].
    + split; [done | by intros (? & ? & ? & _)].
    + split; [done | by intros (? & ? & ? & _)].
  - destruct selectedTags as [| t0 ts]; [by split; eauto |].
    rewrite existsb_exists. split.
    + intros (tag & Hin & Hsel). right. exists tag.
      split; [by apply list_elem_of_In | by apply (includes_spec (t0 :: ts))].
    + intros [? | (tag & Hin & Hsel)]; [done |].
      exists tag. split; [by apply list_elem_of_In | by apply (includes_spec (t0 :: ts))].
Qed.

(** C7. The cutoff that the filter computes is the instant one calendar
    unit of the range before now on the local calendar: 7 or 14 days, 1,
    3 or 6 months, or a year (a range name outside these six is read as
    a year).  The filter keeps exactly, and in their order, the sessions
    whose [endAt] (or [startAt] when [endAt] is falsy) is at or after
    that cutoff and whose stored tag list, when tags are selected, has a
    tag in common with the selection (every session holding a tag list
    or no tags when tags are selected).  As long as the offsets of local
    time stay within a day of one another, the cutoff lies 7, 14, 28 to
    31, 89 to 92, 181 to 184 or 365 to 366 days before now, to within a
    day, and exactly that many days at a fixed offset; for "week" a
    session ended eight days ago is dropped and one ended six days ago
    is kept. *)
Theorem filteredSessions_spec (sessions : list Session)
        (range : string) (selectedTags : list string) (now : Z) :
  selectedTags = [] \/ Forall holdsTagList sessions ->
  let cutoff := specCutoff host range now in
  getDateCutoff host range now = cutoff /\
  (exists kept,
      filteredSessions host sessions range selectedTags now = Normal kept /\
      kept = List.filter (specKeeps host cutoff selectedTags) sessions /\
      forall s, s ∈ kept <->
        s ∈ sessions /\
        (exists c e, cutoff = Fin c /\ effectiveEnd host s = Fin e /\ c <= e) /\
        (selectedTags = [] \/ exists tag, tag ∈ tagList s /\ tag ∈ selectedTags)) /\
  (offsetsWithinADay host ->
   - maxTime + 367 * msPerDay <= now <= maxTime - msPerDay ->
   exists c n,
     cutoff = Fin c /\
     (rangeDays range).1 <= n <= (rangeDays range).2 /\
     c = UTC host (LocalTime host now - n * msPerDay) /\
     now - (n + 1) * msPerDay < c < now - (n - 1) * msPerDay /\
     (forall off, fixedOffset host off -> c = now - n * msPerDay)) /\
  (offsetsWithinADay host ->
   range = "week" ->
   8 * msPerDay < now <= maxTime ->
   exists c,
     cutoff = Fin c /\
     now - 8 * msPerDay < c < now - 6 * msPerDay /\
     (forall off, fixedOffset host off -> c = now - 7 * msPerDay) /\
     forall s,
       (get s "endAt" = JNum (Fin (now - 8 * msPerDay)) ->
        specKeeps host cutoff selectedTags s = false) /\
       (get s "endAt" = JNum (Fin (now - 6 * msPerDay)) ->
        specKeeps host cutoff [] s = true)).
Proof.
  intros Hwf cutoff.
  assert (Hcut : getDateCutoff host range now = cutoff)
    by apply getDateCutoff_specCutoff.
  split; [exact Hcut |]. split; [| split].
  - eexists. split; [| split; [reflexivity |]].
    + rewrite filteredSessions_keeps, Hcut.
      * f_equal. apply filter_ext_in. intros s Hs. apply keeps_specKeeps.
        destruct Hwf as [? | Hwf]; [by left | right].
        by apply (proj1 (Forall_forall _ _) Hwf), list_elem_of_In.
      * destruct Hwf as [? | Hwf]; [by left | right]. by apply holdsTagList_wellFormed.
    + intros s. rewrite list_elem_of_In, filter_In, <- list_elem_of_In.
      by rewrite specKeeps_spec.
  - intros Hoffs Hnow.
    destruct (getDateCutoff_near host range now Hoffs Hnow) as (c & n & E & Ec & Hn & Hc).
    exists c, n. split; [by rewrite <- Hcut |]. do 3 (split; [done |]).
    intros off Hoff. rewrite Ec.
    rewrite (UTC_fixed host off Hoff), (LocalTime_fixed host off Hoff). lia.
  - intros Hoffs -> Hnow.
    set (c := UTC host (LocalTime host now - 7 * msPerDay)).
    assert (Hbounds : now - 8 * msPerDay < c < now - 6 * msPerDay).
    { unfold c, UTC, LocalTime.
      pose proof (Hoffs now true (now + LocalTZA host now true - 7 * msPerDay) false).
      lia. }
    assert (Hc : cutoff = Fin c).
    { rewrite <- Hcut, getDateCutoff_week_local. fold c.
      apply TimeClip_valid. unfold msPerDay, maxTime in *. lia. }
    exists c. split; [exact Hc |]. split; [exact Hbounds |]. split.
    { intros off Hoff. unfold c.
      rewrite (UTC_fixed host off Hoff), (LocalTime_fixed host off Hoff). lia. }
    intros s. rewrite Hc. unfold specKeeps, effectiveEnd.
    split; intros ->; cbn.
    + destruct (Z.eqb_spec (now - 8 * msPerDay) 0); [lia |]. cbn.
      destruct (Z.leb_spec c (now - 8 * msPerDay)); [lia | reflexivity].
    + destruct (Z.eqb_spec (now - 6 * msPerDay) 0); [unfold msPerDay in *; lia |]. cbn.
      destruct (Z.leb_spec c (now - 6 * msPerDay)); [reflexivity | lia].
Qed.

End FilterProps.

(** ** Splitting a session over the days it spans *)

Section DayLoopProps.

Import App.

Lemma sumCounts_insert (counts : gmap string num) (k : string) (v : num) :
  sumCounts (<[k := v]> counts)
  = sumCounts counts + numZ v - numZ (default (Fin 0) (counts !! k)).
Proof.
  unfold sumCounts.
  rewrite <- (insert_delete_eq counts).
  rewrite map_fold_insert_L; [| intros; lia | apply lookup_delete_eq].
  destruct (counts !! k) as [old |] eqn:Hk; cbn.
  - rewrite (map_fold_delete_L _ _ k old counts); [lia | intros; lia | exact Hk].
  - rewrite delete_id by exact Hk. lia.
Qed.

Lemma count_or0_Fin (counts : gmap string num) (k : string) :
  count_or0 counts k = Fin (numZ (default (Fin 0) (counts !! k))).
Proof.
  unfold count_or0. destruct (counts !! k) as [[z|]|]; cbn; try reflexivity.
  destruct (Z.eqb_spec z 0); cbn; congruence.
Qed.

(** Adding [sec] seconds to a bucket raises the sum by [sec]. *)
Lemma sumCounts_add (counts : gmap string num) (k : string) (sec : Z) :
  sumCounts (<[k := num_add (count_or0 counts k) (Fin sec)]> counts)
  = sumCounts counts + sec.
Proof.
  rewrite sumCounts_insert, count_or0_Fin. cbn. lia.
Qed.

Lemma roundSeconds_bounds (x : Z) :
  2 * x - 1000 < 2000 * roundSeconds x <= 2 * x + 1000.
Proof. unfold roundSeconds. Z.div_mod_to_equations. lia. Qed.

Lemma round_div_seconds (x : Z) : round_div (Fin x) 1000 = Fin (roundSeconds x).
Proof. reflexivity. Qed.

Lemma Day_mono (a b : Z) : a <= b -> Day a <= Day b.
Proof. intros H. unfold Day, msPerDay. apply Z.div_le_mono; lia. Qed.

Section AnyHost.

Context (host : Host).

(** One iteration of the loop. *)
Lemma dayLoop_step (n : nat) (e c : Z) (counts : gmap string num) :
  c < e ->
  dayLoop host (S n) (Fin e) (Fin c) counts
  = match startOfDayISO host (Fin c) with
    | Throw err => Some (Throw err)
    | Normal key =>
        let segEnd := Math_min (Fin e) (setHours host (TimeClip c) 24 0 0 0) in
        dayLoop host n (Fin e) segEnd
                (<[key := num_add (count_or0 counts key)
                                  (round_div (num_sub segEnd (Fin c)) 1000)]> counts)
    end.
Proof.
  intros Hlt. cbn [dayLoop num_lt].
  destruct (Z.ltb_spec c e); [reflexivity | lia].
Qed.

Lemma dayLoop_exit (n : nat) (e : num) (c : num) (counts : gmap string num) :
  num_lt c e = false -> dayLoop host n e c counts = Some (Normal counts).
Proof. intros H. destruct n; cbn [dayLoop]; by rewrite H. Qed.

(** More iterations than needed change nothing. *)
Lemma dayLoop_fuel_mono (n : nat) :
  forall (e c : num) (counts : gmap string num) r,
    dayLoop host n e c counts = Some r ->
    forall m, (n <= m)%nat -> dayLoop host m e c counts = Some r.
Proof.
  induction n as [| n IH]; intros e c counts r Hrun m Hm.
  - cbn [dayLoop] in Hrun. destruct (num_lt c e) eqn:Hlt; [discriminate |].
    rewrite dayLoop_exit by exact Hlt. exact Hrun.
  - destruct m as [| m]; [lia |].
    cbn [dayLoop] in Hrun |- *. destruct (num_lt c e); [| exact Hrun].
    destruct (startOfDayISO host c); [| exact Hrun].
    apply (IH _ _ _ _ Hrun). lia.
Qed.

Lemma setHours24 (c : Z) :
  setHours host (Fin c) 24 0 0 0 = TimeClip (nextDayStart host c).
Proof. reflexivity. Qed.

Lemma setHours0 (c : Z) :
  setHours host (Fin c) 0 0 0 0 = TimeClip (dayStart host c).
Proof. reflexivity. Qed.

(** The callback of [forEach] either skips the session or runs the
    loop between its resolved endpoints. *)
Lemma addSession_dayLoop (n : nat) (sess : Session) (counts : gmap string num)
      (sMs eMs : Z) :
  resolveStart host sess = Fin sMs ->
  resolveEnd host sess = Fin eMs ->
  sMs <> 0 -> eMs <> 0 -> sMs < eMs ->
  addSession host n sess counts = dayLoop host n (Fin eMs) (Fin sMs) counts.
Proof.
  intros Hs He Hs0 He0 Hlt. unfold addSession. rewrite Hs, He. cbn.
  destruct (Z.eqb_spec sMs 0); [done |].
  destruct (Z.eqb_spec eMs 0); [done |].
  destruct (Z.leb_spec eMs sMs); [lia | reflexivity].
Qed.

End AnyHost.

(** *** Local time at a fixed offset *)

Section FixedOffset.

Context (host : Host) (off : Z) (Hoff : fixedOffset host off).

Lemma nextDayStart_fixed (c : Z) :
  nextDayStart host c = (Day (c + off) + 1) * msPerDay - off.
Proof.
  unfold nextDayStart, MakeDate, MakeTime.
  rewrite (UTC_fixed host off Hoff), (LocalTime_fixed host off Hoff).
  unfold msPerDay, msPerHour, msPerMinute, msPerSecond. lia.
Qed.

Lemma dayStart_fixed (c : Z) :
  dayStart host c = Day (c + off) * msPerDay - off.
Proof.
  unfold dayStart, MakeDate, MakeTime.
  rewrite (UTC_fixed host off Hoff), (LocalTime_fixed host off Hoff).
  unfold msPerDay, msPerHour, msPerMinute, msPerSecond. lia.
Qed.

(** The next local day begins strictly after the current instant, and
    at most 24 hours after it. *)
Lemma nextDayStart_after (c : Z) :
  c < nextDayStart host c <= c + msPerDay.
Proof.
  rewrite nextDayStart_fixed. pose proof (Day_TimeWithinDay (c + off)) as H.
  pose proof (Z.mod_pos_bound (c + off) msPerDay) as Hm.
  unfold TimeWithinDay, msPerDay in *. lia.
Qed.

Lemma dayStart_before (c : Z) :
  c - msPerDay < dayStart host c <= c.
Proof.
  rewrite dayStart_fixed. pose proof (Day_TimeWithinDay (c + off)) as H.
  pose proof (Z.mod_pos_bound (c + off) msPerDay) as Hm.
  unfold TimeWithinDay, msPerDay in *. lia.
Qed.

(** It is the first instant of the following local day. *)
Lemma localDay_nextDayStart (c : Z) :
  localDay host (nextDayStart host c) = localDay host c + 1.
Proof.
  unfold localDay. rewrite !(LocalTime_fixed host off Hoff), nextDayStart_fixed.
  replace ((Day (c + off) + 1) * msPerDay - off + off)
    with (0 + (Day (c + off) + 1) * msPerDay) by lia.
  unfold Day at 1. rewrite Z.div_add by (unfold msPerDay; lia).
  reflexivity.
Qed.

Lemma fixedOffset_regularDays : regularDays host.
Proof.
  split.
  - intros c. pose proof (nextDayStart_after c). unfold msPerDay in *. lia.
  - intros c. pose proof (dayStart_before c). unfold msPerDay in *. lia.
  - intros c. rewrite localDay_nextDayStart. lia.
  - intros a b Hab. unfold localDay. rewrite !(LocalTime_fixed host off Hoff).
    apply Day_mono. lia.
Qed.

Lemma startOfDayISO_fixed (c : Z) :
  - maxTime + msPerDay <= c <= maxTime ->
  startOfDayISO host (Fin c) = Normal (slice0 10 (iso_string (dayStart host c))).
Proof.
  intros Hc. unfold startOfDayISO.
  rewrite TimeClip_valid by (unfold msPerDay in *; lia).
  rewrite setHours0, TimeClip_valid; [reflexivity |].
  pose proof (dayStart_before c). unfold msPerDay in *. lia.
Qed.

End FixedOffset.

(** *** A zone with a daylight-saving change *)

Local Ltac zone_arith :=
  cbn [LocalTZA oneChangeHost];
  repeat match goal with
         | |- context [?a <? ?b] => destruct (Z.ltb_spec a b)
         end;
  Z.div_mod_to_equations; lia.

Lemma easternSpring2024_regularDays : regularDays easternSpring2024.
Proof.
  split.
  - intros c.
    unfold nextDayStart, UTC, LocalTime, MakeDate, MakeTime, Day,
      msPerDay, msPerHour, msPerMinute, msPerSecond, easternSpring2024.
    zone_arith.
  - intros c.
    unfold dayStart, UTC, LocalTime, MakeDate, MakeTime, Day,
      msPerDay, msPerHour, msPerMinute, msPerSecond, easternSpring2024.
    zone_arith.
  - intros c.
    unfold localDay, nextDayStart, UTC, LocalTime, MakeDate, MakeTime, Day,
      msPerDay, msPerHour, msPerMinute, msPerSecond, easternSpring2024.
    zone_arith.
  - intros a b Hab.
    unfold localDay, LocalTime, Day, msPerDay, easternSpring2024.
    zone_arith.
Qed.

Lemma easternAutumn2024_regularDays : regularDays easternAutumn2024.
Proof.
  split.
  - intros c.
    unfold nextDayStart, UTC, LocalTime, MakeDate, MakeTime, Day,
      msPerDay, msPerHour, msPerMinute, msPerSecond, easternAutumn2024.
    zone_arith.
  - intros c.
    unfold dayStart, UTC, LocalTime, MakeDate, MakeTime, Day,
      msPerDay, msPerHour, msPerMinute, msPerSecond, easternAutumn2024.
    zone_arith.
  - intros c.
    unfold localDay, nextDayStart, UTC, LocalTime, MakeDate, MakeTime, Day,
      msPerDay, msPerHour, msPerMinute, msPerSecond, easternAutumn2024.
    zone_arith.
  - intros a b Hab.
    unfold localDay, LocalTime, Day, msPerDay, easternAutumn2024.
    zone_arith.
Qed.

(** *** Zones with regular days *)

Section RegularDays.

Context (host : Host) (Hreg : regularDays host).

(** The loop ends within one iteration per local day still ahead,
    whatever it returns. *)
Lemma dayLoop_fuel_suffices (n : nat) (e : Z) :
  forall (c : Z) (counts : gmap string num),
    localDay host (e - 1) - localDay host c < Z.of_nat n ->
    exists r, dayLoop host n (Fin e) (Fin c) counts = Some r.
Proof.
  induction n as [| n IH]; intros c counts Hn.
  - destruct (Z.ltb_spec c e) as [Hlt | Hge].
    + pose proof (day_mono host Hreg c (e - 1)). lia.
    + eexists. apply dayLoop_exit. cbn. by apply Z.ltb_ge.
  - destruct (Z.ltb_spec c e) as [Hlt | Hge].
    2: { eexists. apply dayLoop_exit. cbn. by apply Z.ltb_ge. }
    rewrite dayLoop_step by exact Hlt.
    destruct (startOfDayISO host (Fin c)) as [key | err]; [| eauto].
    cbv zeta. unfold TimeClip at 1.
    destruct (maxTime <? Z.abs c).
    { cbn [setHours Math_min]. eexists. by apply dayLoop_exit. }
    rewrite setHours24. unfold TimeClip.
    destruct (maxTime <? Z.abs (nextDayStart host c)).
    { cbn [Math_min]. eexists. by apply dayLoop_exit. }
    cbn [Math_min].
    destruct (Z.le_gt_cases e (nextDayStart host c)) as [Hend | Hmore].
    + rewrite Z.min_l by exact Hend.
      eexists. apply dayLoop_exit. cbn. apply Z.ltb_ge. lia.
    + rewrite Z.min_r by lia. apply IH.
      pose proof (next_day host Hreg c). lia.
Qed.

Lemma startOfDayISO_regular (c : Z) :
  - maxTime + 2 * msPerDay <= c <= maxTime - 2 * msPerDay ->
  startOfDayISO host (Fin c) = Normal (slice0 10 (iso_string (dayStart host c))).
Proof.
  intros Hc. unfold startOfDayISO.
  rewrite TimeClip_valid by (unfold msPerDay in *; lia).
  rewrite setHours0, TimeClip_valid; [reflexivity |].
  pose proof (start_near host Hreg c). unfold msPerDay in *. lia.
Qed.

(** The loop run from [c]: it completes, in [k] iterations for some [k]
    between 1 and the number of days ahead, and the seconds it adds are
    within [k] half-seconds of the exact length. *)
Lemma dayLoop_sum (n : nat) (e : Z) :
  forall (c : Z) (counts : gmap string num),
    inTimeRange c e ->
    c < e ->
    localDay host (e - 1) - localDay host c < Z.of_nat n ->
    exists (counts' : gmap string num) (k : Z),
      dayLoop host n (Fin e) (Fin c) counts = Some (Normal counts') /\
      1 <= k <= daysSpanned host c e /\
      2 * (e - c) - 1000 * k
        < 2000 * (sumCounts counts' - sumCounts counts)
        <= 2 * (e - c) + 1000 * k.
Proof.
  induction n as [| n IH]; intros c counts [Hlo Hhi] Hlt Hn.
  { pose proof (day_mono host Hreg c (e - 1)). lia. }
  pose proof (next_after host Hreg c) as Hnext.
  rewrite dayLoop_step by exact Hlt.
  rewrite startOfDayISO_regular by (unfold msPerDay in *; lia).
  cbv zeta.
  rewrite (TimeClip_valid c) by (unfold msPerDay in *; lia).
  rewrite setHours24, TimeClip_valid by (unfold msPerDay in *; lia).
  cbn [Math_min num_sub]. rewrite round_div_seconds.
  set (key := slice0 10 (iso_string (dayStart host c))).
  set (seg := Z.min e (nextDayStart host c)).
  pose proof (sumCounts_add counts key (roundSeconds (seg - c))) as Hsum.
  pose proof (roundSeconds_bounds (seg - c)) as Hr.
  pose proof (day_mono host Hreg c (e - 1)) as Hmono.
  destruct (Z.le_gt_cases e (nextDayStart host c)) as [Hend | Hmore].
  - assert (seg = e) as Hseg by (unfold seg; lia). rewrite Hseg in *.
    rewrite dayLoop_exit by (cbn; apply Z.ltb_ge; lia).
    eexists _, 1. split; [reflexivity |].
    unfold daysSpanned. lia.
  - assert (seg = nextDayStart host c) as Hseg by (unfold seg; lia).
    rewrite Hseg in *.
    pose proof (next_day host Hreg c) as Hday.
    destruct (IH (nextDayStart host c)
                 (<[key := num_add (count_or0 counts key)
                                   (Fin (roundSeconds (nextDayStart host c - c)))]>
                    counts))
      as (counts' & k & Hrun & Hk & Hb).
    + split; lia.
    + lia.
    + lia.
    + exists counts', (k + 1). split; [exact Hrun |].
      unfold daysSpanned in *. lia.
Qed.

Lemma addSession_terminates (sess : Session) (counts : gmap string num) :
  exists n r, addSession host n sess counts = Some r.
Proof.
  unfold addSession.
  destruct (resolveStart host sess) as [sMs |]; [| by exists O; eauto].
  destruct (resolveEnd host sess) as [eMs |];
    [| exists O; eexists; by rewrite orb_true_r].
  destruct (negb (num_truthy (Fin sMs)) || negb (num_truthy (Fin eMs))
            || num_le (Fin eMs) (Fin sMs)) eqn:Hskip; [by exists O; eauto |].
  exists (Z.to_nat (daysSpanned host sMs eMs)).
  apply dayLoop_fuel_suffices.
  apply orb_false_iff in Hskip as [_ Hle]. cbn in Hle. apply Z.leb_gt in Hle.
  pose proof (day_mono host Hreg sMs (eMs - 1)).
  unfold daysSpanned. lia.
Qed.

End RegularDays.

Lemma regularDays_of (host : Host) :
  (exists off, fixedOffset host off) \/ regularDays host -> regularDays host.
Proof.
  intros [[off Hoff] | H]; [by eapply fixedOffset_regularDays | exact H].
Qed.

(** C10. Where local time is a fixed offset from UTC, or more generally
    where the days of the zone follow one another in order, the start of
    the next local day is strictly after any instant; so each iteration
    moves the cursor strictly forward, and the loop over a session
    reaches its exit within as many iterations as the session spans local
    days. *)
Theorem dayLoop_terminates (host : Host) (sMs eMs : Z) (counts : gmap string num) :
  (exists off, fixedOffset host off) \/ regularDays host ->
  sMs < eMs ->
  (forall c : Z, c < nextDayStart host c) /\
  (forall c : Z, c < eMs -> c < Z.min eMs (nextDayStart host c)) /\
  (forall c : Z, localDay host c < localDay host (nextDayStart host c)) /\
  (exists r,
      dayLoop host (Z.to_nat (daysSpanned host sMs eMs)) (Fin eMs) (Fin sMs) counts
      = Some r) /\
  (forall sess : Session, exists n r, addSession host n sess counts = Some r).
Proof.
  intros Hzone Hlt. apply regularDays_of in Hzone as Hreg. repeat split.
  - intros c. apply (next_after host Hreg c).
  - intros c Hc. pose proof (next_after host Hreg c). lia.
  - intros c. pose proof (next_day host Hreg c). lia.
  - apply dayLoop_fuel_suffices; [exact Hreg |].
    pose proof (day_mono host Hreg sMs (eMs - 1)).
    unfold daysSpanned. lia.
  - intros sess. by apply addSession_terminates.
Qed.

(** C3. Within the time range, in such a zone, the loop over a session
    from [sMs] to [eMs] completes, and the seconds it adds to the buckets
    differ from [round((eMs - sMs) / 1000)] by at most the number of local
    days the session spans. *)
Theorem dayLoop_conserves (host : Host) (sMs eMs : Z) (counts : gmap string num) :
  (exists off, fixedOffset host off) \/ regularDays host ->
  sMs < eMs ->
  inTimeRange sMs eMs ->
  exists counts' : gmap string num,
    dayLoop host (Z.to_nat (daysSpanned host sMs eMs)) (Fin eMs) (Fin sMs) counts
    = Some (Normal counts') /\
    Z.abs (sumCounts counts' - sumCounts counts - roundSeconds (eMs - sMs))
    <= daysSpanned host sMs eMs.
Proof.
  intros Hzone Hlt Hrange. apply regularDays_of in Hzone as Hreg.
  pose proof (day_mono host Hreg sMs (eMs - 1)) as Hmono.
  destruct (dayLoop_sum host Hreg (Z.to_nat (daysSpanned host sMs eMs)) eMs sMs counts)
    as (counts' & k & Hrun & Hk & Hb); try done.
  { unfold daysSpanned. lia. }
  exists counts'. split; [exact Hrun |].
  pose proof (roundSeconds_bounds (eMs - sMs)). lia.
Qed.

End DayLoopProps.

(** ** Statistics *)

Section StatsProps.

Import App.
Context (host : Host).

Lemma totalTime_sum (filtered : list Session) (ds : list Z) :
  durations filtered ds ->
  totalTime host filtered = JNum (Fin (sumZ ds)).
Proof.
  unfold totalTime.
  assert (H : forall acc,
             durations filtered ds ->
             fold_left (fun sum s => js_add host sum
                                        (js_or (get s "durationMs") (JNum (Fin 0))))
                       filtered (JNum (Fin acc))
             = JNum (Fin (acc + sumZ ds))).
  { intros acc Hd. revert acc.
    induction Hd as [| s d l ds' Hsd Hl IH]; intros acc; cbn.
    - f_equal. f_equal. lia.
    - unfold durationOf in Hsd.
      destruct (js_or (get s "durationMs") (JNum (Fin 0))) as [| | |[z|]| |];
        try discriminate.
      injection Hsd as ->. cbn. rewrite IH. unfold sumZ. cbn. f_equal. f_equal. lia. }
  intros Hd. by rewrite (H 0 Hd).
Qed.

Lemma secondsToHMS_nonneg (s : Z) :
  0 <= s ->
  exists h m c,
    secondsToHMS (Fin s) = {| hh := Fin h; mm := Fin m; ss := Fin c |} /\
    h * 3600 + m * 60 + c = s /\ 0 <= h /\ 0 <= m < 60 /\ 0 <= c < 60.
Proof.
  intros Hs. unfold secondsToHMS, floor_div, num_rem.
  eexists _, _, _. split; [reflexivity |].
  rewrite !Z.rem_mod_nonneg by lia.
  Z.div_mod_to_equations. lia.
Qed.

(** C8, as the code has it.  For sessions with numeric durations, the
    total is the sum of the stored [durationMs] in whole seconds (it is
    not read from the buckets), the day count is the number of buckets in
    the map whatever their value (1 for an empty map), and the average is
    the sum of the durations over 1000 times the day count, floored. *)
Theorem stats_spec (filtered : list Session) (ds : list Z)
        (counts : gmap string num) :
  durations filtered ds ->
  let st := stats host filtered counts in
  let totalSeconds := sumZ ds / 1000 in
  ToNumber host (totalTime host filtered) = Fin (sumZ ds) /\
  total st = secondsToHMS (Fin totalSeconds) /\
  daysStudied st = Z.max 1 (Z.of_nat (size counts)) /\
  avg st = secondsToHMS (Fin (sumZ ds / (1000 * daysStudied st))) /\
  avg st = secondsToHMS (Fin (totalSeconds / daysStudied st)) /\
  (0 <= sumZ ds ->
   exists h m c,
     total st = {| hh := Fin h; mm := Fin m; ss := Fin c |} /\
     h * 3600 + m * 60 + c = totalSeconds /\ 0 <= m < 60 /\ 0 <= c < 60).
Proof.
  intros Hd st totalSeconds. unfold st, stats. rewrite (totalTime_sum _ _ Hd).
  cbn [ToNumber floor_div total avg daysStudied].
  assert (Hdays : (if (size counts =? 0)%nat then 1 else Z.of_nat (size counts))
                  = Z.max 1 (Z.of_nat (size counts))).
  { destruct (Nat.eqb_spec (size counts) 0); lia. }
  rewrite Hdays. unfold totalSeconds.
  split; [reflexivity |]. split; [reflexivity |]. split; [reflexivity |].
  split; [reflexivity |]. split.
  { rewrite Z.div_div by lia. reflexivity. }
  intros Hpos.
  destruct (secondsToHMS_nonneg (sumZ ds / 1000)) as (h & m & c & E & Hsum & _ & Hm & Hc).
  { apply Z.div_pos; lia. }
  exists h, m, c. repeat split; (assumption || lia).
Qed.

End StatsProps.

Lemma stats_spec_witness :
  App.total (App.stats (fixedOffsetHost 0) [shortSession] ∅)
  = App.secondsToHMS (Fin 1).
Proof.
  destruct (stats_spec (fixedOffsetHost 0) [shortSession] [1500] ∅) as (_ & H & _).
  - repeat constructor.
  - exact H.
Defined.

(** C8 as stated fails: the bucket of a session of 1500 ms holds
    [round(1.5) = 2] seconds while the total shows [floor(1.5) = 1]. *)
Lemma stats_counterexample :
  ~ (forall (host : Host) (fuel : nat) (filtered : list Session)
            (counts : gmap string num),
        App.countsByDay host fuel filtered = Some (Normal counts) ->
        statsFromBuckets host filtered counts).
Proof.
  intros H.
  specialize (H (fixedOffsetHost 0) 1%nat [shortSession]
                {[ "2024-03-10" := Fin 2 ]}).
  destruct H as [H _].
  - vm_compute. reflexivity.
  - vm_compute in H. discriminate.
Qed.

(** ** The key of a day *)

Section DayKeyProps.

Import App.

Lemma append_cons (x : ascii) (a b : string) :
  String x a +:+ b = String x (a +:+ b).
Proof. reflexivity. Qed.

Lemma append_assoc (a b c : string) : (a +:+ b) +:+ c = a +:+ (b +:+ c).
Proof.
  induction a as [| x a IH]; [reflexivity |].
  by rewrite !append_cons, IH.
Qed.

Lemma length_append (a b : string) :
  String.length (a +:+ b) = (String.length a + String.length b)%nat.
Proof.
  induction a as [| x a IH]; [reflexivity |].
  rewrite append_cons. cbn [String.length]. by rewrite IH.
Qed.

Lemma slice0_append (a b : string) : slice0 (String.length a) (a +:+ b) = a.
Proof.
  unfold slice0. induction a as [| x a IH].
  - by destruct b.
  - rewrite append_cons. cbn [String.length substring]. by rewrite IH.
Qed.

Lemma length_fixed_digits (w : nat) (n : Z) (acc : string) :
  String.length (fixed_digits w n acc) = (w + String.length acc)%nat.
Proof.
  revert n acc. induction w as [| w IH]; intros n acc; cbn; [reflexivity |].
  rewrite IH. cbn. lia.
Qed.

Lemma length_year_string (y : Z) :
  0 <= y <= 9999 -> String.length (year_string y) = 4%nat.
Proof.
  intros Hy. unfold year_string.
  destruct (Z.leb_spec 0 y); [| lia]. destruct (Z.leb_spec y 9999); [| lia].
  cbn [andb]. by rewrite length_fixed_digits.
Qed.

Lemma length_dateKey (day : Z) :
  0 <= fst (fst (civil_from_days day)) <= 9999 ->
  String.length (dateKey day) = 10%nat.
Proof.
  unfold dateKey. destruct (civil_from_days day) as [[y m] d]. cbn [fst].
  intros Hy. rewrite !length_append, !length_fixed_digits, length_year_string by done.
  reflexivity.
Qed.

(** The first ten characters of the ISO string of an instant are the
    key of its UTC day. *)
Lemma iso_string_date (u : Z) :
  0 <= YearFromTime u <= 9999 ->
  slice0 10 (iso_string u) = dateKey (Day u).
Proof.
  intros Hy.
  assert (Hlen : String.length (dateKey (Day u)) = 10%nat)
    by (by apply length_dateKey).
  rewrite <- Hlen at 1.
  assert (Hsplit : exists rest, iso_string u = dateKey (Day u) +:+ rest).
  { unfold iso_string, dateKey, YearFromTime, MonthFromTime, DateFromTime.
    destruct (civil_from_days (Day u)) as [[y m] d]. cbn [fst snd].
    replace (m - 1 + 1) with m by lia.
    eexists. rewrite !append_assoc. reflexivity. }
  destruct Hsplit as [rest ->]. apply slice0_append.
Qed.

Context (host : Host) (off : Z) (Hoff : fixedOffset host off).

(** What [startOfDayISO] returns: the key of the UTC day in which the
    local day began. *)
Lemma startOfDayISO_key (ts : Z) :
  - maxTime + msPerDay <= ts <= maxTime ->
  0 <= YearFromTime (dayStart host ts) <= 9999 ->
  startOfDayISO host (Fin ts) = Normal (dateKey (Day (dayStart host ts))).
Proof.
  intros Hts Hy. rewrite (startOfDayISO_fixed host off Hoff) by done.
  by rewrite iso_string_date.
Qed.

Lemma Day_dayStart_west (ts : Z) :
  - msPerDay < off <= 0 -> Day (dayStart host ts) = Day (LocalTime host ts).
Proof.
  intros Hw. rewrite (dayStart_fixed host off Hoff), (LocalTime_fixed host off Hoff).
  unfold Day at 1.
  replace (Day (ts + off) * msPerDay - off) with (- off + Day (ts + off) * msPerDay) by lia.
  rewrite Z.div_add by (unfold msPerDay; lia).
  rewrite Z.div_small by lia. lia.
Qed.

Lemma Day_dayStart_east (ts : Z) :
  0 < off < msPerDay -> Day (dayStart host ts) = Day (LocalTime host ts) - 1.
Proof.
  intros He. rewrite (dayStart_fixed host off Hoff), (LocalTime_fixed host off Hoff).
  unfold Day at 1.
  replace (Day (ts + off) * msPerDay - off)
    with (msPerDay - off + (Day (ts + off) - 1) * msPerDay) by lia.
  rewrite Z.div_add by (unfold msPerDay; lia).
  rewrite Z.div_small by lia. lia.
Qed.

(** At or west of UTC the key is the one of the local day; east of UTC
    it is the key of the day before. *)
Lemma startOfDayISO_local_or_previous (ts : Z) :
  - maxTime + msPerDay <= ts <= maxTime ->
  0 <= YearFromTime (dayStart host ts) <= 9999 ->
  (- msPerDay < off <= 0 ->
   startOfDayISO host (Fin ts) = Normal (localDayKey host ts)) /\
  (0 < off < msPerDay ->
   startOfDayISO host (Fin ts) = Normal (dateKey (Day (LocalTime host ts) - 1))).
Proof.
  intros Hts Hy. rewrite startOfDayISO_key by done. unfold localDayKey.
  split; intros Ho.
  - by rewrite Day_dayStart_west.
  - by rewrite Day_dayStart_east.
Qed.

End DayKeyProps.

(** C2 fails one hour east of UTC: at noon local time on 2024-03-10
    (11:00 UTC) [startOfDayISO] answers 2024-03-09, the UTC date of the
    local midnight, while the local day is 2024-03-10. *)
Theorem startOfDayISO_east_of_UTC :
  App.startOfDayISO (fixedOffsetHost 3600000) (Fin 1710068400000) = Normal "2024-03-09" /\
  localDayKey (fixedOffsetHost 3600000) 1710068400000 = "2024-03-10" /\
  App.startOfDayISO (fixedOffsetHost (-3600000)) (Fin 1710068400000)
  = Normal (localDayKey (fixedOffsetHost (-3600000)) 1710068400000).
Proof. repeat split; vm_compute; reflexivity. Qed.

(** ** The theorems on concrete sessions *)

(** A session from 2024-03-10 11:00 UTC to 2024-03-12 11:00 UTC, seen one
    hour east of UTC: it touches three local days. *)
Lemma dayLoop_terminates_witness :
  exists r,
    App.dayLoop (fixedOffsetHost 3600000)
                (Z.to_nat (daysSpanned (fixedOffsetHost 3600000)
                                       1710068400000 1710241200000))
                (Fin 1710241200000) (Fin 1710068400000) ∅
    = Some r.
Proof.
  destruct (dayLoop_terminates (fixedOffsetHost 3600000)
              1710068400000 1710241200000 ∅)
    as (_ & _ & _ & H & _).
  - left. exists 3600000. intros t b. reflexivity.
  - lia.
  - exact H.
Defined.

Lemma dayLoop_conserves_witness :
  exists counts' : gmap string num,
    App.dayLoop (fixedOffsetHost 3600000)
                (Z.to_nat (daysSpanned (fixedOffsetHost 3600000)
                                       1710068400000 1710241200000))
                (Fin 1710241200000) (Fin 1710068400000) ∅
    = Some (Normal counts') /\
    Z.abs (sumCounts counts' - sumCounts ∅ - roundSeconds (1710241200000 - 1710068400000))
    <= daysSpanned (fixedOffsetHost 3600000) 1710068400000 1710241200000.
Proof.
  apply (dayLoop_conserves (fixedOffsetHost 3600000)).
  - left. exists 3600000. intros t b. reflexivity.
  - lia.
  - unfold inTimeRange, maxTime, msPerDay. lia.
Defined.

(** The same session, bucket by bucket; the three local days are 10, 11
    and 12 March, and each key is a day early (see the day key below). *)
Example dayLoop_three_days :
  App.dayLoop (fixedOffsetHost 3600000) 3 (Fin 1710241200000) (Fin 1710068400000) ∅
  = Some (Normal (<["2024-03-11" := Fin 43200]>
                  (<["2024-03-10" := Fin 86400]>
                   (<["2024-03-09" := Fin 43200]> ∅)))).
Proof. vm_compute. reflexivity. Qed.

(** A session across the night of the clock change, from 2024-03-09
    22:00 to 2024-03-10 04:00 Eastern time: five hours, of which two on
    the first day. *)
Example dayLoop_spring_forward :
  App.dayLoop easternSpring2024 2 (Fin 1710057600000) (Fin 1710039600000) ∅
  = Some (Normal (<["2024-03-10" := Fin 10800]> (<["2024-03-09" := Fin 7200]> ∅))).
Proof. vm_compute. reflexivity. Qed.

(** The night the clocks went back, from 2024-11-02 23:00 to 2024-11-03
    03:00 Eastern time: five hours, of which four on the second day. *)
Example dayLoop_fall_back :
  App.dayLoop easternAutumn2024 2 (Fin 1730620800000) (Fin 1730602800000) ∅
  = Some (Normal (<["2024-11-03" := Fin 14400]> (<["2024-11-02" := Fin 3600]> ∅))).
Proof. vm_compute. reflexivity. Qed.

(** The six cutoffs on 2024-03-10 11:00 UTC; and the cutoff of "month"
    on 2024-03-31: February has no 31st day, and the cutoff runs on to
    the second of March. *)
Lemma getDateCutoff_examples :
  List.map (fun range => toISOString (App.getDateCutoff (fixedOffsetHost 0) range nowSample))
           ranges
  = [Normal "2024-03-03T11:00:00.000Z"; Normal "2024-02-25T11:00:00.000Z";
     Normal "2024-02-10T11:00:00.000Z"; Normal "2023-12-10T11:00:00.000Z";
     Normal "2023-09-10T11:00:00.000Z"; Normal "2023-03-10T11:00:00.000Z"] /\
  toISOString (App.getDateCutoff (fixedOffsetHost 0) "month" (nowSample + 21 * msPerDay))
  = Normal "2024-03-02T11:00:00.000Z".
Proof. split; vm_compute; reflexivity. Qed.

(** Two sessions tagged "math", ended eight and six days before now, at
    UTC.  Under the week filter with "math" selected only the second is
    kept; the first fails the predicate of the specification.  The
    cutoff of "month" on 2024-03-10 is 2024-02-10 at the same time of
    day, 29 days before now. *)
Lemma filteredSessions_spec_witness :
  App.filteredSessions (fixedOffsetHost 0) [endedDaysAgo 8; endedDaysAgo 6]
                       "week" ["math"] nowSample
  = Normal [endedDaysAgo 6] /\
  specKeeps (fixedOffsetHost 0) (specCutoff (fixedOffsetHost 0) "week" nowSample)
            ["math"] (endedDaysAgo 8) = false /\
  App.getDateCutoff (fixedOffsetHost 0) "month" nowSample
  = Fin (nowSample - 29 * msPerDay).
Proof.
  assert (Hwf : Forall holdsTagList [endedDaysAgo 8; endedDaysAgo 6]).
  { constructor; [by vm_compute |]. constructor; [by vm_compute | constructor]. }
  destruct (filteredSessions_spec (fixedOffsetHost 0)
              [endedDaysAgo 8; endedDaysAgo 6] "week" ["math"] nowSample
              (or_intror Hwf))
    as (_ & (kept & H1 & H2 & _) & _ & Hweek).
  split; [| split].
  - rewrite H1, H2. vm_compute. reflexivity.
  - destruct Hweek as (c & _ & _ & _ & H).
    + intros t b t' b'. vm_compute. reflexivity.
    + reflexivity.
    + unfold nowSample, msPerDay, maxTime. lia.
    + apply (H (endedDaysAgo 8)). vm_compute. reflexivity.
  - destruct (filteredSessions_spec (fixedOffsetHost 0) [] "month" [] nowSample
                (or_introl eq_refl)) as (Hcut & _).
    rewrite Hcut. vm_compute. reflexivity.
Defined.

(** An edit whose end is the epoch, before its start, is refused; an
    edit that moves the end to a second before now is accepted. *)
Lemma saveEdit_spec_witness :
  (exists msg,
      App.saveEdit (fixedOffsetHost 0) nowSample (editState 0)
      = Normal (editState 0, Some msg)) /\
  (exists st',
      App.saveEdit (fixedOffsetHost 0) nowSample (editState (nowSample - 1000))
      = Normal (st', None) /\
      App.editDraft st' = None).
Proof.
  split.
  - destruct (saveEdit_spec (fixedOffsetHost 0) nowSample (editState 0) _ eq_refl)
      as [H _].
    apply H. right. right. left. vm_compute. reflexivity.
  - destruct (saveEdit_spec (fixedOffsetHost 0) nowSample
                (editState (nowSample - 1000)) _ eq_refl) as [_ H].
    destruct (H (fun Hinv =>
                   match Hinv with
                   | or_introl E => ltac:(vm_compute in E; discriminate)
                   | or_intror (or_introl E) => ltac:(vm_compute in E; discriminate)
                   | or_intror (or_intror (or_introl E)) =>
                       ltac:(vm_compute in E; discriminate)
                   | or_intror (or_intror (or_intror E)) =>
                       ltac:(vm_compute in E; discriminate)
                   end)
                ["math"; "review"] ltac:(vm_compute; reflexivity))
      as (st' & Hrun & Hdraft & _).
    exists st'. split; [exact Hrun | exact Hdraft].
Defined.

(** A cleared start field reaches [saveEdit] as null, which converts to
    0: the edit is accepted and the session is stored with a null start. *)
Example saveEdit_null_start :
  let st := {| App.sessions := [endedDaysAgo 6];
               App.editingId := JStr "6";
               App.editDraft :=
                 Some (<["tagsInput" := JStr "math"]>
                       (<["startAt" := JNull]> (endedDaysAgo 6))) |} in
  exists st' x,
    App.saveEdit (fixedOffsetHost 0) nowSample st = Normal (st', None) /\
    App.sessions st' = [x] /\
    get x "startAt" = JNull /\
    get x "durationMs" = JNum (Fin (nowSample - 6 * msPerDay)).
Proof.
  eexists _, _. split; [vm_compute; reflexivity |].
  split; [reflexivity |]. split; vm_compute; reflexivity.
Qed.

(** * Further properties *)

(** ** Runs of the stopwatch *)

Section StopwatchRuns.
Import Stopwatch.

Lemma settled_press t0 t p t' st :
  settled t0 t st -> t <= t' -> settled t0 t' (press p t' st).
Proof.
  intros [H0 H] Ht. unfold settled in *.
  destruct st as [r [s|] off]; cbn in *; destruct H as [-> H];
    destruct p; unfold press, start, pause, resume, stop, since; cbn;
    try match goal with |- context [if ?b then _ else _] => destruct b end;
    cbn; lia.
Qed.

Lemma settled_presses t0 l : forall t st,
  settled t0 t st -> chronological t l ->
  settled t0 (lastReading t l) (presses l st).
Proof.
  induction l as [|[p t'] l IH]; intros t st Hs Hc; cbn in *; [assumption|].
  destruct Hc as [Ht Hc]. apply (IH t'); [|assumption].
  now apply settled_press with t.
Qed.

(** X1. Whatever buttons are pressed from the idle state, at clock
    readings that never go back, the elapsed time shown at a later
    reading is between 0 and the time passed since the first reading;
    the accumulated offset is never negative, and the stopwatch runs
    exactly when a start instant is set. *)
Theorem stopwatch_elapsed_bounds (t0 : Z) (l : list (Press * Z)) (now : Z) :
  chronological t0 l ->
  lastReading t0 l <= now ->
  let st := presses l idle in
  0 <= currentElapsed now st <= now - t0 /\
  0 <= elapsedOffset st /\
  (isRunning st = true <-> is_Some (startAt st)).
Proof.
  intros Hc Hn st.
  assert (Hs : settled t0 (lastReading t0 l) st).
  { apply settled_presses; [|assumption]. repeat split; cbn; lia. }
  clearbody st. destruct Hs as [H0 H]. unfold currentElapsed, since.
  destruct (startAt st) as [s|] eqn:Es; destruct H as [-> H]; cbn.
  - repeat split; try lia; eauto.
  - repeat split; try lia; try discriminate. intros [x Hx]. discriminate.
Qed.

(** X2. Time spent paused is not counted: after a pause the elapsed time
    stays what it was at the pause, after a resume it grows from there
    by the time since the resume; while running it grows with the clock,
    and [start] and [resume] change nothing on a running stopwatch. *)
Theorem pause_resume_elapsed (t1 t2 t3 : Z) (st : State) :
  isRunning st = true ->
  (forall t, currentElapsed t (pause t1 st) = currentElapsed t1 st) /\
  currentElapsed t3 (resume t2 (pause t1 st)) = currentElapsed t1 st + (t3 - t2) /\
  (forall d, currentElapsed (t1 + d) st = currentElapsed t1 st + d) /\
  start t2 st = st /\ resume t2 st = st.
Proof.
  intros Hr. unfold currentElapsed, pause, resume, start, since. rewrite Hr. cbn.
  repeat split; intros; lia.
Qed.

End StopwatchRuns.

Lemma stopwatch_elapsed_bounds_witness :
  0 <= Stopwatch.currentElapsed 5500
         (presses [(PressStart, 1000); (PressPause, 2000); (PressResume, 5000)] idle)
    <= 5500 - 1000.
Proof.
  apply (stopwatch_elapsed_bounds 1000
           [(PressStart, 1000); (PressPause, 2000); (PressResume, 5000)] 5500).
  - cbn. lia.
  - cbn. lia.
Defined.

Lemma pause_resume_elapsed_witness :
  let st := Stopwatch.start 1000 idle in
  Stopwatch.currentElapsed 5500 (Stopwatch.resume 5000 (Stopwatch.pause 2000 st))
  = Stopwatch.currentElapsed 2000 st + (5500 - 5000).
Proof.
  intros st. apply (pause_resume_elapsed 2000 5000 5500 st). reflexivity.
Defined.


(** ** Saving and deleting sessions *)

Section SaveAndDelete.
Import App.
Context (host : Host).

(** The session list after [confirmSave]: as before, or with one more
    session in front, whose tag list is empty. *)
Lemma confirmSave_sessions (st : Stopwatch.State) (prev : list Session) (w : World) :
  (fst (confirmSave st prev w)).1.2 = prev \/
  exists s, (fst (confirmSave st prev w)).1.2 = s :: prev /\ tags_of s = Normal [].
Proof.
  unfold confirmSave, bind, Date_now. cbn [fst snd].
  destruct (Stopwatch.stop (clock w (ticks w)) st) as [[r |] st'] eqn:E; [| by left].
  right. unfold ret, handleSessionComplete.
  destruct (completedSession_consistent host (clock w (ticks w)) st r
              {| clock := clock w; ticks := S (ticks w); ids := ids w; draws := draws w |})
    as [_ Ht]; [by rewrite E |].
  destruct (completedSession r _) as [s w1]. cbn in *. eauto.
Qed.

(** X3. [confirmSave] leaves the stopwatch idle and hides the
    confirmation.  When no time has elapsed the session list is
    unchanged; otherwise one session is added in front, which ends at
    the clock reading, lasts the elapsed time, has a duration equal to
    its end minus its start, carries the drawn id and no tag, and which
    the load-time normalizer would leave as it is (for a reading other
    than 0 and an id that is not empty). *)
Theorem confirmSave_spec (st : Stopwatch.State) (prev : list Session) (w : World) :
  let now := clock w (ticks w) in
  let elapsed := Stopwatch.currentElapsed now st in
  let r := fst (confirmSave st prev w) in
  r.1.1 = idle /\ r.2 = false /\
  (elapsed <= 0 -> r.1.2 = prev) /\
  (0 < elapsed ->
   exists s,
     r.1.2 = s :: prev /\
     get s "id" = JStr (ids w (draws w)) /\
     get s "endAt" = JNum (Fin now) /\
     get s "startAt" = JNum (Fin (now - elapsed)) /\
     get s "durationMs" = JNum (Fin elapsed) /\
     durationConsistent host s /\
     tags_of s = Normal [] /\
     (now <> 0 -> ids w (draws w) <> EmptyString ->
      forall w', normalizeOne host s w' = (s, w'))).
Proof.
  intros now elapsed r. subst r. unfold confirmSave, bind, Date_now. cbn [fst snd].
  fold now. unfold Stopwatch.stop. fold (Stopwatch.currentElapsed now st). fold elapsed.
  destruct (Z.leb_spec elapsed 0) as [Hle | Hlt].
  - unfold ret. cbn. do 3 (split; [done |]). lia.
  - unfold completedSession, bind, ret, random_id, handleSessionComplete. cbn.
    do 2 (split; [done |]). split; [lia |]. intros _.
    eexists. split; [reflexivity |].
    unfold durationConsistent, tags_of, get.
    repeat first [ rewrite lookup_insert_eq | rewrite lookup_insert_ne by done ].
    cbn. repeat split.
    + apply Z.eqb_eq. lia.
    + intros Hnow Hid w'. apply normalizeOne_canonical. unfold canonical.
      repeat first [ rewrite lookup_insert_eq | rewrite lookup_insert_ne by done ].
      split; [eexists; split; [reflexivity |]; cbn;
              by destruct (String.eqb_spec (ids w (draws w)) "") |].
      split; [eexists; split; [reflexivity |]; cbn;
              by destruct (Z.eqb_spec now 0) |].
      split; [by eexists |].
      split; [eexists; split; [reflexivity |]; left; cbn;
              destruct (Z.eqb_spec elapsed 0); [lia | done] |].
      split; [by eexists |].
      split; [eexists; split; [reflexivity |]; by right |].
      by eexists.
Qed.

(** X4. A confirmed [deleteSession] keeps exactly the sessions whose id
    differs from the given one, in their order; doing it twice changes
    nothing more, declining the confirmation changes nothing, and
    deleting a session that was just added, when no other session has
    its id, gives the list back. *)
Theorem deleteSession_spec (id : JsVal) (prev : list Session) :
  (forall s, s ∈ deleteSession true id prev <->
             s ∈ prev /\ strict_eq (get s "id") id = false) /\
  sublist (deleteSession true id prev) prev /\
  deleteSession true id (deleteSession true id prev) = deleteSession true id prev /\
  deleteSession false id prev = prev /\
  (forall new, strict_eq (get new "id") id = true ->
               Forall (fun s => strict_eq (get s "id") id = false) prev ->
               deleteSession true id (handleSessionComplete new prev) = prev).
Proof.
  unfold deleteSession, handleSessionComplete.
  split; [| split; [| split; [| split; [reflexivity |]]]].
  - intros s. rewrite list_elem_of_In, filter_In, negb_true_iff, <- list_elem_of_In. reflexivity.
  - induction prev as [|x l IH]; cbn; [constructor |].
    destruct (negb _); by constructor.
  - induction prev as [|x l IH]; cbn; [done |].
    destruct (negb _) eqn:E; cbn; [rewrite E |]; by rewrite IH.
  - intros new Hn Hp. cbn. rewrite Hn. cbn.
    induction Hp as [|x l Hx Hl IH]; cbn; [done |]. rewrite Hx. cbn. by rewrite IH.
Qed.

End SaveAndDelete.


(** ** The tag list and the tag buttons *)

Section TagProps.
Import App.

Lemma string_compare_trans (s1 : string) : forall s2 s3,
  String.compare s1 s2 = Lt -> String.compare s2 s3 = Lt -> String.compare s1 s3 = Lt.
Proof.
  induction s1 as [|a s1 IH]; intros [|b s2] [|c s3]; cbn; try done.
  destruct (Ascii.compare a b) eqn:E1; try done;
    destruct (Ascii.compare b c) eqn:E2; try done.
  - apply Ascii.compare_eq_iff in E1, E2. subst.
    assert (Ascii.compare c c = Eq) as ->.
    { pose proof (Ascii.compare_antisym c c) as H. by destruct (Ascii.compare c c). }
    apply IH.
  - apply Ascii.compare_eq_iff in E1. subst. by rewrite E2.
  - apply Ascii.compare_eq_iff in E2. subst. by rewrite E1.
  - assert (Ascii.compare a c = Lt) as ->; [| done].
    unfold Ascii.compare in *. rewrite N.compare_lt_iff in *. lia.
Qed.

Lemma ltb_trans (a b c : string) :
  String.ltb a b = true -> String.ltb b c = true -> String.ltb a c = true.
Proof.
  unfold String.ltb. intros H1 H2.
  destruct (String.compare a b) eqn:E1; try done.
  destruct (String.compare b c) eqn:E2; try done.
  by rewrite (string_compare_trans a b c).
Qed.

Lemma ltb_irrefl (a : string) : String.ltb a a = false.
Proof.
  unfold String.ltb. pose proof (String.compare_antisym a a) as H.
  by destruct (String.compare a a).
Qed.

Lemma ltb_total (a b : string) :
  String.ltb a b = false -> a <> b -> String.ltb b a = true.
Proof.
  unfold String.ltb. intros H Hne. rewrite String.compare_antisym.
  destruct (String.compare a b) eqn:E; try done.
  by apply String.compare_eq_iff in E.
Qed.

Lemma ascending_NoDup (l : list string) : ascending l -> NoDup l.
Proof.
  induction 1 as [|x l Hs IH Hx]; constructor; [| done].
  intros Hin. rewrite Forall_forall in Hx.
  apply Hx in Hin. by rewrite ltb_irrefl in Hin.
Qed.

Lemma elem_of_insert_string (x y : string) (l : list string) :
  y ∈ insert_string x l <-> y = x \/ y ∈ l.
Proof.
  induction l as [|z l IH]; cbn.
  - rewrite list_elem_of_singleton. split; [by left |].
    intros [? | H]; [done | by apply elem_of_nil in H].
  - destruct (String.ltb x z).
    + rewrite elem_of_cons. reflexivity.
    + rewrite !elem_of_cons, IH. tauto.
Qed.

Lemma insert_string_ascending (x : string) (l : list string) :
  ascending l -> x ∉ l -> ascending (insert_string x l).
Proof.
  induction 1 as [|z l Hs IH Hz]; intros Hx; cbn.
  - repeat constructor.
  - destruct (String.ltb x z) eqn:E.
    + constructor; [by constructor |]. constructor; [done |].
      eapply Forall_impl; [exact Hz |]. cbn. intros b Hb. by apply ltb_trans with z.
    + constructor.
      * apply IH. intros H. apply Hx. by right.
      * apply Forall_forall. intros b Hb.
        apply elem_of_insert_string in Hb as [-> | Hb].
        -- apply ltb_total; [done |]. intros ->. apply Hx. by left.
        -- rewrite Forall_forall in Hz. by apply Hz.
Qed.

Lemma sort_strings_spec (l : list string) :
  NoDup l -> ascending (sort_strings l) /\ forall t, t ∈ sort_strings l <-> t ∈ l.
Proof.
  unfold sort_strings.
  assert (G : forall acc, ascending acc -> NoDup l -> (forall t, t ∈ l -> t ∉ acc) ->
              ascending (fold_left (fun acc x => insert_string x acc) l acc) /\
              forall t, t ∈ fold_left (fun acc x => insert_string x acc) l acc
                        <-> t ∈ acc \/ t ∈ l).
  { induction l as [|x l IH]; intros acc Ha Hnd Hd; cbn.
    - split; [done |]. intros t. split; [by left |].
      intros [? | H]; [done | by apply elem_of_nil in H].
    - apply NoDup_cons in Hnd as [Hx Hnd].
      destruct (IH (insert_string x acc)) as [H1 H2].
      + apply insert_string_ascending; [done |]. apply Hd. by left.
      + done.
      + intros t Ht. rewrite elem_of_insert_string. intros [-> | H]; [done |].
        revert H. apply Hd. by right.
      + split; [done |]. intros t. rewrite H2, elem_of_insert_string, elem_of_cons. tauto. }
  intros Hnd. destruct (G []) as [H1 H2]; [constructor | done | |].
  { intros t _ H. by apply elem_of_nil in H. }
  split; [done |]. intros t. rewrite H2. split; [| by right].
  intros [H | ?]; [by apply elem_of_nil in H | done].
Qed.

Lemma set_add_spec (set : list string) (t : string) :
  NoDup set -> NoDup (set_add set t) /\ forall x, x ∈ set_add set t <-> x ∈ set \/ x = t.
Proof.
  intros Hnd. unfold set_add. destruct (includes set t) eqn:E.
  - apply includes_spec in E. split; [done |]. intros x. split; [tauto |].
    by intros [? | ->].
  - split.
    + apply NoDup_app. split; [done |]. split; [| apply NoDup_singleton].
      intros x Hx ->%list_elem_of_singleton.
      apply includes_spec in Hx. congruence.
    + intros x. rewrite elem_of_app, list_elem_of_singleton. reflexivity.
Qed.

Lemma fold_set_add_spec (tags : list string) : forall set,
  NoDup set ->
  NoDup (fold_left set_add tags set) /\
  forall x, x ∈ fold_left set_add tags set <-> x ∈ set \/ x ∈ tags.
Proof.
  induction tags as [|t tags IH]; intros set Hnd; cbn.
  - split; [done |]. intros x. split; [by left |].
    intros [? | H]; [done | by apply elem_of_nil in H].
  - destruct (set_add_spec set t Hnd) as [H1 H2].
    destruct (IH _ H1) as [H3 H4]. split; [done |].
    intros x. rewrite H4, H2, elem_of_cons. tauto.
Qed.

Lemma collectTags_spec (sessions : list Session) : forall set,
  tagsWellFormed sessions -> NoDup set ->
  exists set',
    collectTags sessions set = Normal set' /\ NoDup set' /\
    forall x, x ∈ set' <->
              x ∈ set \/ exists s tags, s ∈ sessions /\ tags_of s = Normal tags /\ x ∈ tags.
Proof.
  induction sessions as [|s l IH]; intros set Hwf Hnd; cbn.
  - exists set. split; [done |]. split; [done |]. intros x. split; [tauto |].
    intros [? | (s & tags & Hs & _)]; [done |]. by apply elem_of_nil in Hs.
  - destruct (Hwf s) as [tags Ht]; [by left |]. rewrite Ht. cbn.
    destruct (fold_set_add_spec tags set Hnd) as [H1 H2].
    destruct (IH (fold_left set_add tags set)) as (set' & E & Hnd' & Hin).
    { intros s' Hs'. apply Hwf. by right. }
    { done. }
    exists set'. split; [done |]. split; [done |].
    intros x. rewrite Hin, H2. split.
    + intros [[? | Hx] | (s' & tags' & Hs' & Ht' & Hx)].
      * by left.
      * right. exists s, tags. split; [by left | done].
      * right. exists s', tags'. split; [by right | done].
    + intros [? | (s' & tags' & Hs' & Ht' & Hx)]; [by left; left |].
      apply elem_of_cons in Hs' as [-> | Hs'].
      * left; right. congruence.
      * right. by exists s', tags'.
Qed.

(** X5. When every session has a tag list, [allTags] lists the tags that
    occur in some session, each once, in strictly ascending order. *)
Theorem allTags_spec (sessions : list Session) :
  tagsWellFormed sessions ->
  exists l,
    allTags sessions = Normal l /\
    ascending l /\ NoDup l /\
    forall t, t ∈ l <->
              exists s tags, s ∈ sessions /\ tags_of s = Normal tags /\ t ∈ tags.
Proof.
  intros Hwf. unfold allTags.
  destruct (collectTags_spec sessions [] Hwf) as (set & E & Hnd & Hin); [constructor |].
  rewrite E. cbn. destruct (sort_strings_spec set Hnd) as [H1 H2].
  exists (sort_strings set). split; [done |]. split; [done |].
  split; [by apply ascending_NoDup |].
  intros t. rewrite H2, Hin. split; [| by right].
  intros [H | H]; [by apply elem_of_nil in H | done].
Qed.

(** X6. A tag button flips the selection of its tag and of no other
    tag, and keeps the selection free of repetitions; two presses give
    the same selected tags back (the same list when the tag was not
    selected). *)
Theorem toggleTag_spec (tag : string) (prev : list string) :
  NoDup prev ->
  NoDup (toggleTag tag prev) /\
  (tag ∈ toggleTag tag prev <-> tag ∉ prev) /\
  (forall t, t <> tag -> (t ∈ toggleTag tag prev <-> t ∈ prev)) /\
  toggleTag tag (toggleTag tag prev) ≡ₚ prev /\
  (tag ∉ prev -> toggleTag tag (toggleTag tag prev) = prev).
Proof.
  intros Hnd.
  assert (Hf : forall l t, t ∈ List.filter (fun t => negb (String.eqb t tag)) l
                           <-> t ∈ l /\ t <> tag).
  { intros l t. rewrite list_elem_of_In, filter_In, <- list_elem_of_In, negb_true_iff.
    by rewrite String.eqb_neq. }
  assert (Hid : forall l, tag ∉ l -> List.filter (fun t => negb (String.eqb t tag)) l = l).
  { induction l as [|x l IH]; intros Hx; cbn; [done |].
    destruct (String.eqb_spec x tag) as [-> | Hne]; cbn.
    - exfalso. apply Hx. by left.
    - rewrite IH; [done |]. intros H. apply Hx. by right. }
  assert (Hnf : forall l, NoDup l -> NoDup (List.filter (fun t => negb (String.eqb t tag)) l)).
  { intros l Hl. apply NoDup_ListNoDup, List.NoDup_filter. by apply NoDup_ListNoDup. }
  destruct (includes prev tag) eqn:E.
  - assert (T : toggleTag tag prev
                = List.filter (fun t => negb (String.eqb t tag)) prev).
    { unfold toggleTag. by rewrite E. }
    rewrite !T. apply includes_spec in E.
    split; [by apply Hnf |].
    split; [rewrite Hf; tauto |].
    split; [intros t Ht; rewrite Hf; tauto |].
    split; [| tauto].
    unfold toggleTag.
    assert (includes (List.filter (fun t => negb (String.eqb t tag)) prev) tag = false) as ->.
    { apply not_true_is_false. rewrite includes_spec, Hf. tauto. }
    apply NoDup_Permutation.
    + apply NoDup_app. split; [by apply Hnf |]. split; [| apply NoDup_singleton].
      intros x Hx ->%list_elem_of_singleton. apply Hf in Hx. tauto.
    + done.
    + intros x. rewrite elem_of_app, Hf, list_elem_of_singleton.
      destruct (decide (x = tag)) as [-> | Hne]; tauto.
  - assert (Hn : tag ∉ prev).
    { intros H. apply includes_spec in H. congruence. }
    assert (T : toggleTag tag prev = prev ++ [tag]).
    { unfold toggleTag. by rewrite E. }
    rewrite !T.
    assert (E2 : toggleTag tag (prev ++ [tag]) = prev).
    { unfold toggleTag.
      assert (includes (prev ++ [tag]) tag = true) as ->.
      { apply includes_spec, elem_of_app. right. by left. }
      rewrite List.filter_app, Hid by done. cbn. rewrite String.eqb_refl. cbn.
      by rewrite app_nil_r. }
    split.
    { apply NoDup_app. split; [done |]. split; [| apply NoDup_singleton].
      by intros x Hx ->%list_elem_of_singleton. }
    split; [rewrite elem_of_app, list_elem_of_singleton; tauto |].
    split; [intros t Ht; rewrite elem_of_app, list_elem_of_singleton; tauto |].
    rewrite E2. done.
Qed.

End TagProps.


(** ** The ranges of the filter *)

Section RangeProps.
Import App.

Section RangeAnyHost.
Context (host : Host).

(** X7. In a zone whose offsets stay within a day of one another, the
    cutoff of a range lies 7, 14, 28 to 31, 89 to 92, 181 to 184 or 365
    to 366 days back, to within a day; at a fixed offset it is that
    whole number of days before now. *)
Theorem getDateCutoff_days (range : string) (now : Z) :
  offsetsWithinADay host ->
  - maxTime + 367 * msPerDay <= now <= maxTime - msPerDay ->
  exists c n,
    getDateCutoff host range now = Fin c /\
    (rangeDays range).1 <= n <= (rangeDays range).2 /\
    now - (n + 1) * msPerDay < c < now - (n - 1) * msPerDay /\
    (forall off, fixedOffset host off -> c = now - n * msPerDay).
Proof.
  intros Hz Hnow.
  destruct (getDateCutoff_near host range now Hz Hnow) as (c & n & E & Ec & Hn & Hc).
  exists c, n. do 3 (split; [done |]).
  intros off Hoff. rewrite Ec. unfold UTC, LocalTime. rewrite !Hoff. lia.
Qed.

Lemma filter_sublist {A} (p q : A -> bool) (l : list A) :
  (forall x, p x = true -> q x = true) ->
  sublist (List.filter p l) (List.filter q l).
Proof.
  intros Hpq. induction l as [|x l IH]; cbn; [constructor |].
  destruct (p x) eqn:E.
  - rewrite (Hpq x E). by constructor.
  - destruct (q x); [by constructor | done].
Qed.

Lemma filter_sublist_self {A} (p : A -> bool) (l : list A) :
  sublist (List.filter p l) l.
Proof.
  induction l as [|x l IH]; cbn; [constructor |].
  destruct (p x); by constructor.
Qed.

(** X8. A wider range never hides a session: of two ranges, the
    sessions kept under the narrower one are a sub-list of those kept
    under the wider one, which are a sub-list of all sessions. *)
Theorem filteredSessions_wider_range (sessions : list Session) (r1 r2 : string)
        (i j : nat) (selectedTags : list string) (now : Z) :
  offsetsWithinADay host ->
  - maxTime + 367 * msPerDay <= now <= maxTime - msPerDay ->
  selectedTags = [] \/ tagsWellFormed sessions ->
  ranges !! i = Some r1 -> ranges !! j = Some r2 -> (i <= j)%nat ->
  exists kept1 kept2,
    filteredSessions host sessions r1 selectedTags now = Normal kept1 /\
    filteredSessions host sessions r2 selectedTags now = Normal kept2 /\
    sublist kept1 kept2 /\ sublist kept2 sessions.
Proof.
  intros Hz Hnow Hwf Hi Hj Hij.
  rewrite !filteredSessions_keeps by done.
  eexists _, _. split; [reflexivity |]. split; [reflexivity |].
  split.
  2:{ apply filter_sublist_self. }
  apply filter_sublist. intros s.
  destruct (decide (i = j)) as [-> | Hne].
  { assert (r1 = r2) as -> by congruence. done. }
  destruct (getDateCutoff_near host r1 now Hz Hnow) as (c1 & n1 & -> & _ & Hn1 & Hc1).
  destruct (getDateCutoff_near host r2 now Hz Hnow) as (c2 & n2 & -> & _ & Hn2 & Hc2).
  assert (Hc : c2 <= c1).
  { assert (n1 + 2 <= n2); [| unfold msPerDay in *; lia].
    pose proof (lookup_lt_Some _ _ _ Hi) as Hi'.
    pose proof (lookup_lt_Some _ _ _ Hj) as Hj'. cbn in Hi', Hj'.
    assert (i = 0 \/ i = 1 \/ i = 2 \/ i = 3 \/ i = 4 \/ i = 5)%nat as Ci by lia.
    assert (j = 0 \/ j = 1 \/ j = 2 \/ j = 3 \/ j = 4 \/ j = 5)%nat as Cj by lia.
    repeat (destruct Ci as [-> | Ci]); try subst i;
      repeat (destruct Cj as [-> | Cj]); try subst j; try lia;
      injection Hi as <-; injection Hj as <-; cbn in Hn1, Hn2; lia. }
  unfold keeps, inRange, js_ge_num, num_ge, num_le.
  destruct (ToNumber host _) as [e|]; [| done].
  destruct (Z.leb_spec c1 e); [| done].
  destruct (Z.leb_spec c2 e); [done | lia].
Qed.

(** X9. Selecting tags only narrows the unfiltered list, and once a tag
    is selected, selecting one more never hides a session. *)
Theorem filteredSessions_select_tag (sessions : list Session) (range : string)
        (selectedTags : list string) (tag : string) (now : Z) :
  tagsWellFormed sessions ->
  tag ∉ selectedTags ->
  exists all kept kept',
    filteredSessions host sessions range [] now = Normal all /\
    filteredSessions host sessions range selectedTags now = Normal kept /\
    filteredSessions host sessions range (toggleTag tag selectedTags) now = Normal kept' /\
    sublist kept all /\ sublist kept' all /\
    (selectedTags <> [] -> sublist kept kept').
Proof.
  intros Hwf Hn.
  rewrite !filteredSessions_keeps by auto.
  eexists _, _, _. do 3 (split; [reflexivity |]).
  assert (Hall : forall sel s, keeps host (getDateCutoff host range now) sel s = true ->
                               keeps host (getDateCutoff host range now) [] s = true).
  { intros sel s. unfold keeps. rewrite !andb_true_iff. tauto. }
  split; [apply filter_sublist, Hall |]. split; [apply filter_sublist, Hall |].
  intros Hne. apply filter_sublist. intros s.
  assert (toggleTag tag selectedTags = selectedTags ++ [tag]) as ->.
  { unfold toggleTag. destruct (includes selectedTags tag) eqn:E; [| done].
    by apply includes_spec in E. }
  unfold keeps. rewrite !andb_true_iff. intros [H1 H2]. split; [done |].
  destruct selectedTags as [|t0 sel]; [done |]. cbn [app].
  destruct (tags_of s) as [l|]; [| done].
  rewrite existsb_exists in *. destruct H2 as (x & Hx & Hi). exists x. split; [done |].
  apply includes_spec. apply includes_spec in Hi.
  change (t0 :: sel ++ [tag]) with ((t0 :: sel) ++ [tag]). apply elem_of_app. by left.
Qed.

End RangeAnyHost.
End RangeProps.


(** ** Decimal notation *)

Section DigitProps.

Lemma nat_of_digit_char (d : Z) :
  0 <= d <= 9 -> nat_of_ascii (digit_char d) = (48 + Z.to_nat d)%nat.
Proof.
  intros H. unfold digit_char. apply nat_ascii_embedding. lia.
Qed.

Lemma digit_value_char (d : Z) : 0 <= d <= 9 -> digit_value (digit_char d) = d.
Proof. intros H. unfold digit_value. rewrite nat_of_digit_char by done. lia. Qed.

Lemma is_digit_char (d : Z) : 0 <= d <= 9 -> is_digit (digit_char d) = true.
Proof.
  intros H. unfold is_digit. rewrite nat_of_digit_char by done.
  apply andb_true_iff. split; apply Nat.leb_le; lia.
Qed.

Lemma mod10_digit (n : Z) : 0 <= n mod 10 <= 9.
Proof. pose proof (Z.mod_pos_bound n 10). lia. Qed.

Lemma digits_value_from_app (a b : string) : forall acc,
  digits_value_from acc (a +:+ b) = digits_value_from (digits_value_from acc a) b.
Proof. induction a as [|c a IH]; intros acc; cbn; [done | apply IH]. Qed.

Lemma fixed_digits_acc (w : nat) : forall n acc,
  fixed_digits w n acc = fixed_digits w n EmptyString +:+ acc.
Proof.
  induction w as [|w IH]; intros n acc; cbn; [done |].
  rewrite (IH (n / 10) (String _ acc)), (IH (n / 10) (String _ EmptyString)).
  by rewrite append_assoc.
Qed.

Lemma fixed_digits_S (w : nat) (n : Z) :
  fixed_digits (S w) n EmptyString
  = fixed_digits w (n / 10) EmptyString +:+ String (digit_char (n mod 10)) EmptyString.
Proof. cbn. apply fixed_digits_acc. Qed.

Lemma digitsValue_fixed (w : nat) : forall n,
  digitsValue (fixed_digits w n EmptyString) = n mod 10 ^ Z.of_nat w.
Proof.
  unfold digitsValue.
  induction w as [|w IH]; intros n.
  - cbn. by rewrite Z.mod_1_r.
  - rewrite fixed_digits_S, digits_value_from_app, IH. cbn [digits_value_from].
    rewrite digit_value_char by apply mod10_digit.
    rewrite Nat2Z.inj_succ, Z.pow_succ_r by lia.
    assert (0 < 10 ^ Z.of_nat w) by (apply Z.pow_pos_nonneg; lia).
    rewrite (Z.mul_comm 10), Z.rem_mul_r by lia.
    lia.
Qed.

Lemma all_digits_app (a b : string) :
  all_digits (a +:+ b) = all_digits a && all_digits b.
Proof.
  induction a as [|c a IH]; [done |].
  rewrite append_cons. cbn [all_digits]. by rewrite IH, andb_assoc.
Qed.

Lemma all_digits_fixed (w : nat) : forall n,
  all_digits (fixed_digits w n EmptyString) = true.
Proof.
  induction w as [|w IH]; intros n; [done |].
  rewrite fixed_digits_S, all_digits_app, IH. cbn.
  by rewrite is_digit_char by apply mod10_digit.
Qed.

(** The decimal notation of [n] has as many digits as [n] needs. *)
Lemma digits_go_fixed (fuel : nat) : forall n acc,
  (1 <= fuel)%nat -> 0 <= n < 2 ^ Z.of_nat fuel ->
  exists k : nat,
    digits_go fuel n acc = fixed_digits k n acc /\
    (1 <= k)%nat /\ n < 10 ^ Z.of_nat k /\ (n < 10 -> k = 1%nat) /\
    (10 <= n -> 10 ^ (Z.of_nat k - 1) <= n).
Proof.
  induction fuel as [|fuel IH]; intros n acc Hf Hn; [lia |].
  cbn [digits_go]. cbv zeta.
  destruct (Z.eqb_spec (n / 10) 0) as [E | E].
  - exists 1%nat. cbn. split; [done |]. split; [done |].
    assert (n < 10) by (Z.div_mod_to_equations; lia). lia.
  - assert (H10 : 10 <= n) by (Z.div_mod_to_equations; lia).
    rewrite Nat2Z.inj_succ, Z.pow_succ_r in Hn by lia.
    assert (Hfuel : (1 <= fuel)%nat).
    { destruct fuel; [cbn in Hn; lia | lia]. }
    destruct (IH (n / 10) (String (digit_char (n mod 10)) acc) Hfuel)
      as (k & Hk & Hk1 & Hlt & Hsmall & Hbig).
    { Z.div_mod_to_equations. lia. }
    exists (S k). cbn [fixed_digits]. split; [done |]. split; [lia |].
    rewrite Nat2Z.inj_succ, Z.pow_succ_r by lia.
    split; [Z.div_mod_to_equations; lia |]. split; [lia |]. intros _.
    replace (Z.succ (Z.of_nat k) - 1) with (Z.succ (Z.of_nat k - 1)) by lia.
    rewrite Z.pow_succ_r by lia.
    destruct (Z.lt_ge_cases (n / 10) 10) as [Hs | Hb].
    + rewrite (Hsmall Hs). cbn. lia.
    + specialize (Hbig Hb). Z.div_mod_to_equations. lia.
Qed.

Lemma nat_digits_fixed (n : Z) :
  0 <= n ->
  exists k : nat,
    nat_digits n = fixed_digits k n EmptyString /\
    (1 <= k)%nat /\ n < 10 ^ Z.of_nat k /\ (n < 10 -> k = 1%nat) /\
    (10 <= n -> 10 ^ (Z.of_nat k - 1) <= n).
Proof.
  intros Hn. unfold nat_digits. apply digits_go_fixed; [lia |].
  split; [done |].
  rewrite Nat2Z.inj_succ, Z2Nat.id by apply Z.log2_nonneg.
  destruct (Z.eq_dec n 0) as [-> | Hne]; [done |].
  apply Z.log2_spec. lia.
Qed.

Lemma digitsValue_nat_digits (n : Z) :
  0 <= n -> digitsValue (nat_digits n) = n /\ all_digits (nat_digits n) = true.
Proof.
  intros Hn. destruct (nat_digits_fixed n Hn) as (k & -> & _ & Hlt & _).
  rewrite digitsValue_fixed, all_digits_fixed. split; [| done].
  apply Z.mod_small. lia.
Qed.

(** Two digits: [padStart(2, "0")] of the decimal notation. *)
Lemma pad2_fixed (n : Z) :
  0 <= n < 100 ->
  padStart 2 "0" (NumberToString (Fin n)) = fixed_digits 2 n EmptyString.
Proof.
  intros Hn. unfold NumberToString. destruct (Z.ltb_spec n 0); [lia |].
  destruct (nat_digits_fixed n) as (k & E & Hk1 & Hlt & Hsmall & Hbig); [lia |].
  rewrite E. unfold padStart. rewrite length_fixed_digits. cbn [String.length].
  destruct (Z.lt_ge_cases n 10) as [Hs | Hb].
  - rewrite (Hsmall Hs). cbn.
    replace (n / 10) with 0 by (Z.div_mod_to_equations; lia).
    replace (0 mod 10) with 0 by done. done.
  - assert (k = 2%nat) as ->.
    { specialize (Hbig Hb).
      destruct k as [|[|[|k]]]; [lia | cbn in Hlt; lia | done |].
      exfalso. revert Hbig.
      replace (Z.of_nat (S (S (S k))) - 1) with (Z.succ (Z.succ (Z.of_nat k))) by lia.
      rewrite !Z.pow_succ_r by lia.
      assert (0 < 10 ^ Z.of_nat k) by (apply Z.pow_pos_nonneg; lia). lia. }
    done.
Qed.

(** Wider numbers are left as they are. *)
Lemma pad2_wide (n : Z) :
  100 <= n -> padStart 2 "0" (NumberToString (Fin n)) = nat_digits n.
Proof.
  intros Hn. unfold NumberToString. destruct (Z.ltb_spec n 0); [lia |].
  destruct (nat_digits_fixed n) as (k & E & Hk1 & Hlt & Hsmall & Hbig); [lia |].
  unfold padStart. rewrite E at 1. rewrite length_fixed_digits. cbn [String.length].
  assert (3 <= k)%nat.
  { destruct k as [|[|[|k]]]; [lia | cbn in Hlt; lia | cbn in Hlt; lia | lia]. }
  replace (2 - (k + 0))%nat with 0%nat by lia. done.
Qed.

End DigitProps.


(** ** Durations as text, and the keys of days *)

Section FormatProps.
Import App.

Lemma is_digit_not_colon (c : ascii) : is_digit c = true -> Ascii.eqb c ":" = false.
Proof.
  unfold is_digit. intros H. apply andb_true_iff in H as [_ H]. apply Nat.leb_le in H.
  apply Ascii.eqb_neq. intros ->. change (nat_of_ascii ":") with 58%nat in H. lia.
Qed.

Lemma split_digits_colon (a b : string) :
  all_digits a = true -> split ":" (a +:+ String ":" b) = a :: split ":" b.
Proof.
  induction a as [|c a IH]; intros H.
  - reflexivity.
  - cbn in H. apply andb_true_iff in H as [Hc Ha].
    rewrite append_cons. cbn [split]. rewrite (is_digit_not_colon c Hc).
    by rewrite (IH Ha).
Qed.

Lemma split_digits (a : string) : all_digits a = true -> split ":" a = [a].
Proof.
  induction a as [|c a IH]; intros H; [done |].
  cbn in H. apply andb_true_iff in H as [Hc Ha].
  cbn [split]. rewrite (is_digit_not_colon c Hc). by rewrite (IH Ha).
Qed.

(** The hours of [formatDuration]: two digits at least. *)
Lemma pad2_hours (h : Z) :
  0 <= h ->
  let s := padStart 2 "0" (NumberToString (Fin h)) in
  digitsValue s = h /\ all_digits s = true /\
  (2 <= String.length s)%nat /\ (h < 100 -> String.length s = 2%nat).
Proof.
  intros Hh. cbv zeta. destruct (Z.lt_ge_cases h 100) as [Hs | Hb].
  - rewrite pad2_fixed by lia.
    rewrite digitsValue_fixed, all_digits_fixed, length_fixed_digits.
    split; [apply Z.mod_small; cbn; lia | done].
  - rewrite pad2_wide by done.
    destruct (digitsValue_nat_digits h Hh) as [-> ->].
    split; [done |]. split; [done |]. split; [| lia].
    destruct (nat_digits_fixed h Hh) as (k & -> & _ & Hlt & _).
    rewrite length_fixed_digits.
    destruct k as [|[|k]]; cbn in Hlt; lia.
Qed.

(** X10. For a duration that is not negative, the three fields of
    [formatDuration], read as decimal numbers, are the whole hours, the
    minutes and the seconds of the duration; the text has at least 8
    characters, and exactly 8 below 100 hours. *)
Theorem formatDuration_fields (ms : Z) :
  0 <= ms <= maxSafeInteger ->
  let s := ms / 1000 in
  List.map digitsValue (split ":" (formatDuration (Fin ms)))
  = [s / 3600; s mod 3600 / 60; s mod 60] /\
  (8 <= String.length (formatDuration (Fin ms)))%nat /\
  (s < 360000 -> String.length (formatDuration (Fin ms)) = 8%nat).
Proof.
  intros [Hms _] s. unfold formatDuration, floor_div, num_rem. fold s.
  assert (Hs : 0 <= s) by (subst s; Z.div_mod_to_equations; lia).
  rewrite !Z.rem_mod_nonneg by lia.
  destruct (pad2_hours (s / 3600)) as (Hv & Hd & Hl & Hl2).
  { Z.div_mod_to_equations. lia. }
  set (hh := padStart 2 "0" (NumberToString (Fin (s / 3600)))) in *.
  rewrite (pad2_fixed (s mod 3600 / 60)) by (Z.div_mod_to_equations; lia).
  rewrite (pad2_fixed (s mod 60)) by (Z.div_mod_to_equations; lia).
  split.
  - repeat match goal with
           | |- context [":" +:+ ?z] => change (":" +:+ z) with (String ":" z)
           end.
    rewrite split_digits_colon by done.
    rewrite split_digits_colon by apply all_digits_fixed.
    rewrite split_digits by apply all_digits_fixed.
    cbn [List.map]. rewrite !digitsValue_fixed, Hv.
    change (10 ^ Z.of_nat 2) with 100.
    rewrite (Z.mod_small (s mod 3600 / 60)) by (Z.div_mod_to_equations; lia).
    by rewrite (Z.mod_small (s mod 60)) by (Z.div_mod_to_equations; lia).
  - rewrite !length_append, !length_fixed_digits. cbn [String.length].
    split; [lia |]. intros H. rewrite Hl2; [done |].
    Z.div_mod_to_equations. lia.
Qed.

End FormatProps.

Section KeyProps.
Import App.

Lemma append_inj_length (a a' b b' : string) :
  String.length a = String.length a' -> a +:+ b = a' +:+ b' -> a = a' /\ b = b'.
Proof.
  revert a'. induction a as [|c a IH]; intros [|c' a'] Hl H; try done.
  rewrite !append_cons in H. injection H as -> H. cbn in Hl.
  destruct (IH a') as [-> ->]; [lia | done | done].
Qed.

Lemma fixed_digits_inj (w : nat) (n n' : Z) :
  0 <= n < 10 ^ Z.of_nat w -> 0 <= n' < 10 ^ Z.of_nat w ->
  fixed_digits w n EmptyString = fixed_digits w n' EmptyString -> n = n'.
Proof.
  intros Hn Hn' E. apply (f_equal digitsValue) in E.
  rewrite !digitsValue_fixed in E. by rewrite !Z.mod_small in E.
Qed.

(** The civil year of a day between the first of January of the year 0
    and the end of the year 9999. *)
Lemma civil_year_range (n : Z) :
  -719528 <= n <= 2932896 -> 0 <= fst (fst (civil_from_days n)) <= 9999.
Proof.
  intros Hn. pose proof (civil_roundtrip n) as H.
  destruct (civil_from_days n) as [[y m] d]. cbn [fst].
  destruct H as (Hm & Hd & Hr). rewrite days_from_civil_march in Hr.
  assert (Ho : (m <= 2 -> 306 <= monthOffset m <= 337) /\
               (2 < m -> 0 <= monthOffset m <= 275)).
  { unfold monthOffset. destruct (Z.ltb_spec 2 m); split; intros;
      Z.div_mod_to_equations; lia. }
  destruct Ho as [Ho1 Ho2]. unfold marchDays in Hr.
  destruct (Z.leb_spec m 2).
  - specialize (Ho1 ltac:(lia)). Z.div_mod_to_equations. lia.
  - specialize (Ho2 ltac:(lia)). Z.div_mod_to_equations. lia.
Qed.

Lemma YearFromTime_range (t : Z) :
  yearZero <= t < yearTenThousand -> 0 <= YearFromTime t <= 9999.
Proof.
  intros Ht. unfold YearFromTime. apply civil_year_range.
  unfold Day, msPerDay, yearZero, yearTenThousand in *. Z.div_mod_to_equations. lia.
Qed.

(** Days with four-digit years have different keys. *)
Lemma dateKey_inj (d1 d2 : Z) :
  -719528 <= d1 <= 2932896 -> -719528 <= d2 <= 2932896 ->
  dateKey d1 = dateKey d2 -> d1 = d2.
Proof.
  intros H1 H2. unfold dateKey.
  pose proof (civil_year_range d1 H1) as Hy1. pose proof (civil_year_range d2 H2) as Hy2.
  pose proof (civil_roundtrip d1) as R1. pose proof (civil_roundtrip d2) as R2.
  destruct (civil_from_days d1) as [[y1 m1] c1].
  destruct (civil_from_days d2) as [[y2 m2] c2]. cbn [fst] in *.
  destruct R1 as (Hm1 & Hc1 & <-). destruct R2 as (Hm2 & Hc2 & <-).
  unfold year_string.
  destruct (Z.leb_spec 0 y1); [| lia]. destruct (Z.leb_spec y1 9999); [| lia].
  destruct (Z.leb_spec 0 y2); [| lia]. destruct (Z.leb_spec y2 9999); [| lia].
  cbn [andb]. intros E.
  apply append_inj_length in E as [Ey E]; [| by rewrite !length_fixed_digits].
  apply append_inj_length in E as [_ E]; [| done].
  apply append_inj_length in E as [Em E]; [| by rewrite !length_fixed_digits].
  apply append_inj_length in E as [_ Ec]; [| done].
  apply fixed_digits_inj in Ey; [| cbn; lia ..].
  apply fixed_digits_inj in Em; [| cbn; lia ..].
  apply fixed_digits_inj in Ec; [| cbn; lia ..].
  by subst.
Qed.

Section KeyAnyHost.
Context (host : Host).

(** X11. In any time zone, two instants of the same local day get the
    same answer from [startOfDayISO]. *)
Theorem startOfDayISO_same_day (a b : Z) :
  - maxTime <= a <= maxTime -> - maxTime <= b <= maxTime ->
  localDay host a = localDay host b ->
  startOfDayISO host (Fin a) = startOfDayISO host (Fin b).
Proof.
  intros Ha Hb E. unfold startOfDayISO. rewrite !TimeClip_valid by done.
  unfold setHours. unfold localDay in E. by rewrite E.
Qed.

End KeyAnyHost.

Section KeyFixedOffset.
Context (host : Host) (off : Z) (Hoff : fixedOffset host off).

Lemma Day_dayStart (ts : Z) :
  Day (dayStart host ts) = localDay host ts + (- off) / msPerDay.
Proof.
  rewrite (dayStart_fixed host off Hoff). unfold localDay.
  rewrite (LocalTime_fixed host off Hoff). unfold Day at 1.
  replace (Day (ts + off) * msPerDay - off) with (- off + Day (ts + off) * msPerDay) by lia.
  rewrite Z.div_add by (unfold msPerDay; lia). lia.
Qed.

Lemma startOfDayISO_dateKey (ts : Z) :
  - msPerDay < off < msPerDay ->
  fourDigitYears ts ->
  startOfDayISO host (Fin ts) = Normal (offsetKey host off ts) /\
  -719528 <= localDay host ts + (- off) / msPerDay <= 2932896.
Proof.
  intros Ho Hts. unfold offsetKey, fourDigitYears in *.
  pose proof (dayStart_before host off Hoff ts) as Hd.
  rewrite <- Day_dayStart. split.
  - apply (startOfDayISO_key host off Hoff).
    + unfold maxTime, msPerDay, yearZero, yearTenThousand in *. lia.
    + apply YearFromTime_range.
      unfold msPerDay, yearZero, yearTenThousand in *. lia.
  - unfold Day, msPerDay, yearZero, yearTenThousand in *.
    Z.div_mod_to_equations. lia.
Qed.

(** X12. At a fixed offset from UTC of less than a day, and in years
    written with four digits, [startOfDayISO] answers for every instant,
    and two instants get the same key exactly when they are on the same
    local day. *)
Theorem startOfDayISO_key_iff_day (a b : Z) :
  - msPerDay < off < msPerDay ->
  fourDigitYears a -> fourDigitYears b ->
  (exists key, startOfDayISO host (Fin a) = Normal key) /\
  (startOfDayISO host (Fin a) = startOfDayISO host (Fin b)
   <-> localDay host a = localDay host b).
Proof.
  intros Ho Ha Hb.
  destruct (startOfDayISO_dateKey a Ho Ha) as [Ea Ra].
  destruct (startOfDayISO_dateKey b Ho Hb) as [Eb Rb].
  split; [eauto |]. rewrite Ea, Eb. unfold offsetKey. split.
  - intros [= E]. apply dateKey_inj in E; [lia | done | done].
  - intros E. by rewrite E.
Qed.

End KeyFixedOffset.
End KeyProps.


(** ** The share of each day *)

Section ShareProps.
Import App.
Context (host : Host) (off : Z) (Hoff : fixedOffset host off).
Context (Hwithin : - msPerDay < off < msPerDay).

Lemma bucket_insert (counts : gmap string num) (k k' : string) (sec : Z) :
  bucket (<[k := num_add (count_or0 counts k) (Fin sec)]> counts) k'
  = bucket counts k' + (if decide (k = k') then sec else 0).
Proof.
  unfold bucket. rewrite !count_or0_Fin. cbn [numZ].
  destruct (decide (k = k')) as [-> | Hne].
  - rewrite lookup_insert_eq. cbn. lia.
  - rewrite lookup_insert_ne by done. lia.
Qed.

Lemma offsetKey_eq (a b : Z) :
  fourDigitYears a -> fourDigitYears b ->
  offsetKey host off a = offsetKey host off b <-> localDay host a = localDay host b.
Proof.
  intros Ha Hb.
  destruct (startOfDayISO_dateKey host off Hoff a Hwithin Ha) as [_ Ra].
  destruct (startOfDayISO_dateKey host off Hoff b Hwithin Hb) as [_ Rb].
  unfold offsetKey. split.
  - intros E. apply dateKey_inj in E; [lia | done | done].
  - intros E. by rewrite E.
Qed.

Lemma dayLoop_shares (n : nat) (e : Z) :
  forall (c : Z) (counts : gmap string num),
    fourDigitYears c -> fourDigitYears e ->
    c < e ->
    localDay host (e - 1) - localDay host c < Z.of_nat n ->
    exists counts' : gmap string num,
      dayLoop host n (Fin e) (Fin c) counts = Some (Normal counts') /\
      forall t, fourDigitYears t ->
                bucket counts' (offsetKey host off t) = bucket counts (offsetKey host off t)
                                           + roundSeconds (dayShare host c e t).
Proof.
  pose proof (fixedOffset_regularDays host off Hoff) as Hreg.
  induction n as [| n IH]; intros c counts Hc He Hlt Hn.
  { pose proof (day_mono host Hreg c (e - 1)). lia. }
  pose proof (nextDayStart_after host off Hoff c) as Hnext.
  pose proof (dayStart_before host off Hoff c) as Hstart.
  destruct (startOfDayISO_dateKey host off Hoff c Hwithin Hc) as [Ekey _].
  assert (Hclip : forall x, fourDigitYears c -> c - msPerDay <= x <= c + msPerDay ->
                            TimeClip x = Fin x).
  { intros x Hx Hxc. apply TimeClip_valid.
    unfold fourDigitYears, yearZero, yearTenThousand, maxTime, msPerDay in *. lia. }
  rewrite dayLoop_step by exact Hlt. rewrite Ekey. cbv zeta.
  rewrite (Hclip c) by (done || lia).
  rewrite setHours24, (Hclip (nextDayStart host c)) by (done || lia).
  cbn [Math_min num_sub]. rewrite round_div_seconds.
  set (seg := Z.min e (nextDayStart host c)).
  assert (Hshare : forall t, fourDigitYears t ->
            roundSeconds (dayShare host c e t)
            = (if decide (offsetKey host off c = offsetKey host off t) then roundSeconds (seg - c) else 0)
              + (if decide (nextDayStart host c < e)
                 then roundSeconds (dayShare host (nextDayStart host c) e t) else 0)).
  { intros t Ht. unfold dayShare, seg.
    rewrite !(nextDayStart_fixed host off Hoff), !(dayStart_fixed host off Hoff) in *.
    pose proof (offsetKey_eq c t Hc Ht) as Hk. unfold localDay in Hk.
    rewrite !(LocalTime_fixed host off Hoff) in Hk.
    pose proof (Day_TimeWithinDay (c + off)) as Hdc.
    pose proof (Z.mod_pos_bound (c + off) msPerDay) as Hmc.
    pose proof (Day_TimeWithinDay (t + off)) as Hdt.
    pose proof (Z.mod_pos_bound (t + off) msPerDay) as Hmt.
    unfold TimeWithinDay in *.
    set (Dc := Day (c + off)) in *. set (Dt := Day (t + off)) in *.
    assert (R0 : roundSeconds 0 = 0) by done.
    destruct (decide (offsetKey host off c = offsetKey host off t)) as [Ek | Ek];
      destruct (decide (_ < e)) as [Hmore | Hlast].
    - apply Hk in Ek. rewrite <- Ek.
      replace (Z.max 0 (Z.min e ((Dc + 1) * msPerDay - off)
                        - Z.max ((Dc + 1) * msPerDay - off) (Dc * msPerDay - off)))
        with 0 by (unfold msPerDay in *; lia).
      rewrite R0, Z.add_0_r. f_equal. unfold msPerDay in *. lia.
    - apply Hk in Ek. rewrite <- Ek. rewrite Z.add_0_r. f_equal.
      unfold msPerDay in *. lia.
    - assert (Dc <> Dt) by (intros E; apply Ek, Hk, E).
      rewrite Z.add_0_l. f_equal. unfold msPerDay in *. lia.
    - assert (Dc <> Dt) by (intros E; apply Ek, Hk, E).
      rewrite <- R0 at 3. rewrite Z.add_0_l. f_equal. unfold msPerDay in *. lia. }
  destruct (decide (nextDayStart host c < e)) as [Hmore | Hlast].
  - assert (seg = nextDayStart host c) as Hseg by (unfold seg; lia).
    rewrite Hseg in *.
    pose proof (localDay_nextDayStart host off Hoff c) as Hday.
    destruct (IH (nextDayStart host c)
                 (<[offsetKey host off c := num_add (count_or0 counts (offsetKey host off c))
                                       (Fin (roundSeconds (nextDayStart host c - c)))]>
                    counts))
      as (counts' & Hrun & Hb).
    + unfold fourDigitYears in *. lia.
    + done.
    + done.
    + lia.
    + exists counts'. split; [done |]. intros t Ht.
      rewrite (Hb t Ht), bucket_insert, (Hshare t Ht).
      destruct (decide (offsetKey host off c = offsetKey host off t)); lia.
  - assert (seg = e) as Hseg by (unfold seg; lia). rewrite Hseg in *.
    rewrite dayLoop_exit by (cbn; apply Z.ltb_ge; lia).
    eexists. split; [reflexivity |]. intros t Ht.
    rewrite bucket_insert, (Hshare t Ht).
    destruct (decide (offsetKey host off c = offsetKey host off t)); lia.
Qed.

(** X13. At a fixed offset from UTC of less than a day, and in years
    written with four digits, the loop over a session adds to the
    bucket of each day the rounded number of seconds of the session
    that fall on that local day: nothing, for a day the session does
    not touch. *)
Theorem dayLoop_day_shares (sMs eMs : Z) (counts : gmap string num) :
  sMs < eMs ->
  fourDigitYears sMs -> fourDigitYears eMs ->
  exists counts' : gmap string num,
    dayLoop host (Z.to_nat (daysSpanned host sMs eMs)) (Fin eMs) (Fin sMs) counts
    = Some (Normal counts') /\
    forall t : Z,
      fourDigitYears t ->
      exists key,
        startOfDayISO host (Fin t) = Normal key /\
        bucket counts' key = bucket counts key + roundSeconds (dayShare host sMs eMs t).
Proof.
  intros Hlt Hs He.
  pose proof (fixedOffset_regularDays host off Hoff) as Hreg.
  pose proof (day_mono host Hreg sMs (eMs - 1)) as Hmono.
  destruct (dayLoop_shares (Z.to_nat (daysSpanned host sMs eMs)) eMs sMs counts)
    as (counts' & Hrun & Hb).
  - done.
  - done.
  - done.
  - unfold daysSpanned. lia.
  - exists counts'. split; [done |]. intros t Ht.
    destruct (startOfDayISO_dateKey host off Hoff t Hwithin Ht) as [Ekey _].
    exists (offsetKey host off t). split; [exact Ekey | by apply Hb].
Qed.

End ShareProps.


(** ** The buckets of a list of sessions *)

Section CountsProps.
Import App.
Context (host : Host) (off : Z) (Hoff : fixedOffset host off).
Context (Hwithin : - msPerDay < off < msPerDay).

Lemma addSession_span (n : nat) (sess : Session) (counts : gmap string num) :
  addSession host n sess counts
  = match sessionSpan host sess with
    | Some (s, e) => dayLoop host n (Fin e) (Fin s) counts
    | None => Some (Normal counts)
    end.
Proof.
  unfold addSession, sessionSpan.
  destruct (resolveStart host sess) as [s |]; [| done].
  destruct (resolveEnd host sess) as [e |]; cbn; [| by rewrite orb_true_r].
  destruct (s =? 0); [done |]. destruct (e =? 0); [done |]. cbn.
  by destruct (e <=? s).
Qed.

Lemma forEachSession_shares (l : list Session) :
  Forall (fun sess => forall s e, sessionSpan host sess = Some (s, e) ->
                                  fourDigitYears s /\ fourDigitYears e) l ->
  forall counts : gmap string num,
  exists (n : nat) (counts' : gmap string num),
    (forall m, (n <= m)%nat -> forEachSession host m l counts = Some (Normal counts')) /\
    forall t, fourDigitYears t ->
              exists key, startOfDayISO host (Fin t) = Normal key /\
                          bucket counts' key = bucket counts key + sumShares host t l.
Proof.
  induction 1 as [| sess l Hsess Hl IH]; intros counts.
  - exists O, counts. split; [done |]. intros t Ht.
    destruct (startOfDayISO_dateKey host off Hoff t Hwithin Ht) as [E _].
    eexists. split; [exact E |]. unfold sumShares, sumZ. cbn. lia.
  - destruct (sessionSpan host sess) as [[s e] |] eqn:Espan.
    + destruct (Hsess s e eq_refl) as [Hs He].
      assert (Hlt : s < e).
      { unfold sessionSpan in Espan.
        destruct (resolveStart host sess); [| done]. destruct (resolveEnd host sess); [| done].
        destruct (_ =? 0); [done |]. destruct (_ =? 0); [done |]. cbn in Espan.
        destruct (Z.leb_spec z0 z); [done |]. injection Espan as <- <-. lia. }
      pose proof (day_mono host (fixedOffset_regularDays host off Hoff) s (e - 1)) as Hmono.
      destruct (dayLoop_shares host off Hoff Hwithin
                  (Z.to_nat (daysSpanned host s e)) e s counts Hs He Hlt)
        as (counts1 & Hrun & Hb1); [unfold daysSpanned; lia |].
      destruct (IH counts1) as (n & counts' & Hrest & Hb).
      exists (Nat.max n (Z.to_nat (daysSpanned host s e))), counts'. split.
      * intros m Hm. cbn [forEachSession]. rewrite addSession_span, Espan.
        rewrite (dayLoop_fuel_mono host _ _ _ _ _ Hrun m) by lia.
        apply Hrest. lia.
      * intros t Ht. destruct (Hb t Ht) as (key & Ek & Hbk).
        destruct (startOfDayISO_dateKey host off Hoff t Hwithin Ht) as [Ek' _].
        assert (key = offsetKey host off t) as -> by congruence.
        exists (offsetKey host off t). split; [done |]. rewrite Hbk, (Hb1 t Ht).
        unfold sumShares, sumZ. cbn [List.map foldr]. unfold sessionShare at 2.
        rewrite Espan. fold (sumZ (List.map (sessionShare host t) l)). lia.
    + destruct (IH counts) as (n & counts' & Hrest & Hb).
      exists n, counts'. split.
      * intros m Hm. cbn [forEachSession]. rewrite addSession_span, Espan. by apply Hrest.
      * intros t Ht. destruct (Hb t Ht) as (key & Ek & Hbk).
        exists key. split; [done |]. rewrite Hbk.
        unfold sumShares, sumZ. cbn [List.map foldr]. unfold sessionShare at 2.
        rewrite Espan. fold (sumZ (List.map (sessionShare host t) l)). lia.
Qed.

(** X14. At a fixed offset from UTC of less than a day, and in years
    written with four digits, [countsByDay] completes on a list of
    sessions (with enough iterations allowed), and the bucket of each
    day is the sum, over the sessions it does not skip, of the rounded
    seconds of the session that fall on that local day. *)
Theorem countsByDay_shares (filtered : list Session) :
  Forall (fun sess => forall s e, sessionSpan host sess = Some (s, e) ->
                                  fourDigitYears s /\ fourDigitYears e) filtered ->
  exists (n : nat) (counts : gmap string num),
    (forall m, (n <= m)%nat -> countsByDay host m filtered = Some (Normal counts)) /\
    forall t, fourDigitYears t ->
              exists key, startOfDayISO host (Fin t) = Normal key /\
                          bucket counts key = sumShares host t filtered.
Proof.
  intros Hl. destruct (forEachSession_shares filtered Hl ∅) as (n & counts & Hrun & Hb).
  exists n, counts. split; [exact Hrun |]. intros t Ht.
  destruct (Hb t Ht) as (key & Ek & Hbk). exists key. split; [done |].
  rewrite Hbk. unfold bucket, count_or0. rewrite lookup_empty. cbn. lia.
Qed.

End CountsProps.


(** ** Date-time texts of the editor *)

Section DatetimeProps.
Import App.

Lemma nat_digits_four (y : Z) :
  1000 <= y <= 9999 -> nat_digits y = fixed_digits 4 y EmptyString.
Proof.
  intros Hy. destruct (nat_digits_fixed y) as (k & E & Hk1 & Hlt & _ & Hbig); [lia |].
  specialize (Hbig ltac:(lia)). rewrite E.
  assert (k = 4%nat) as ->; [| done].
  destruct k as [|[|[|[|[|k]]]]]; try (cbn in Hlt; lia).
  exfalso. revert Hbig.
  replace (Z.of_nat (S (S (S (S (S k))))) - 1)
    with (Z.succ (Z.succ (Z.succ (Z.succ (Z.of_nat k))))) by lia.
  rewrite !Z.pow_succ_r by lia.
  assert (0 < 10 ^ Z.of_nat k) by (apply Z.pow_pos_nonneg; lia). lia.
Qed.

(** The text [toLocalDatetimeString] builds for a local time [tl]. *)
Lemma datetimeText_local (tl : Z) :
  1000 <= YearFromTime tl <= 9999 ->
  NumberToString (Fin (YearFromTime tl)) +:+ "-"
  +:+ padStart 2 "0" (NumberToString (Fin (MonthFromTime tl + 1))) +:+ "-"
  +:+ padStart 2 "0" (NumberToString (Fin (DateFromTime tl))) +:+ "T"
  +:+ padStart 2 "0" (NumberToString (Fin (HourFromTime tl))) +:+ ":"
  +:+ padStart 2 "0" (NumberToString (Fin (MinFromTime tl)))
  = datetimeText (Day tl) (HourFromTime tl) (MinFromTime tl).
Proof.
  intros Hy. unfold datetimeText, YearFromTime, MonthFromTime, DateFromTime in *.
  pose proof (civil_roundtrip (Day tl)) as H.
  destruct (civil_from_days (Day tl)) as [[y m] d]. cbn [fst snd] in *.
  destruct H as (Hm & Hd & _).
  replace (m - 1 + 1) with m by lia.
  rewrite !pad2_fixed;
    try (unfold HourFromTime, MinFromTime; Z.div_mod_to_equations; lia); try lia.
  unfold NumberToString. destruct (Z.ltb_spec y 0); [lia |].
  by rewrite nat_digits_four.
Qed.

(** The groups the expression finds in such a text. *)
Lemma matchDatetimeLocal_text (y m d h mi : Z) :
  Legacy.matchDatetimeLocal
    (fixed_digits 4 y EmptyString +:+ "-"
     +:+ fixed_digits 2 m EmptyString +:+ "-"
     +:+ fixed_digits 2 d EmptyString +:+ "T"
     +:+ fixed_digits 2 h EmptyString +:+ ":"
     +:+ fixed_digits 2 mi EmptyString)
  = Some (fixed_digits 4 y EmptyString, fixed_digits 2 m EmptyString,
          fixed_digits 2 d EmptyString, fixed_digits 2 h EmptyString,
          fixed_digits 2 mi EmptyString).
Proof.
  unfold Legacy.matchDatetimeLocal.
  cbv -[digit_char Z.div Z.modulo is_digit].
  rewrite !is_digit_char by apply mod10_digit. reflexivity.
Qed.


Lemma fixed_digits_nonempty (w : nat) (n : Z) :
  fixed_digits (S w) n EmptyString <> EmptyString.
Proof.
  intros E. apply (f_equal String.length) in E.
  rewrite length_fixed_digits in E. done.
Qed.

Lemma local_minute (tl : Z) :
  MakeDate (Day tl) (MakeTime (HourFromTime tl) (MinFromTime tl) 0 0)
  = tl - tl mod msPerMinute.
Proof.
  unfold MakeDate, MakeTime, Day, HourFromTime, MinFromTime,
    msPerDay, msPerHour, msPerMinute, msPerSecond.
  Z.div_mod_to_equations. lia.
Qed.

Lemma localMinute_bounds (off ms : Z) :
  ms - msPerMinute < localMinute off ms <= ms.
Proof.
  unfold localMinute, msPerMinute. Z.div_mod_to_equations. lia.
Qed.

Section DatetimeFixedOffset.
Context (host : Host) (off : Z) (Hoff : fixedOffset host off).

(** X15. In the earlier revision, at a fixed offset and where the host
    reads decimal digits as numbers, writing an instant of the years
    1000 to 9999 with [toLocalDatetimeString] and reading the text back
    with [fromLocalDatetimeString] gives the last full minute of local
    time at or before the instant. *)
Theorem Legacy_datetime_roundtrip (ms : Z) :
  readsDecimals host ->
  - maxTime + msPerMinute <= ms <= maxTime ->
  1000 <= getFullYear host ms <= 9999 ->
  Legacy.fromLocalDatetimeString host
    (Legacy.toLocalDatetimeString host (JNum (Fin ms)))
  = JNum (Fin (localMinute off ms)) /\
  ms - msPerMinute < localMinute off ms <= ms.
Proof.
  intros Hdec Hms Hy. split; [| apply localMinute_bounds].
  unfold Legacy.toLocalDatetimeString, Legacy.pad. cbn [nullish ToNumber Date_new ToPrimitive].
  rewrite TimeClip_valid by (unfold msPerMinute in *; lia).
  unfold getFullYear, getMonth, getDate, getHours, getMinutes in *.
  set (tl := LocalTime host ms) in *.
  rewrite datetimeText_local by done.
  pose proof (MakeDay_same_month tl (DateFromTime tl)) as Hday.
  unfold datetimeText, YearFromTime, MonthFromTime, DateFromTime in *.
  pose proof (civil_roundtrip (Day tl)) as Hc.
  destruct (civil_from_days (Day tl)) as [[y m] d]. cbn [fst snd] in *.
  destruct Hc as (Hm & Hd & _).
  unfold Legacy.fromLocalDatetimeString.
  rewrite matchDatetimeLocal_text.
  destruct (String.eqb_spec
              (fixed_digits 4 y "" +:+ "-" +:+ fixed_digits 2 m "" +:+ "-"
               +:+ fixed_digits 2 d "" +:+ "T"
               +:+ fixed_digits 2 (HourFromTime tl) "" +:+ ":"
               +:+ fixed_digits 2 (MinFromTime tl) "") "") as [E | _].
  { apply (f_equal String.length) in E. rewrite length_append, length_fixed_digits in E.
    cbn in E. lia. }
  cbn [ToNumber].
  rewrite !Hdec by (apply fixed_digits_nonempty || apply all_digits_fixed).
  rewrite !digitsValue_fixed.
  change (10 ^ Z.of_nat 4) with 10000. change (10 ^ Z.of_nat 2) with 100.
  rewrite (Z.mod_small y), (Z.mod_small m), (Z.mod_small d) by lia.
  rewrite (Z.mod_small (HourFromTime tl)), (Z.mod_small (MinFromTime tl))
    by (unfold HourFromTime, MinFromTime; Z.div_mod_to_equations; lia).
  cbn [num_sub Date_fields].
  destruct (Z.leb_spec y 99); [lia |]. rewrite andb_false_r.
  f_equal.
  replace (m - 1 + 1) with m in Hday by lia.
  replace (m - 1) with (m - 1 + 1 - 1) by lia.
  replace (m - 1 + 1) with m by lia.
  rewrite Hday, Z.sub_diag, Z.add_0_r, local_minute.
  rewrite (UTC_fixed host off Hoff). unfold tl.
  rewrite (LocalTime_fixed host off Hoff).
  rewrite TimeClip_valid; [unfold localMinute; f_equal; lia |].
  pose proof (localMinute_bounds off ms). unfold localMinute, msPerMinute in *. lia.
Qed.

(** X16. In the current revision, at a fixed offset and where the host
    reads date-times with no zone as local time, writing an instant
    other than 0 of the years 1000 to 9999 with [toLocalDatetimeString]
    and reading the text back with [fromLocalDatetimeString] gives the
    last full minute of local time at or before the instant; the
    instant 0 is written as the empty text, which reads back as null. *)
Theorem datetime_roundtrip (ms : Z) :
  parsesLocalDatetime host ->
  ms <> 0 ->
  - maxTime + msPerMinute <= ms <= maxTime ->
  1000 <= getFullYear host ms <= 9999 ->
  fromLocalDatetimeString host (toLocalDatetimeString host (JNum (Fin ms)))
  = JNum (Fin (localMinute off ms)) /\
  toLocalDatetimeString host (JNum (Fin 0)) = EmptyString /\
  fromLocalDatetimeString host EmptyString = JNull.
Proof.
  intros Hparse Hne Hms Hy. split; [| split; reflexivity].
  unfold toLocalDatetimeString. cbn [truthy num_truthy ToNumber Date_new ToPrimitive].
  destruct (Z.eqb_spec ms 0); [done |]. cbn [negb].
  rewrite TimeClip_valid by (unfold msPerMinute in *; lia).
  unfold getFullYear, getMonth, getDate, getHours, getMinutes in *.
  set (tl := LocalTime host ms) in *.
  rewrite datetimeText_local by done.
  unfold fromLocalDatetimeString. cbn [Date_new ToPrimitive].
  rewrite Hparse.
  2:{ unfold YearFromTime in Hy. lia. }
  2:{ unfold HourFromTime. Z.div_mod_to_equations. lia. }
  2:{ unfold MinFromTime. Z.div_mod_to_equations. lia. }
  rewrite local_minute, (UTC_fixed host off Hoff). unfold tl.
  rewrite (LocalTime_fixed host off Hoff).
  assert (TimeClip (ms + off - (ms + off) mod msPerMinute - off)
          = Fin (localMinute off ms)) as ->.
  { rewrite TimeClip_valid; [unfold localMinute; f_equal; lia |].
    pose proof (localMinute_bounds off ms). unfold localMinute, msPerMinute in *. lia. }
  match goal with
  | |- context [String.eqb ?a ?b] => destruct (String.eqb_spec a b) as [E | _]
  end; [| done].
  exfalso. unfold datetimeText in E.
  destruct (civil_from_days (Day (ms + off))) as [[y m] d].
  apply (f_equal String.length) in E. rewrite length_append, length_fixed_digits in E.
  cbn in E. lia.
Qed.

End DatetimeFixedOffset.

Lemma readingHost_fixed (off : Z) : fixedOffset (readingHost off) off.
Proof. by intros t b. Qed.

Lemma readingHost_decimals (off : Z) : readsDecimals (readingHost off).
Proof.
  intros s Hs Hd. cbn. rewrite Hd. destruct (String.eqb_spec s ""); done.
Qed.

Lemma readingHost_parses (off : Z) : parsesLocalDatetime (readingHost off).
Proof.
  intros n h mi Hy Hh Hmi. cbn [Date_parse readingHost]. unfold datetimeText.
  pose proof (civil_roundtrip n) as Hc.
  destruct (civil_from_days n) as [[y m] d]. cbn [fst] in Hy.
  destruct Hc as (Hm & Hd & Hr).
  rewrite matchDatetimeLocal_text, !digitsValue_fixed.
  change (10 ^ Z.of_nat 4) with 10000. change (10 ^ Z.of_nat 2) with 100.
  rewrite (Z.mod_small y), (Z.mod_small m), (Z.mod_small d),
    (Z.mod_small h), (Z.mod_small mi) by lia.
  rewrite Hr. by rewrite (UTC_fixed (readingHost off) off (readingHost_fixed off)).
Qed.

End DatetimeProps.


(** ** The days of the heatmap *)

Section HeatmapProps.
Import App.
Context (host : Host) (off : Z) (Hoff : fixedOffset host off).

Lemma daysFrom_length (base : num) (n : nat) : length (daysFrom host base n) = n.
Proof. induction n as [|n IH]; cbn; [done | by rewrite IH]. Qed.

Lemma daysFrom_lookup (b : Z) (n i : nat) :
  - maxTime + Z.of_nat n * msPerDay <= b <= maxTime ->
  (i < n)%nat ->
  daysFrom host (Fin b) n !! i = Some (Fin (b - Z.of_nat (n - 1 - i) * msPerDay)).
Proof.
  revert i. induction n as [|n IH]; intros i Hb Hi; [lia |].
  cbn [daysFrom]. destruct i as [|i].
  - cbn [lookup list_lookup]. cbn [num_sub Date_new ToPrimitive ToNumber].
    rewrite TimeClip_valid by (unfold msPerDay, MS_PER_DAY in *; lia).
    do 3 f_equal. unfold msPerDay, MS_PER_DAY. lia.
  - cbn [lookup list_lookup].
    change (daysFrom host (Fin b) n !! i = Some (Fin (b - Z.of_nat (S n - 1 - S i) * msPerDay))).
    rewrite IH by (unfold msPerDay in *; lia).
    do 4 f_equal. lia.
Qed.

(** X17. At a fixed offset, when both clock readings of [dayList] fall
    on the same local day, the list has 365 entries plus the number of
    the weekday; entry [i] is the local midnight that many days before
    today's, and its weekday is [i] modulo 7, so that the list starts
    on a Sunday and ends today. *)
Theorem dayList_weekdays (w : World) :
  let t1 := clock w (ticks w) in
  let t2 := clock w (S (ticks w)) in
  localDay host t1 = localDay host t2 ->
  - maxTime + 373 * msPerDay <= t1 <= maxTime ->
  - maxTime + 373 * msPerDay <= t2 <= maxTime ->
  let l := fst (dayList host w) in
  length l = Z.to_nat (365 + getDay host t1) /\
  forall (i : nat) (d : num),
    l !! i = Some d ->
    exists t,
      d = Fin t /\
      localDay host t = localDay host t2 - Z.of_nat (length l - 1 - i) /\
      dayStart host t = t /\
      getDay host t = Z.of_nat i mod 7.
Proof.
  intros t1 t2 Hsame H1 H2 l.
  assert (Hwd : 0 <= getDay host t1 < 7).
  { unfold getDay, WeekDay. apply Z.mod_pos_bound. lia. }
  assert (El : l = daysFrom host (Fin (dayStart host t2))
                            (Z.to_nat (365 + getDay host t1))).
  { subst l. unfold dayList, daysArray, bind, ret, Date_now. cbn [fst snd clock ticks].
    fold t1 t2. rewrite (TimeClip_valid t1), (TimeClip_valid t2)
      by (unfold msPerDay in *; lia).
    cbn [num_add]. rewrite setHours0, TimeClip_valid; [done |].
    pose proof (dayStart_before host off Hoff t2). unfold msPerDay in *. lia. }
  rewrite El, daysFrom_length. split; [done |].
  intros i d Hi.
  pose proof (lookup_lt_Some _ _ _ Hi) as Hlt. rewrite daysFrom_length in Hlt.
  pose proof (dayStart_before host off Hoff t2) as Hb.
  rewrite daysFrom_lookup in Hi; [| unfold msPerDay in *; lia | done].
  injection Hi as <-. eexists. split; [reflexivity |].
  set (n := Z.to_nat (365 + getDay host t1)) in *.
  set (k := Z.of_nat (n - 1 - i)).
  assert (Hday : Day (dayStart host t2 - k * msPerDay + off) = Day (t2 + off) - k).
  { rewrite (dayStart_fixed host off Hoff).
    replace (Day (t2 + off) * msPerDay - off - k * msPerDay + off)
      with (0 + (Day (t2 + off) - k) * msPerDay) by lia.
    unfold Day at 1. rewrite Z.div_add by (unfold msPerDay; lia). done. }
  split; [| split].
  - unfold localDay. rewrite !(LocalTime_fixed host off Hoff). exact Hday.
  - rewrite (dayStart_fixed host off Hoff (_ - _)), Hday.
    rewrite (dayStart_fixed host off Hoff). lia.
  - unfold getDay, WeekDay in *. rewrite !(LocalTime_fixed host off Hoff) in *.
    rewrite Hday. unfold localDay in Hsame.
    rewrite !(LocalTime_fixed host off Hoff) in Hsame. rewrite Hsame in *.
    set (D := Day (t2 + off)) in *.
    assert (Hn : Z.of_nat n = 365 + (D + 4) mod 7).
    { subst n. rewrite (LocalTime_fixed host off Hoff), Hsame. lia. }
    assert (Hk : k = 364 + (D + 4) mod 7 - Z.of_nat i) by (subst k; lia).
    rewrite Hk.
    replace (D - (364 + (D + 4) mod 7 - Z.of_nat i) + 4)
      with (Z.of_nat i + ((D + 4) - (D + 4) mod 7) + (-52) * 7) by lia.
    rewrite Z.mod_add by lia.
    pose proof (Z.div_mod (D + 4) 7 ltac:(lia)) as Hdm.
    replace (D + 4 - (D + 4) mod 7) with ((D + 4) / 7 * 7) by lia.
    apply Z.mod_add. lia.
Qed.

End HeatmapProps.


(** ** The heatmap after a clock change *)

Section SpringForward.
Import App.

Local Ltac zone_arith :=
  cbn [LocalTZA oneChangeHost];
  repeat match goal with
         | |- context [?a <? ?b] => destruct (Z.ltb_spec a b)
         end;
  Z.div_mod_to_equations; lia.

Lemma eastern_dayStart (t : Z) :
  1710054000000 + msPerDay <= t ->
  dayStart easternSpring2024 t = localDay easternSpring2024 t * msPerDay + 14400000 /\
  19793 <= localDay easternSpring2024 t.
Proof.
  intros Ht. unfold dayStart, localDay, UTC, LocalTime, MakeDate, MakeTime, Day,
    easternSpring2024, msPerDay, msPerHour, msPerMinute, msPerSecond in *.
  split; zone_arith.
Qed.

(** In US Eastern time, the instants a whole number of 24 hours before a
    midnight of the summer of 2024 never fall on the tenth of March. *)
Lemma eastern_tile_day (D k : Z) :
  let t := D * msPerDay + 14400000 - k * msPerDay in
  localDay easternSpring2024 t <> 19792 /\
  Day (dayStart easternSpring2024 t) = localDay easternSpring2024 t.
Proof.
  cbv zeta. unfold dayStart, localDay, UTC, LocalTime, MakeDate, MakeTime, Day,
    easternSpring2024, msPerDay, msPerHour, msPerMinute, msPerSecond.
  split; zone_arith.
Qed.

(** X18. In US Eastern time, from a day after the clock change of
    2024-03-10 until the change of the autumn, no entry of [dayList]
    has the key 2024-03-10, which is the key [startOfDayISO] gives at
    noon of that day (16:00 UTC). *)
Theorem dayList_skips_change_day (w : World) :
  let t1 := clock w (ticks w) in
  let t2 := clock w (S (ticks w)) in
  1710054000000 + msPerDay <= t1 < 1730613600000 ->
  1710054000000 + msPerDay <= t2 < 1730613600000 ->
  startOfDayISO easternSpring2024 (Fin 1710086400000) = Normal "2024-03-10" /\
  forall d, d ∈ fst (dayList easternSpring2024 w) ->
            exists key, startOfDayISO easternSpring2024 d = Normal key /\
                        key <> "2024-03-10".
Proof.
  intros t1 t2 H1 H2. split; [by vm_compute |].
  set (host := easternSpring2024).
  destruct (eastern_dayStart t2 ltac:(lia)) as [Hbase HD]. fold host in Hbase, HD.
  assert (Hwd : 0 <= getDay host t1 < 7).
  { unfold getDay, WeekDay. apply Z.mod_pos_bound. lia. }
  assert (El : fst (dayList host w)
               = daysFrom host (Fin (dayStart host t2)) (Z.to_nat (365 + getDay host t1))).
  { unfold dayList, daysArray, bind, ret, Date_now. cbn [fst snd clock ticks].
    fold t1 t2. rewrite (TimeClip_valid t1), (TimeClip_valid t2)
      by (unfold msPerDay, maxTime in *; lia).
    cbn [num_add]. rewrite setHours0, TimeClip_valid; [done |].
    pose proof (start_near host easternSpring2024_regularDays t2).
    unfold msPerDay, maxTime in *. lia. }
  rewrite El. intros d Hd.
  apply list_elem_of_lookup in Hd as [i Hi].
  pose proof (lookup_lt_Some _ _ _ Hi) as Hlt. rewrite daysFrom_length in Hlt.
  pose proof (start_near host easternSpring2024_regularDays t2) as Hnear.
  rewrite daysFrom_lookup in Hi; [| unfold msPerDay, maxTime in *; lia | done].
  injection Hi as <-.
  set (k := Z.of_nat (Z.to_nat (365 + getDay host t1) - 1 - i)).
  assert (Hk : 0 <= k <= 370) by (subst k; lia).
  rewrite Hbase.
  destruct (eastern_tile_day (localDay host t2) k) as [Hday Hstart]. cbv zeta in *.
  fold host in Hday, Hstart.
  set (t := localDay host t2 * msPerDay + 14400000 - k * msPerDay) in *.
  assert (Ht : 1677000000000 <= t <= 1731000000000).
  { subst t. rewrite <- Hbase. unfold msPerDay in *. lia. }
  rewrite (startOfDayISO_regular host easternSpring2024_regularDays)
    by (unfold msPerDay, maxTime; lia).
  pose proof (start_near host easternSpring2024_regularDays t) as Hs.
  rewrite iso_string_date.
  2:{ apply YearFromTime_range. unfold yearZero, yearTenThousand, msPerDay in *. lia. }
  rewrite Hstart. eexists. split; [reflexivity |].
  change "2024-03-10"%string with (dateKey 19792).
  intros E. apply dateKey_inj in E; [done | | lia].
  rewrite <- Hstart. unfold Day, msPerDay in *. Z.div_mod_to_equations. lia.
Qed.

End SpringForward.


(** ** The order of the loaded list *)

Section SortProps.
Import App.
Context (host : Host).

Lemma sort_insert_newestFirst (x : Session) (l : list Session) :
  (exists z, endKey host x = Fin z) ->
  Forall (fun s => exists z, endKey host s = Fin z) l ->
  newestFirst host l ->
  newestFirst host (sort_insert (byEndAtDesc host) x l).
Proof.
  intros [kx Hx] Hl Hs. induction Hs as [|y l Hs IH Hy]; cbn.
  - repeat constructor.
  - apply Forall_cons in Hl as [[ky Hky] Hl].
    unfold byEndAtDesc at 1, js_sub. fold (endKey host y) (endKey host x).
    rewrite Hx, Hky. cbn [num_sub num_lt].
    destruct (Z.ltb_spec (ky - kx) 0) as [Hlt | Hge].
    + constructor; [by constructor |]. constructor.
      * exists kx, ky. repeat split; [done | done | lia].
      * eapply Forall_impl; [exact Hy |]. cbn.
        intros b (a1 & b1 & Ha1 & Hb1 & Hle). exists kx, b1.
        rewrite Hky in Ha1. injection Ha1 as <-. repeat split; [done | done | lia].
    + constructor; [by apply IH |].
      apply Forall_forall. intros b Hb.
      assert (Hperm := sort_insert_perm (byEndAtDesc host) x l).
      rewrite Hperm in Hb. apply elem_of_cons in Hb as [-> | Hb].
      * exists ky, kx. repeat split; [done | done | lia].
      * rewrite Forall_forall in Hy. by apply Hy.
Qed.

Lemma sort_newestFirst (l : list Session) :
  Forall (fun s => exists z, endKey host s = Fin z) l ->
  newestFirst host (sort (byEndAtDesc host) l).
Proof.
  unfold sort.
  assert (G : forall acc,
             Forall (fun s => exists z, endKey host s = Fin z) acc ->
             newestFirst host acc ->
             Forall (fun s => exists z, endKey host s = Fin z) l ->
             newestFirst host (fold_left (fun acc x => sort_insert (byEndAtDesc host) x acc) l acc)).
  { induction l as [|x l IH]; intros acc Ha Hs Hl; cbn; [done |].
    apply Forall_cons in Hl as [Hx Hl]. apply IH; [| | done].
    - rewrite (sort_insert_perm (byEndAtDesc host) x acc). by constructor.
    - by apply sort_insert_newestFirst. }
  intros Hl. apply G; [constructor | constructor | done].
Qed.

Lemma endKey_normalizeOne (s : Session) (w : World) :
  numericEnd host s -> exists z, endKey host (fst (normalizeOne host s w)) = Fin z.
Proof.
  intros Hn. rewrite normalizeOne_fields. unfold endKey.
  destruct (get_normFields host s (ids w (draws w)) (clock w (ticks w))
              (clock w (startTick s w))) as (_ & -> & _).
  unfold endAtField. destruct (truthy (get s "endAt")) eqn:E.
  - rewrite js_or_truthy by done. by apply Hn.
  - destruct (truthy (get s "date")).
    + unfold js_or. cbn [truthy]. destruct (Date_new host (get s "date")) as [z|]; cbn.
      * destruct (z =? 0); cbn; eauto.
      * eauto.
    + unfold js_or. cbn. destruct (_ =? 0); cbn; eauto.
Qed.

Lemma mapM_Forall {A B} (f : A -> M B) (P : A -> Prop) (Q : B -> Prop) (l : list A) :
  (forall x w, P x -> Q (fst (f x w))) ->
  forall w, Forall P l -> Forall Q (fst (mapM f l w)).
Proof.
  intros Hf. induction l as [|x l IH]; intros w Hl; cbn.
  - constructor.
  - apply Forall_cons in Hl as [Hx Hl]. unfold bind, ret.
    destruct (f x w) as [y w1] eqn:E1.
    specialize (IH w1 Hl). destruct (mapM f l w1) as [ys w2]. cbn in *.
    constructor; [| done]. specialize (Hf x w Hx). by rewrite E1 in Hf.
Qed.

Lemma mapM_length {A B} (f : A -> M B) (l : list A) :
  forall w, length (fst (mapM f l w)) = length l.
Proof.
  induction l as [|x l IH]; intros w; cbn; [done |].
  unfold bind, ret. destruct (f x w) as [y w1].
  specialize (IH w1). destruct (mapM f l w1) as [ys w2]. cbn in *. by rewrite IH.
Qed.

(** X19. When every stored [endAt] that is set converts to a number,
    the list set by the load effect has one session per stored record
    and is ordered by [endAt], latest first. *)
Theorem normalized_newestFirst (stored : list Session) (w : World) :
  Forall (numericEnd host) stored ->
  newestFirst host (fst (normalized host stored w)) /\
  length (fst (normalized host stored w)) = length stored.
Proof.
  intros Hn. unfold normalized, bind, ret.
  pose proof (mapM_Forall (normalizeOne host) (numericEnd host)
                (fun s => exists z, endKey host s = Fin z) stored
                (fun x w' H => endKey_normalizeOne x w' H) w Hn) as Hk.
  pose proof (mapM_length (normalizeOne host) stored w) as Hlen.
  destruct (mapM (normalizeOne host) stored w) as [l w1]. cbn in *.
  split; [by apply sort_newestFirst |].
  by rewrite (sort_perm (byEndAtDesc host) l).
Qed.

End SortProps.


(** ** Tags as text *)

Section TagTextProps.
Import App.

Lemma split_before_sep (sep : ascii) (a b : string) :
  has_char sep a = false -> split sep (a +:+ String sep b) = a :: split sep b.
Proof.
  induction a as [|c a IH]; intros H.
  - change (split sep (String sep b) = EmptyString :: split sep b).
    cbn [split]. by rewrite Ascii.eqb_refl.
  - cbn in H. apply orb_false_iff in H as [Hc Ha].
    rewrite append_cons. cbn [split]. rewrite Hc. by rewrite (IH Ha).
Qed.

Lemma split_no_sep (sep : ascii) (a : string) :
  has_char sep a = false -> split sep a = [a].
Proof.
  induction a as [|c a IH]; intros H; [done |].
  cbn in H. apply orb_false_iff in H as [Hc Ha].
  cbn [split]. rewrite Hc. by rewrite (IH Ha).
Qed.

Lemma split_parts_no_sep (sep : ascii) (s : string) :
  Forall (fun x => has_char sep x = false) (split sep s).
Proof.
  induction s as [|c s IH]; cbn [split].
  - by repeat constructor.
  - destruct (Ascii.eqb c sep) eqn:E.
    + by constructor.
    + destruct (split sep s) as [|x r].
      * repeat constructor. cbn. by rewrite E.
      * apply Forall_cons in IH as [Hx Hr]. constructor; [| done].
        cbn. by rewrite E, Hx.
Qed.

Lemma has_char_trimStart (c : ascii) (s : string) :
  has_char c s = false -> has_char c (trimStart s) = false.
Proof.
  induction s as [|x s IH]; intros H; [done |].
  cbn [trimStart]. destruct (is_ws x); [| done].
  cbn in H. apply orb_false_iff in H as [_ H]. by apply IH.
Qed.

Lemma has_char_trimEnd (c : ascii) (s : string) :
  has_char c s = false -> has_char c (trimEnd s) = false.
Proof.
  induction s as [|x s IH]; intros H; [done |].
  cbn in H. apply orb_false_iff in H as [Hx H].
  cbn [trimEnd]. destruct (is_ws x && String.eqb (trimEnd s) ""); [done |].
  cbn. by rewrite Hx, IH.
Qed.

Lemma trimEnd_idem (s : string) : trimEnd (trimEnd s) = trimEnd s.
Proof.
  induction s as [|x s IH]; [done |].
  cbn [trimEnd]. destruct (is_ws x && String.eqb (trimEnd s) "") eqn:E; [done |].
  cbn [trimEnd]. rewrite IH. by rewrite E.
Qed.

Lemma trimStart_trimEnd (s : string) :
  trimStart s = s -> trimStart (trimEnd s) = trimEnd s.
Proof.
  destruct s as [|x s]; [done |].
  cbn [trimStart trimEnd]. destruct (is_ws x) eqn:E.
  - intros H. exfalso. apply (f_equal String.length) in H.
    assert (G : forall r, (String.length (trimStart r) <= String.length r)%nat).
    { induction r as [|y r IHr]; cbn; [lia |]. destruct (is_ws y); cbn; lia. }
    specialize (G s). cbn in H. lia.
  - intros _. cbn [andb trimStart]. by rewrite E.
Qed.

Lemma trimStart_idem (s : string) : trimStart (trimStart s) = trimStart s.
Proof.
  induction s as [|x s IH]; [done |].
  cbn [trimStart]. destruct (is_ws x) eqn:E; [done |]. cbn [trimStart]. by rewrite E.
Qed.

Lemma trim_idem (s : string) : trim (trim s) = trim s.
Proof.
  unfold trim. rewrite (trimStart_trimEnd (trimStart s)) by apply trimStart_idem.
  apply trimEnd_idem.
Qed.

(** A no-break space at either end goes as a space does. *)
Lemma trim_no_break_space :
  App.trim (String (ascii_of_nat 160) (" x" +:+ String (ascii_of_nat 160) " ")) = "x".
Proof. reflexivity. Qed.

Lemma concat_cons (sep x y : string) (l : list string) :
  String.concat sep (x :: y :: l) = x +:+ sep +:+ String.concat sep (y :: l).
Proof. reflexivity. Qed.

Lemma has_char_append (c : ascii) (a b : string) :
  has_char c (a +:+ b) = has_char c a || has_char c b.
Proof.
  induction a as [|x a IH]; [done |].
  rewrite append_cons. cbn [has_char]. by rewrite IH, orb_assoc.
Qed.

(** Reading back a joined list, with or without a space in front. *)
Lemma read_joined (l : list string) (t : string) (lead : bool) :
  Forall cleanTag (t :: l) ->
  List.filter (fun x => negb (String.eqb x ""))
    (List.map trim
       (split "," ((if lead then " " else "") +:+ String.concat ", " (t :: l))))
  = t :: l.
Proof.
  revert t lead. induction l as [|t' l IH]; intros t lead Hc.
  - apply Forall_cons in Hc as [(Hne & Ht & Hcomma) _]. cbn [String.concat].
    rewrite split_no_sep.
    2:{ rewrite has_char_append, Hcomma. by destruct lead. }
    cbn [List.map List.filter].
    assert (trim ((if lead then " " else "") +:+ t) = t) as ->.
    { destruct lead; [| done]. exact Ht. }
    by destruct (String.eqb_spec t "").
  - apply Forall_cons in Hc as [(Hne & Ht & Hcomma) Hc].
    rewrite concat_cons.
    change (", " +:+ String.concat ", " (t' :: l))
      with (String "," (" " +:+ String.concat ", " (t' :: l))).
    rewrite <- append_assoc, split_before_sep.
    2:{ rewrite has_char_append, Hcomma. by destruct lead. }
    cbn [List.map List.filter].
    assert (trim ((if lead then " " else "") +:+ t) = t) as ->.
    { destruct lead; [| done]. exact Ht. }
    destruct (String.eqb_spec t ""); [done |]. cbn [negb].
    f_equal. apply (IH t' true Hc).
Qed.

(** X20. The tags read from the tag field are never empty, have no
    white space at either end and no comma; a list of such tags joined
    by [", "] reads back as the same list. *)
Theorem parseTags_join (v : JsVal) (tags : list string) :
  parseTags v = Normal tags ->
  Forall cleanTag tags /\
  parseTags (JStr (join ", " tags)) = Normal tags /\
  forall l, Forall cleanTag l -> parseTags (JStr (join ", " l)) = Normal l.
Proof.
  intros Hp.
  assert (Hjoin : forall l, Forall cleanTag l -> parseTags (JStr (join ", " l)) = Normal l).
  { intros [|t l] Hl; [done |].
    unfold parseTags, join.
    assert (js_or (JStr (String.concat ", " (t :: l))) (JStr "")
            = JStr (String.concat ", " (t :: l))) as ->.
    { unfold js_or. cbn [truthy].
      destruct (String.eqb_spec (String.concat ", " (t :: l)) "") as [E | E];
        cbn [negb]; [by rewrite E | done]. }
    f_equal. apply (read_joined l t false Hl). }
  assert (Hclean : Forall cleanTag tags).
  { unfold parseTags in Hp. destruct (js_or v (JStr "")) as [| | | |str|]; try done.
    injection Hp as <-.
    pose proof (split_parts_no_sep "," str) as Hs.
    induction Hs as [|x r Hx Hr IH]; cbn; [constructor |].
    destruct (String.eqb_spec (trim x) ""); cbn; [done |].
    constructor; [| done]. split; [done |]. split; [apply trim_idem |].
    unfold trim. by apply has_char_trimEnd, has_char_trimStart. }
  split; [done |]. split; [by apply Hjoin | done].
Qed.

End TagTextProps.


(** ** Session lists the application reaches, and the earlier normalizer *)

Section InvariantProps.
Import App.
Context (host : Host).

Lemma sessionsStep_tagsWellFormed (prev next : list Session) :
  tagsWellFormed prev -> sessionsStep host prev next -> tagsWellFormed next.
Proof.
  intros Hwf Hstep. destruct Hstep as [st w | confirmed id | now st st' msg Hs He].
  - destruct (confirmSave_sessions host st prev w) as [-> | (s & -> & Ht)]; [done |].
    intros x Hx. apply elem_of_cons in Hx as [-> | Hx]; [eauto | by apply Hwf].
  - intros x Hx. apply Hwf. unfold deleteSession in Hx.
    destruct confirmed; [| done].
    by apply list_elem_of_In, filter_In in Hx as [Hx _]; apply list_elem_of_In.
  - unfold saveEdit in He. destruct (editDraft st) as [draft |]; [| by injection He as <- _; rewrite Hs].
    destruct (num_isNaN _ || num_isNaN _); [by injection He as <- _; rewrite Hs |].
    destruct (num_le _ _); [by injection He as <- _; rewrite Hs |].
    destruct (num_gt _ _); [by injection He as <- _; rewrite Hs |].
    destruct (parseTags _) as [tags |]; [| done]. cbn in He. injection He as <- _. cbn.
    intros x Hx. apply list_elem_of_fmap in Hx as (y & -> & Hy).
    destruct (strict_eq _ _); [| apply Hwf; by rewrite <- Hs].
    exists tags. unfold tags_of, spread2, get.
    rewrite lookup_union_l'.
    2:{ rewrite lookup_delete_ne by done. rewrite lookup_insert_eq. eauto. }
    rewrite lookup_delete_ne by done. by rewrite lookup_insert_eq.
Qed.

(** X21. Every session list reached from a load by saving stopwatch
    runs, deleting sessions and saving edits gives a tag list for each
    session; so the filter and [allTags] complete on it, for any range
    and any selection of tags. *)
Theorem reachable_filter_total (stored : list Session) (w : World)
        (sessions : list Session) (range : string) (selectedTags : list string) (now : Z) :
  reachable host stored w sessions ->
  tagsWellFormed sessions /\
  exists kept,
    filteredSessions host sessions range selectedTags now = Normal kept /\
    sublist kept sessions /\
    exists tags, App.allTags sessions = Normal tags.
Proof.
  intros Hr.
  assert (Hwf : tagsWellFormed sessions).
  { induction Hr as [| l l' Hr IH Hstep].
    - apply normalized_tagsWellFormed.
    - by eapply sessionsStep_tagsWellFormed. }
  split; [done |].
  rewrite filteredSessions_keeps by auto.
  eexists. split; [reflexivity |]. split; [apply filter_sublist_self |].
  destruct (collectTags_spec sessions [] Hwf) as (set & E & _); [constructor |].
  unfold allTags. rewrite E. cbn. eauto.
Qed.

End InvariantProps.

Section LegacyProps.
Context (host : Host).

Lemma get_insert (s : Session) (k k' : string) (v : JsVal) :
  get (<[k := v]> s) k' = if decide (k = k') then v else get s k'.
Proof.
  unfold get. destruct (decide (k = k')) as [-> | Hne].
  - by rewrite lookup_insert_eq.
  - by rewrite lookup_insert_ne.
Qed.

Lemma Legacy_normalizeOne_stages (s : Session) (w : World) (k : string) :
  truthy (get s "endAt") = true ->
  k <> "topic" -> k <> "notes" ->
  get (fst (Legacy.normalizeOne host s w)) k
  = get (legacyDuration host (legacyStart host s)) k.
Proof.
  intros Ht Hk1 Hk2.
  assert (Hfinal : forall a : Session,
    get (if negb (truthy (get (if negb (truthy (get a "topic"))
                               then <["topic" := JStr "(no topic)"]> a else a) "notes"))
         then <["notes" := JStr ""]>
                (if negb (truthy (get a "topic"))
                 then <["topic" := JStr "(no topic)"]> a else a)
         else if negb (truthy (get a "topic"))
              then <["topic" := JStr "(no topic)"]> a else a) k
    = get a k).
  { intros a. destruct (negb (truthy (get a "topic")));
      destruct (negb (truthy (get _ "notes")));
      rewrite ?get_insert; repeat destruct (decide _); done. }
  unfold Legacy.normalizeOne, Legacy.endAtOrNow, bind, ret, legacyDuration, legacyStart.
  rewrite Ht. cbn [negb andb].
  assert (Hend : forall v, truthy (get (<["startAt" := v]> s) "endAt") = true).
  { intros v. rewrite get_insert. by destruct (decide _). }
  destruct (truthy (get s "startAt")); cbn [negb]; cbv beta iota zeta;
    [| destruct (truthy (get s "durationMs")); cbv beta iota zeta];
    repeat (progress (rewrite ?Hend, ?Ht; cbv beta iota zeta));
    match goal with
    | |- context [num_truthy ?n] => destruct (num_truthy n)
    end;
    repeat (progress (rewrite ?Hend, ?Ht; cbv beta iota zeta));
    cbn [fst]; apply Hfinal.
Qed.

Lemma get_insert_eq (s : Session) (k : string) (v : JsVal) : get (<[k := v]> s) k = v.
Proof. unfold get. by rewrite lookup_insert_eq. Qed.

Lemma get_insert_ne (s : Session) (k k' : string) (v : JsVal) :
  k <> k' -> get (<[k := v]> s) k' = get s k'.
Proof. intros H. unfold get. by rewrite lookup_insert_ne. Qed.

(** The start the earlier normalizer settles on. *)
Lemma legacyStart_fields (s : Session) :
  get (legacyStart host s) "endAt" = get s "endAt" /\
  get (legacyStart host s) "durationMs" = get s "durationMs" /\
  get (legacyStart host s) "startAt"
  = if truthy (get s "startAt") then get s "startAt"
    else if truthy (get s "durationMs")
         then JNum (js_sub host (get s "endAt") (get s "durationMs"))
         else get s "endAt".
Proof.
  unfold legacyStart.
  destruct (truthy (get s "startAt")); cbn [negb]; [done |].
  destruct (truthy (get s "durationMs"));
    by rewrite get_insert_eq, !get_insert_ne.
Qed.

Lemma legacyDuration_fields (s : Session) :
  get (legacyDuration host s) "endAt" = get s "endAt" /\
  get (legacyDuration host s) "startAt" = get s "startAt" /\
  get (legacyDuration host s) "durationMs"
  = if num_truthy (ToNumber host (get s "durationMs"))
    then JNum (ToNumber host (get s "durationMs"))
    else JNum (Math_max (Fin 0) (js_sub host (get s "endAt") (get s "startAt"))).
Proof.
  unfold legacyDuration. cbv zeta.
  destruct (num_truthy _); by rewrite get_insert_eq, !get_insert_ne.
Qed.

(** X22. The earlier normalizer, on a record with a numeric [endAt]
    other than 0 and a [durationMs] that is missing or a number, keeps
    [endAt].  A record with no start gets the start [endAt - durationMs]
    when it has a duration, and the start [endAt] with the duration 0
    when it has none; a record with a start and no duration gets the
    duration [max(0, endAt - startAt)].  With no start, or with a start
    at or before the end and no duration, [durationMs === endAt -
    startAt] holds of the result. *)
Theorem Legacy_normalizeOne_duration (s : Session) (w : World) (e : Z) :
  get s "endAt" = JNum (Fin e) -> e <> 0 ->
  (get s "durationMs" = JUndefined \/ exists d, get s "durationMs" = JNum d) ->
  let s' := fst (Legacy.normalizeOne host s w) in
  get s' "endAt" = JNum (Fin e) /\
  (truthy (get s "startAt") = false ->
   truthy (get s "durationMs") = false ->
   get s' "startAt" = JNum (Fin e) /\ get s' "durationMs" = JNum (Fin 0)) /\
  (truthy (get s "startAt") = false ->
   forall d, get s "durationMs" = JNum (Fin d) -> d <> 0 ->
   get s' "startAt" = JNum (Fin (e - d)) /\ get s' "durationMs" = JNum (Fin d)) /\
  (forall a, get s "startAt" = JNum (Fin a) -> a <> 0 ->
   truthy (get s "durationMs") = false ->
   get s' "startAt" = JNum (Fin a) /\
   get s' "durationMs" = JNum (Fin (Z.max 0 (e - a)))) /\
  (truthy (get s "startAt") = false \/
   (exists a, get s "startAt" = JNum (Fin a) /\ a <> 0 /\ a <= e /\
              truthy (get s "durationMs") = false) ->
   durationConsistent host s').
Proof.
  intros He Hne Hd s'. subst s'.
  assert (Ht : truthy (get s "endAt") = true).
  { rewrite He. cbn. by destruct (Z.eqb_spec e 0). }
  assert (Hnum : num_truthy (ToNumber host (get s "durationMs"))
                 = truthy (get s "durationMs")).
  { by destruct Hd as [-> | [d ->]]. }
  unfold durationConsistent.
  rewrite !(Legacy_normalizeOne_stages s w) by done.
  destruct (legacyDuration_fields (legacyStart host s)) as (-> & -> & ->).
  destruct (legacyStart_fields s) as (-> & -> & ->).
  rewrite Hnum, He. cbn [js_sub ToNumber].
  split; [done |].
  split.
  { intros -> ->. split; [done |]. cbn. do 2 f_equal. lia. }
  split.
  { intros -> d Hdur Hd0. rewrite Hdur. cbn.
    destruct (Z.eqb_spec d 0); [done |]. by cbn. }
  split.
  { intros a -> Ha ->. cbn. destruct (Z.eqb_spec a 0); [done |]. by cbn. }
  intros [Es | (a & Ea & Ha & Hle & Ed)].
  - rewrite Es. destruct Hd as [Hu | [d Hdur]].
    + rewrite Hu. cbn. apply Z.eqb_eq. lia.
    + rewrite Hdur. cbn [truthy]. destruct d as [d |]; cbn.
      * destruct (Z.eqb_spec d 0); cbn; apply Z.eqb_eq; lia.
      * apply Z.eqb_eq. lia.
  - rewrite Ea, Ed. cbn. destruct (Z.eqb_spec a 0); [done |]. cbn.
    apply Z.eqb_eq. lia.
Qed.

End LegacyProps.


(** ** Thresholds of the earlier revision *)

Section ThresholdProps.
Import App.

(** X23. With any ascending array of nine thresholds, [colorForCount]
    of the earlier revision never moves to a lower tier when its
    argument grows. *)
Theorem colorForCount_thresholds_monotone (t0 t1 t2 t3 t4 t5 t6 t7 t8 : Z) (a b : Z) :
  t0 <= t1 -> t1 <= t2 -> t2 <= t3 -> t3 <= t4 -> t4 <= t5 ->
  t5 <= t6 -> t6 <= t7 -> t7 <= t8 ->
  a <= b ->
  let t := [t0; t1; t2; t3; t4; t5; t6; t7; t8] in
  exists i j : nat,
    tier_rank (Legacy.colorForCount (Fin a) t) = Some i /\
    tier_rank (Legacy.colorForCount (Fin b) t) = Some j /\
    (i <= j)%nat.
Proof.
  intros H01 H12 H23 H34 H45 H56 H67 H78 Hab t. unfold Legacy.colorForCount.
  pose proof (colorFor_cases t0 t1 t2 t3 t4 t5 t6 t7 t8 a
                H01 H12 H23 H34 H45 H56 H67 H78) as Ha.
  pose proof (colorFor_cases t0 t1 t2 t3 t4 t5 t6 t7 t8 b
                H01 H12 H23 H34 H45 H56 H67 H78) as Hb.
  cbv zeta in Ha, Hb. fold t in Ha, Hb.
  destruct Ha as [[? Ea]|[[? Ea]|[(?&?&Ea)|[(?&?&Ea)|[(?&?&Ea)|[(?&?&Ea)|[(?&?&Ea)|
                 [(?&?&Ea)|[(?&?&Ea)|[(?&?&Ea)|(?&?&Ea)]]]]]]]]]];
    rewrite Ea;
    destruct Hb as [[? Eb]|[[? Eb]|[(?&?&Eb)|[(?&?&Eb)|[(?&?&Eb)|[(?&?&Eb)|[(?&?&Eb)|
                   [(?&?&Eb)|[(?&?&Eb)|[(?&?&Eb)|(?&?&Eb)]]]]]]]]]];
    rewrite Eb; try lia;
    eexists _, _; (split; [reflexivity | split; [reflexivity | lia]]).
Qed.

End ThresholdProps.


(** ** The further theorems on concrete inputs *)

Lemma taggedSessions_wellFormed : tagsWellFormed taggedSessions.
Proof.
  intros s Hs. unfold taggedSessions in Hs.
  apply elem_of_cons in Hs as [-> | Hs]; [by vm_compute; eauto |].
  apply list_elem_of_singleton in Hs as ->. by vm_compute; eauto.
Qed.

Lemma sampleSessions_wellFormed : tagsWellFormed [endedDaysAgo 8; endedDaysAgo 6].
Proof.
  intros s Hs.
  apply elem_of_cons in Hs as [-> | Hs]; [by vm_compute; eauto |].
  apply list_elem_of_singleton in Hs as ->. by vm_compute; eauto.
Qed.

Lemma allTags_spec_witness :
  exists l, App.allTags taggedSessions = Normal l /\ ascending l /\ NoDup l.
Proof.
  destruct (allTags_spec taggedSessions taggedSessions_wellFormed) as (l & E & Ha & Hn & _).
  by exists l.
Defined.

Lemma toggleTag_spec_witness : NoDup (App.toggleTag "art" ["math"]).
Proof.
  apply (toggleTag_spec "art" ["math"]).
  apply (bool_decide_unpack _). vm_compute. exact I.
Defined.

Lemma filteredSessions_select_tag_witness :
  exists all kept kept',
    App.filteredSessions (fixedOffsetHost 0) [endedDaysAgo 8; endedDaysAgo 6]
                         "week" [] nowSample = Normal all /\
    App.filteredSessions (fixedOffsetHost 0) [endedDaysAgo 8; endedDaysAgo 6]
                         "week" ["math"] nowSample = Normal kept /\
    App.filteredSessions (fixedOffsetHost 0) [endedDaysAgo 8; endedDaysAgo 6]
                         "week" (App.toggleTag "art" ["math"]) nowSample = Normal kept' /\
    sublist kept all /\ sublist kept' all /\
    (["math"] <> [] -> sublist kept kept').
Proof.
  apply (filteredSessions_select_tag (fixedOffsetHost 0)).
  - exact sampleSessions_wellFormed.
  - intros H. apply list_elem_of_singleton in H. discriminate.
Defined.

Lemma getDateCutoff_days_witness :
  exists c n,
    App.getDateCutoff (fixedOffsetHost 0) "month" nowSample = Fin c /\
    (rangeDays "month").1 <= n <= (rangeDays "month").2 /\
    nowSample - (n + 1) * msPerDay < c < nowSample - (n - 1) * msPerDay /\
    (forall off, fixedOffset (fixedOffsetHost 0) off -> c = nowSample - n * msPerDay).
Proof.
  apply (getDateCutoff_days (fixedOffsetHost 0) "month" nowSample).
  - intros t b t' b'. cbn. unfold msPerDay. lia.
  - unfold maxTime, msPerDay, nowSample. lia.
Defined.

Lemma filteredSessions_wider_range_witness :
  exists kept1 kept2,
    App.filteredSessions (fixedOffsetHost 0) [endedDaysAgo 8; endedDaysAgo 6]
                         "week" [] nowSample = Normal kept1 /\
    App.filteredSessions (fixedOffsetHost 0) [endedDaysAgo 8; endedDaysAgo 6]
                         "month" [] nowSample = Normal kept2 /\
    sublist kept1 kept2 /\ sublist kept2 [endedDaysAgo 8; endedDaysAgo 6].
Proof.
  apply (filteredSessions_wider_range (fixedOffsetHost 0) _ "week" "month" 0 2).
  - intros t b t' b'. cbn. unfold msPerDay. lia.
  - unfold maxTime, msPerDay, nowSample. lia.
  - by left.
  - reflexivity.
  - reflexivity.
  - lia.
Defined.

Lemma formatDuration_fields_witness :
  List.map digitsValue (App.split ":" (App.formatDuration (Fin 90000000))) = [25; 0; 0].
Proof.
  apply (formatDuration_fields 90000000). unfold maxSafeInteger. lia.
Defined.

Lemma startOfDayISO_same_day_witness :
  App.startOfDayISO easternSpring2024 (Fin 1710039600000)
  = App.startOfDayISO easternSpring2024 (Fin 1710043200000).
Proof.
  apply (startOfDayISO_same_day easternSpring2024).
  - unfold maxTime. lia.
  - unfold maxTime. lia.
  - reflexivity.
Defined.

Lemma startOfDayISO_key_iff_day_witness :
  App.startOfDayISO (fixedOffsetHost 3600000) (Fin nowSample)
  = App.startOfDayISO (fixedOffsetHost 3600000) (Fin (nowSample + 1000))
  <-> localDay (fixedOffsetHost 3600000) nowSample
      = localDay (fixedOffsetHost 3600000) (nowSample + 1000).
Proof.
  apply (startOfDayISO_key_iff_day (fixedOffsetHost 3600000) 3600000).
  - by intros t b.
  - unfold msPerDay. lia.
  - unfold fourDigitYears, yearZero, yearTenThousand, msPerDay, nowSample. lia.
  - unfold fourDigitYears, yearZero, yearTenThousand, msPerDay, nowSample. lia.
Defined.

Lemma dayLoop_day_shares_witness :
  exists counts' : gmap string num,
    App.dayLoop (fixedOffsetHost 3600000)
                (Z.to_nat (daysSpanned (fixedOffsetHost 3600000)
                                       1710068400000 1710241200000))
                (Fin 1710241200000) (Fin 1710068400000) ∅
    = Some (Normal counts') /\
    forall t : Z,
      fourDigitYears t ->
      exists key,
        App.startOfDayISO (fixedOffsetHost 3600000) (Fin t) = Normal key /\
        bucket counts' key
        = bucket ∅ key
          + roundSeconds (dayShare (fixedOffsetHost 3600000) 1710068400000 1710241200000 t).
Proof.
  apply (dayLoop_day_shares (fixedOffsetHost 3600000) 3600000).
  - by intros t b.
  - unfold msPerDay. lia.
  - lia.
  - unfold fourDigitYears, yearZero, yearTenThousand, msPerDay. lia.
  - unfold fourDigitYears, yearZero, yearTenThousand, msPerDay. lia.
Defined.

Lemma countsByDay_shares_witness :
  exists (n : nat) (counts : gmap string num),
    (forall m, (n <= m)%nat ->
               App.countsByDay (fixedOffsetHost 0) m [shortSession] = Some (Normal counts)) /\
    forall t, fourDigitYears t ->
              exists key, App.startOfDayISO (fixedOffsetHost 0) (Fin t) = Normal key /\
                          bucket counts key = sumShares (fixedOffsetHost 0) t [shortSession].
Proof.
  apply (countsByDay_shares (fixedOffsetHost 0) 0).
  - by intros t b.
  - unfold msPerDay. lia.
  - constructor; [| constructor].
    intros s e H. vm_compute in H. injection H as <- <-.
    unfold fourDigitYears, yearZero, yearTenThousand, msPerDay. lia.
Defined.

Lemma Legacy_datetime_roundtrip_witness :
  Legacy.fromLocalDatetimeString (readingHost 3600000)
    (Legacy.toLocalDatetimeString (readingHost 3600000) (JNum (Fin 1710068412345)))
  = JNum (Fin (localMinute 3600000 1710068412345)).
Proof.
  apply (Legacy_datetime_roundtrip (readingHost 3600000) 3600000).
  - apply readingHost_fixed.
  - apply readingHost_decimals.
  - unfold maxTime, msPerMinute. lia.
  - vm_compute. split; discriminate.
Defined.

Lemma datetime_roundtrip_witness :
  App.fromLocalDatetimeString (readingHost 3600000)
    (App.toLocalDatetimeString (readingHost 3600000) (JNum (Fin 1710068412345)))
  = JNum (Fin (localMinute 3600000 1710068412345)).
Proof.
  apply (datetime_roundtrip (readingHost 3600000) 3600000).
  - apply readingHost_fixed.
  - apply readingHost_parses.
  - lia.
  - unfold maxTime, msPerMinute. lia.
  - vm_compute. split; discriminate.
Defined.

Lemma dayList_weekdays_witness :
  length (fst (App.dayList (fixedOffsetHost 0) sampleWorld))
  = Z.to_nat (365 + getDay (fixedOffsetHost 0) 1700000000000).
Proof.
  apply (dayList_weekdays (fixedOffsetHost 0) 0).
  - by intros t b.
  - by vm_compute.
  - cbn. unfold maxTime, msPerDay. lia.
  - cbn. unfold maxTime, msPerDay. lia.
Defined.

Lemma dayList_skips_change_day_witness :
  App.startOfDayISO easternSpring2024 (Fin 1710086400000) = Normal "2024-03-10" /\
  forall d, d ∈ fst (App.dayList easternSpring2024 summerWorld) ->
            exists key, App.startOfDayISO easternSpring2024 d = Normal key /\
                        key <> "2024-03-10".
Proof.
  apply (dayList_skips_change_day summerWorld).
  - cbn. unfold msPerDay. lia.
  - cbn. unfold msPerDay. lia.
Defined.

Lemma normalized_newestFirst_witness :
  newestFirst (fixedOffsetHost 0)
    (fst (App.normalized (fixedOffsetHost 0) [endedDaysAgo 8; endedDaysAgo 6] sampleWorld)).
Proof.
  apply (normalized_newestFirst (fixedOffsetHost 0)).
  constructor; [| constructor; [| constructor]]; intros _; vm_compute; eauto.
Defined.

Lemma parseTags_join_witness :
  App.parseTags (JStr (join ", " ["math"; "review"])) = Normal ["math"; "review"].
Proof.
  apply (parseTags_join (JStr "math, review")). reflexivity.
Defined.

Lemma reachable_filter_total_witness :
  exists kept,
    App.filteredSessions (fixedOffsetHost 0)
      (fst (App.normalized (fixedOffsetHost 0) [shortSession] sampleWorld))
      "week" ["math"] nowSample = Normal kept.
Proof.
  destruct (reachable_filter_total (fixedOffsetHost 0) [shortSession] sampleWorld
              (fst (App.normalized (fixedOffsetHost 0) [shortSession] sampleWorld))
              "week" ["math"] nowSample (reach_load _ _ _))
    as (_ & kept & E & _).
  by exists kept.
Defined.

Lemma Legacy_normalizeOne_duration_witness :
  let s := obj [("endAt", JNum (Fin 5000)); ("durationMs", JNum (Fin 3000))] in
  durationConsistent (fixedOffsetHost 0)
    (fst (Legacy.normalizeOne (fixedOffsetHost 0) s sampleWorld)).
Proof.
  intros s.
  apply (Legacy_normalizeOne_duration (fixedOffsetHost 0) s sampleWorld 5000).
  - reflexivity.
  - lia.
  - right. by exists (Fin 3000).
  - by left.
Defined.

Lemma colorForCount_thresholds_monotone_witness :
  exists i j : nat,
    App.tier_rank (Legacy.colorForCount (Fin 0) App.DEFAULT_THRESHOLDS) = Some i /\
    App.tier_rank (Legacy.colorForCount (Fin 1800) App.DEFAULT_THRESHOLDS) = Some j /\
    (i <= j)%nat.
Proof.
  apply (colorForCount_thresholds_monotone 1 1800 3600 7200 10800 14400 18000 21600 25200
           0 1800); lia.
Defined.

